(** * dfo: serialising a file system tree to a checksummed record stream

    A shallow embedding of [bin/dfo.py] (pack, unpack and the verifier),
    with the properties of its record stream, of the manifest check at the
    close of a directory and of the round trip. *)

From Stdlib Require Import ZArith Ascii String List Lia Decimal DecimalString DecimalNat.
From stdpp Require Import base tactics option list strings sorting.

Set Warnings "-register-all".

Local Open Scope Z_scope.
Local Open Scope list_scope.

(** ** Python byte strings

    A Python 2 [str] is a byte string: [string] here, one [ascii] per byte. *)

Module Py.

Definition LF : ascii := "010"%char.
Definition CR : ascii := "013"%char.
Definition SP : ascii := " "%char.

Definition chr (c : ascii) : string := String c EmptyString.

(** [c in s] *)
Fixpoint contains (c : ascii) (s : string) : bool :=
  match s with
  | EmptyString => false
  | String a s' => if Ascii.eqb a c then true else contains c s'
  end.

(** [s.partition(sep)] when [sep] occurs: the text before and after its
    first occurrence. *)
Fixpoint split_once (sep : ascii) (s : string) : option (string * string) :=
  match s with
  | EmptyString => None
  | String a s' =>
      if Ascii.eqb a sep then Some (EmptyString, s')
      else match split_once sep s' with
           | Some (l, r) => Some (String a l, r)
           | None => None
           end
  end.

(** [s.split(sep, maxsplit)] with a one-byte separator: at most
    [maxsplit] cuts, at the leftmost occurrences; neighbouring
    separators give empty fields. *)
Fixpoint split (sep : ascii) (maxsplit : nat) (s : string) : list string :=
  match maxsplit with
  | O => [s]
  | S m =>
      match split_once sep s with
      | None => [s]
      | Some (l, r) => l :: split sep m r
      end
  end.

(** [s.splitlines()] of a byte string: lines end at LF, CR or CR LF; the
    line ends are dropped and a final line end opens no further line. *)
Fixpoint splitlines (s : string) : list string :=
  match s with
  | EmptyString => []
  | String c rest =>
      if Ascii.eqb c LF then EmptyString :: splitlines rest
      else if Ascii.eqb c CR then
        match rest with
        | String c' rest' =>
            if Ascii.eqb c' LF then EmptyString :: splitlines rest'
            else EmptyString :: splitlines rest
        | EmptyString => [EmptyString]
        end
      else
        match splitlines rest with
        | [] => [chr c]
        | l :: ls => String c l :: ls
        end
  end.

(** ['%d' % n] for a length. *)
Definition str_of_nat (n : nat) : string :=
  NilEmpty.string_of_uint (Nat.to_uint n).

(** [''.join(['%s\n' % d for d in lines])] *)
Definition join_lines (lines : list string) : string :=
  fold_right (fun d acc => d +:+ String LF acc) EmptyString lines.

End Py.

(** ** hashlib.sha1

    SHA-1 (FIPS 180-4) over byte strings, on 32-bit words kept in [Z].  A
    hash object is the bytes fed to it so far: [update] appends, and
    [hexdigest] is the digest of everything fed. *)

Module Sha1.

Definition w32 (x : Z) : Z := Z.land x 4294967295.

Definition rotl (n x : Z) : Z :=
  w32 (Z.lor (Z.shiftl x n) (Z.shiftr x (32 - n))).

Definition bytes (s : string) : list Z :=
  map (fun c => Z.of_N (N_of_ascii c)) (list_ascii_of_string s).

Definition be64 (n : Z) : list Z :=
  map (fun i => Z.land (Z.shiftr n (8 * i)) 255) [7; 6; 5; 4; 3; 2; 1; 0].

Definition pad (msg : list Z) : list Z :=
  let l := length msg in
  msg ++ [128] ++ repeat 0 ((119 - l mod 64) mod 64)%nat
      ++ be64 (8 * Z.of_nat l).

Fixpoint words (bs : list Z) : list Z :=
  match bs with
  | a :: b :: c :: d :: rest =>
      Z.lor (Z.shiftl a 24) (Z.lor (Z.shiftl b 16) (Z.lor (Z.shiftl c 8) d))
      :: words rest
  | _ => []
  end.

(** The message schedule, latest word first. *)
Fixpoint extend (n : nat) (rw : list Z) : list Z :=
  match n with
  | O => rw
  | S n' =>
      let w := rotl 1 (Z.lxor (nth 2 rw 0)
                         (Z.lxor (nth 7 rw 0)
                            (Z.lxor (nth 13 rw 0) (nth 15 rw 0)))) in
      extend n' (w :: rw)
  end.

Definition hstate : Type := Z * Z * Z * Z * Z.

Definition round (t : nat) (w : Z) (s : hstate) : hstate :=
  let '(a, b, c, d, e) := s in
  let '(f, k) :=
    if (t <? 20)%nat then
      (Z.lor (Z.land b c) (Z.land (w32 (Z.lnot b)) d), 1518500249)
    else if (t <? 40)%nat then
      (Z.lxor b (Z.lxor c d), 1859775393)
    else if (t <? 60)%nat then
      (Z.lor (Z.land b c) (Z.lor (Z.land b d) (Z.land c d)), 2400959708)
    else
      (Z.lxor b (Z.lxor c d), 3395469782) in
  (w32 (rotl 5 a + f + e + k + w), a, rotl 30 b, c, d).

Fixpoint rounds (t : nat) (ws : list Z) (s : hstate) : hstate :=
  match ws with
  | [] => s
  | w :: ws' => rounds (S t) ws' (round t w s)
  end.

Definition compress (h : hstate) (rw16 : list Z) : hstate :=
  let '(h0, h1, h2, h3, h4) := h in
  let '(a, b, c, d, e) := rounds 0 (rev (extend 64 rw16)) h in
  (w32 (h0 + a), w32 (h1 + b), w32 (h2 + c), w32 (h3 + d), w32 (h4 + e)).

Definition absorb (acc : hstate * list Z) (w : Z) : hstate * list Z :=
  let '(h, buf) := acc in
  let buf' := w :: buf in
  if (length buf' =? 16)%nat then (compress h buf', []) else (h, buf').

Definition init : hstate :=
  (1732584193, 4023233417, 2562383102, 271733878, 3285377520).

Definition digest (s : string) : hstate :=
  fst (fold_left absorb (words (pad (bytes s))) (init, [])).

Definition hexchar (n : Z) : ascii :=
  match n with
  | 0 => "0" | 1 => "1" | 2 => "2" | 3 => "3" | 4 => "4" | 5 => "5"
  | 6 => "6" | 7 => "7" | 8 => "8" | 9 => "9" | 10 => "a" | 11 => "b"
  | 12 => "c" | 13 => "d" | 14 => "e" | _ => "f"
  end%char.

Definition hex32 (w : Z) (tail : string) : string :=
  fold_right (fun i acc => String (hexchar (Z.land (Z.shiftr w (4 * i)) 15)) acc)
    tail [7; 6; 5; 4; 3; 2; 1; 0].

(** [hashlib.sha1(s).hexdigest()] *)
Definition hexdigest (s : string) : string :=
  let '(a, b, c, d, e) := digest s in
  hex32 a (hex32 b (hex32 c (hex32 d (hex32 e EmptyString)))).

End Sha1.

(** ** Exceptions and the state-and-exception monad

    Every function of the program runs on a state (the output stream when
    packing; the input stream, the file system and the verifier when
    unpacking) and either returns or raises.  The state reached is kept
    in both cases: what was written before an exception stays written. *)

Inductive runtime_error : Type :=
| ExpectedHeaderGotEOF
| BadHeader (header : string)
| InvalidOpRecord (op : string)
| ExpectedContentsGotEOF
| ErrorMakingSymlink (name : string)
| InvalidCommand (command : string)
| ExpectedRootChecksumGotEOF
| InvalidDirectoryEntry (line dir_obj : string)
| InvalidExecBit (exec_bit : string)
| StreamIntegrityError
| CantSerialize (name : string) (mode : Z).

Inductive errno : Type := EEXIST | ENOENT | ENOTDIR | EISDIR | EINVAL.

Inductive exn : Type :=
| RuntimeError (e : runtime_error)  (* raised by dfo itself; [main] exits 1 *)
| OSError (e : errno)
| IOError (e : errno)
| EOFError
| ValueError
| AttributeError
| TypeError
| IndexError
| UnboundLocalError
| Unmodelled   (* a path that is not a single name, or access through a
                  symlink or a special file: outside this model *)
| OutOfFuel.

Inductive result (A : Type) : Type :=
| Ok (a : A)
| Raise (e : exn).
Arguments Ok {A} a.
Arguments Raise {A} e.

Definition M (S A : Type) : Type := S -> S * result A.

Definition ret {S A} (a : A) : M S A := fun s => (s, Ok a).
Definition raise {S A} (e : exn) : M S A := fun s => (s, Raise e).
Definition bind {S A B} (m : M S A) (k : A -> M S B) : M S B :=
  fun s => match m s with
           | (s', Ok a) => k a s'
           | (s', Raise e) => (s', Raise e)
           end.
Definition lift {S A} (r : result A) : M S A := fun s => (s, r).

(** [try: m  except <e matching handles>: h e] *)
Definition try_except {S A} (m : M S A) (handles : exn -> bool)
    (h : exn -> M S A) : M S A :=
  fun s => match m s with
           | (s', Raise e) => if handles e then h e s' else (s', Raise e)
           | r => r
           end.

Declare Scope dfo_scope.
Delimit Scope dfo_scope with dfo.
Notation "x <- m ;; k" := (bind m (fun x => k))
  (at level 100, m at next level, right associativity) : dfo_scope.
Notation "m ;;; k" := (bind m (fun _ => k))
  (at level 100, right associativity) : dfo_scope.
Local Open Scope dfo_scope.

(** [for x in l: acc = body x acc] *)
Fixpoint for_each {S A B} (l : list A) (body : A -> B -> M S B) (acc : B)
    : M S B :=
  match l with
  | [] => ret acc
  | x :: l' => acc' <- body x acc ;; for_each l' body acc'
  end.

(** ** tnet: the framing layer *)

Module tnet.

(** Modelled from the spec: [tnet.dump_line], which is not among the
    sources.  A blob is written as its decimal length, a colon, its
    bytes and a line feed (the header comment of dfo.py gives
    ['5:dfo--\n'] for the blob ['dfo--']). *)
Definition dump_line (s : string) : string :=
  Py.str_of_nat (String.length s) +:+ String ":" (s +:+ Py.chr Py.LF).

(** The value of a decimal digit, by its code: ["0"] is 48. *)
Definition digit (c : ascii) : option nat :=
  let code := nat_of_ascii c in
  if ((48 <=? code) && (code <=? 57))%nat then Some (code - 48)%nat else None.

Fixpoint read_length (acc : nat) (s : string) : option (nat * string) :=
  match s with
  | EmptyString => None
  | String c rest =>
      if Ascii.eqb c ":" then Some (acc, rest)
      else match digit c with
           | Some d => read_length (10 * acc + d)%nat rest
           | None => None
           end
  end.

Fixpoint take (n : nat) (s : string) : option (string * string) :=
  match n with
  | O => Some (EmptyString, s)
  | S n' =>
      match s with
      | EmptyString => None
      | String c rest =>
          match take n' rest with
          | Some (b, r) => Some (String c b, r)
          | None => None
          end
      end
  end.

(** Modelled from the spec: [tnet.readbytes], which is not among the
    sources.  It reads one blob from the stream; at the end of the
    stream it raises [EOFError] (the one exception dfo.py catches), and
    on bytes that are no blob it raises [ValueError]. *)
Definition readbytes : M string string :=
  fun in_file =>
    match in_file with
    | EmptyString => (in_file, Raise EOFError)
    | _ =>
        match read_length 0 in_file with
        | None => (in_file, Raise ValueError)
        | Some (n, rest) =>
            match take n rest with
            | Some (b, String c rest') =>
                if Ascii.eqb c Py.LF then (rest', Ok b)
                else (in_file, Raise ValueError)
            | _ => (in_file, Raise ValueError)
            end
        end
    end.

End tnet.

(** ** The file system *)

Inductive special : Type := Fifo | Socket | CharDev | BlockDev.

(** A node carries its permission bits (the low twelve bits of [st_mode])
    and what its kind holds.  A directory lists its entries in the order
    [os.listdir] returns them, which is arbitrary. *)
Inductive node : Type :=
| File (perms : Z) (data : string)
| Symlink (target : string)
| Dir (perms : Z) (entries : list (string * node))
| Special (kind : special) (perms : Z).

(** The file system as the process sees it: the entries of the current
    working directory and, for each directory above it, nearest first, its
    name, its permission bits and its entries before and after the one on
    the path.  [os.chdir] moves the focus down or up. *)
Record frame : Type := Frame {
  fr_name : string;
  fr_perms : Z;
  fr_before : list (string * node);
  fr_after : list (string * node)
}.

Record world : Type := World {
  here : list (string * node);
  up : list frame;
  umask : Z
}.

Module stat.
Definition S_IFMT (mode : Z) : Z := Z.land mode 0xF000.
Definition S_IMODE (mode : Z) : Z := Z.land mode 0xFFF.
Definition S_IFIFO : Z := 0x1000.
Definition S_IFCHR : Z := 0x2000.
Definition S_IFDIR : Z := 0x4000.
Definition S_IFBLK : Z := 0x6000.
Definition S_IFREG : Z := 0x8000.
Definition S_IFLNK : Z := 0xA000.
Definition S_IFSOCK : Z := 0xC000.
Definition S_ISLNK (mode : Z) : bool := S_IFMT mode =? S_IFLNK.
Definition S_ISREG (mode : Z) : bool := S_IFMT mode =? S_IFREG.
Definition S_ISDIR (mode : Z) : bool := S_IFMT mode =? S_IFDIR.
Definition S_IXUSR : Z := 0x40.  (* 0100 *)
Definition S_IXGRP : Z := 0x8.   (* 0010 *)
Definition S_IXOTH : Z := 0x1.   (* 0001 *)
End stat.

Module os.

Definition special_fmt (k : special) : Z :=
  match k with
  | Fifo => stat.S_IFIFO
  | Socket => stat.S_IFSOCK
  | CharDev => stat.S_IFCHR
  | BlockDev => stat.S_IFBLK
  end.

(** [os.lstat(path).st_mode]: the type of the node and its permission
    bits; a symlink shows as [0120777]. *)
Definition st_mode (n : node) : Z :=
  match n with
  | File p _ => Z.lor stat.S_IFREG (stat.S_IMODE p)
  | Symlink _ => Z.lor stat.S_IFLNK 0x1FF
  | Dir p _ => Z.lor stat.S_IFDIR (stat.S_IMODE p)
  | Special k p => Z.lor (special_fmt k) (stat.S_IMODE p)
  end.

(** [os.lstat(path).st_size], used for regular files only. *)
Definition st_size (n : node) : nat :=
  match n with
  | File _ data => String.length data
  | Symlink target => String.length target
  | _ => 0%nat
  end.

(** The first entry called [name], with the entries before and after. *)
Fixpoint find_entry (name : string) (es : list (string * node))
    : option (list (string * node) * node * list (string * node)) :=
  match es with
  | [] => None
  | (k, n) :: es' =>
      if String.eqb k name then Some ([], n, es')
      else match find_entry name es' with
           | Some (before, m, after) => Some ((k, n) :: before, m, after)
           | None => None
           end
  end.

Definition lookup (name : string) (es : list (string * node)) : option node :=
  match find_entry name es with
  | Some (_, n, _) => Some n
  | None => None
  end.

Definition listdir (d : node) : result (list string) :=
  match d with
  | Dir _ es => Ok (map fst es)
  | Symlink _ => Raise Unmodelled
  | _ => Raise (OSError ENOTDIR)
  end.

(** [os.lstat(os.path.join(dir, name))] *)
Definition lstat_in (d : node) (name : string) : result node :=
  match d with
  | Dir _ es =>
      match lookup name es with
      | Some n => Ok n
      | None => Raise (OSError ENOENT)
      end
  | Symlink _ => Raise Unmodelled
  | _ => Raise (OSError ENOTDIR)
  end.

Definition readlink (n : node) : result string :=
  match n with
  | Symlink target => Ok target
  | _ => Raise (OSError EINVAL)
  end.

(** [open(path)] for reading: the bytes still to read. *)
Definition open_r (n : node) : result string :=
  match n with
  | File _ data => Ok data
  | Dir _ _ => Raise (IOError EISDIR)
  | _ => Raise Unmodelled
  end.

(** A single name inside the current directory: not empty, not [.] or
    [..], without [/] and NUL.  Other paths are outside the model. *)
Definition plain (name : string) : bool :=
  negb (String.eqb name "") && negb (String.eqb name ".")
  && negb (String.eqb name "..") && negb (Py.contains "/" name)
  && negb (Py.contains "000" name).

(** [os.mkdir(name)]: mode [0777 & ~umask]. *)
Definition mkdir (name : string) : M world unit :=
  fun w =>
    if negb (plain name) then (w, Raise Unmodelled)
    else match lookup name (here w) with
         | Some _ => (w, Raise (OSError EEXIST))
         | None =>
             (World (here w ++ [(name, Dir (Z.land 0x1FF (Z.lnot (umask w))) [])])
                (up w) (umask w), Ok tt)
         end.

(** [os.chdir(name)] *)
Definition chdir (name : string) : M world unit :=
  fun w =>
    if String.eqb name ".." then
      match up w with
      | [] => (w, Ok tt)
      | fr :: up' =>
          (World (fr_before fr
                    ++ (fr_name fr, Dir (fr_perms fr) (here w)) :: fr_after fr)
             up' (umask w), Ok tt)
      end
    else if negb (plain name) then (w, Raise Unmodelled)
    else match find_entry name (here w) with
         | None => (w, Raise (OSError ENOENT))
         | Some (before, Dir p es, after) =>
             (World es (Frame name p before after :: up w) (umask w), Ok tt)
         | Some (_, Symlink _, _) => (w, Raise Unmodelled)
         | Some _ => (w, Raise (OSError ENOTDIR))
         end.

(** [with open(name, 'w') as f: f.write(contents)]: a new file gets mode
    [0666 & ~umask]; an existing regular file is truncated and
    rewritten, and keeps its mode. *)
Definition write_file (name contents : string) : M world unit :=
  fun w =>
    if negb (plain name) then (w, Raise Unmodelled)
    else match find_entry name (here w) with
         | None =>
             (World (here w ++ [(name, File (Z.land 0x1B6 (Z.lnot (umask w))) contents)])
                (up w) (umask w), Ok tt)
         | Some (before, File p _, after) =>
             (World (before ++ (name, File p contents) :: after)
                (up w) (umask w), Ok tt)
         | Some (_, Dir _ _, _) => (w, Raise (IOError EISDIR))
         | Some _ => (w, Raise Unmodelled)
         end.

(** [os.symlink(target, name)] *)
Definition symlink (target name : string) : M world unit :=
  fun w =>
    if negb (plain name) then (w, Raise Unmodelled)
    else match lookup name (here w) with
         | Some _ => (w, Raise (OSError EEXIST))
         | None =>
             (World (here w ++ [(name, Symlink target)]) (up w) (umask w), Ok tt)
         end.

(** [os.lstat(name).st_mode] *)
Definition lstat (name : string) : M world Z :=
  fun w =>
    if negb (plain name) then (w, Raise Unmodelled)
    else match lookup name (here w) with
         | Some n => (w, Ok (st_mode n))
         | None => (w, Raise (OSError ENOENT))
         end.

(** [os.chmod(name, mode)]: the permission bits of [mode] become those
    of the node; through a symlink it would reach the target. *)
Definition chmod (name : string) (mode : Z) : M world unit :=
  fun w =>
    if negb (plain name) then (w, Raise Unmodelled)
    else match find_entry name (here w) with
         | None => (w, Raise (OSError ENOENT))
         | Some (before, File _ data, after) =>
             (World (before ++ (name, File (stat.S_IMODE mode) data) :: after)
                (up w) (umask w), Ok tt)
         | Some (before, Dir _ es, after) =>
             (World (before ++ (name, Dir (stat.S_IMODE mode) es) :: after)
                (up w) (umask w), Ok tt)
         | Some (before, Special k _, after) =>
             (World (before ++ (name, Special k (stat.S_IMODE mode)) :: after)
                (up w) (umask w), Ok tt)
         | Some (_, Symlink _, _) => (w, Raise Unmodelled)
         end.

End os.

(** ** Packing *)

(** Read and write large files in chunks of this size. *)
Definition CHUNK_SIZE : N := 1048576.

(** [outf.write(s)] *)
Definition write (s : string) : M string unit :=
  fun outf => (outf +:+ s, Ok tt).

(** [f.read(size)]: up to [size] bytes, and the file from there on. *)
Fixpoint read (size : N) (f : string) : string * string :=
  match f with
  | EmptyString => (EmptyString, EmptyString)
  | String c f' =>
      if (size =? 0)%N then (EmptyString, f)
      else let '(chunk, rest) := read (N.pred size) f' in
           (String c chunk, rest)
  end.

Definition _WriteChunk (chunk : string) : M string unit :=
  write (tnet.dump_line chunk).

Definition _WritePair (cmd name : string) : M string unit :=
  write (tnet.dump_line (cmd +:+ " " +:+ name)).

(** The loop that streams a regular file: each chunk read is written out
    and fed to the hash object [sha1], up to the empty read at the end of
    the file. *)
Fixpoint copy_chunks (fuel : nat) (f : string) (sha1 : string)
    : M string string :=
  match fuel with
  | O => raise OutOfFuel
  | S fuel' =>
      let '(chunk, f') := read CHUNK_SIZE f in
      match chunk with
      | EmptyString => ret sha1
      | _ => write chunk ;;; copy_chunks fuel' f' (sha1 +:+ chunk)
      end
  end.

(** The variables of [_PackTree] that live across the iterations of its
    loop; [obj] is unbound until a symlink or a directory assigns it. *)
Record pack_vars : Type := PackVars {
  this_dir : list string;
  this_count : nat;
  obj : option string
}.

(** [sorted(names)]: byte strings in lexicographic order of their bytes. *)
Definition sorted (names : list string) : list string :=
  merge_sort String.le names.

(** [not checksum] *)
Definition falsy (checksum : option string) : bool :=
  match checksum with
  | None => true
  | Some EmptyString => true
  | Some _ => false
  end.

(** The body of the loop of [_PackTree] for the entry [name] of [dir];
    [recurse] is [_PackTree] on a subdirectory. *)
Definition pack_entry (recurse : node -> M string (string * nat))
    (dir : node) (name : string) (vars : pack_vars) : M string pack_vars :=
  st <- lift (os.lstat_in dir name) ;;
  let mode := os.st_mode st in
  let file_size := os.st_size st in
  r <-
    (if stat.S_ISLNK mode then
       target <- lift (os.readlink st) ;;
       _WritePair "L" name ;;;
       _WriteChunk target ;;;
       ret ("L", None, Some target, this_count vars + 1)%nat
     else if stat.S_ISREG mode then
       _WritePair "F" name ;;;
       write (Py.str_of_nat file_size +:+ ":") ;;;
       f <- lift (os.open_r st) ;;
       sha1 <- copy_chunks (S (String.length f)) f "" ;;
       write (Py.chr Py.LF) ;;;
       ret ("F", Some (Sha1.hexdigest sha1), obj vars, this_count vars + 1)%nat
     else if stat.S_ISDIR mode then
       _WritePair ">" name ;;;
       _WriteChunk "" ;;;
       sub <- recurse st ;;
       let '(sub_obj, node_count) := sub in
       _WritePair "<" name ;;;
       _WriteChunk sub_obj ;;;
       ret ("D", None, Some sub_obj, this_count vars + (node_count + 1))%nat
     else
       raise (RuntimeError (CantSerialize name mode))) ;;
  let '(node_type, checksum, obj', this_count') := r in
  checksum' <-
    (if falsy checksum then
       match obj' with
       | Some o => ret (Sha1.hexdigest o)
       | None => raise UnboundLocalError
       end
     else ret (default "" checksum)) ;;
  let perms := stat.S_IMODE mode in
  let p := if String.eqb node_type "F"
              && negb (Z.land perms stat.S_IXUSR =? 0)
           then "x" else "-" in
  ret {| this_dir := this_dir vars
           ++ [p +:+ " " +:+ node_type +:+ " " +:+ checksum' +:+ " " +:+ name];
         this_count := this_count';
         obj := obj' |}.

(** [_PackTree(prefix, dir, outf)]: [dir] is the directory at that path.
    The fuel bounds the depth of the recursion. *)
Fixpoint _PackTree (fuel : nat) (dir : node) : M string (string * nat) :=
  match fuel with
  | O => raise OutOfFuel
  | S fuel' =>
      names <- lift (os.listdir dir) ;;
      let entries := sorted names in
      vars <- for_each entries (pack_entry (_PackTree fuel') dir)
                {| this_dir := []; this_count := 0; obj := None |} ;;
      ret (Py.join_lines (this_dir vars), this_count vars)
  end.

(** The number of directory levels of a tree. *)
Fixpoint height (n : node) : nat :=
  match n with
  | Dir _ es => S (fold_right (fun e h => Nat.max (height (snd e)) h) 0%nat es)
  | _ => 0%nat
  end.

(** [PackTree(d, outf)], with the checksum and the node count it logs as
    its value. *)
Definition PackTree (d : node) : M string (string * nat) :=
  _WriteChunk "dfo--" ;;;
  _WritePair ">" "." ;;;
  _WriteChunk "" ;;;
  root <- _PackTree (S (height d)) d ;;
  let '(root_obj, node_count) := root in
  _WritePair "<" "." ;;;
  _WriteChunk root_obj ;;;
  let checksum := Sha1.hexdigest root_obj in
  _WriteChunk checksum ;;;
  ret (checksum, node_count).

(** ** Unpacking *)

(** The verifier's list objects live in a store, [current] and the
    elements of [stack] are addresses in it: [Push] puts the same list
    on the stack and in [current], and [OnEntry] appends to that one
    list. *)
Record Verifier : Type := MkVerifier {
  current : option nat;
  stack : list nat;
  lists : list (list (string * string))
}.

(** The state of an unpack: the input stream from the read position on,
    the file system with the working directory, and the verifier. *)
Record ustate : Type := UState {
  in_file : string;
  fs : world;
  ver : Verifier
}.

Definition on_in {A} (m : M string A) : M ustate A :=
  fun s => let '(i, r) := m (in_file s) in (UState i (fs s) (ver s), r).

Definition on_fs {A} (m : M world A) : M ustate A :=
  fun s => let '(w, r) := m (fs s) in (UState (in_file s) w (ver s), r).

Definition on_ver {A} (m : M Verifier A) : M ustate A :=
  fun s => let '(v, r) := m (ver s) in (UState (in_file s) (fs s) v, r).

Definition is_EOFError (e : exn) : bool :=
  match e with EOFError => true | _ => false end.

Definition is_OSError (e : exn) : bool :=
  match e with OSError _ => true | _ => false end.

Module verifier.

(** [Verifier()] *)
Definition __init__ : Verifier := MkVerifier None [] [].

(** [Push]: a new empty list, in [current] and on top of the stack. *)
Definition Push : M Verifier unit :=
  fun v =>
    let a := length (lists v) in
    (MkVerifier (Some a) (stack v ++ [a]) (lists v ++ [[]]), Ok tt).

(** [OnEntry]: [self.current.append((name, actual_checksum))] *)
Definition OnEntry (name actual_checksum : string) : M Verifier unit :=
  fun v =>
    match current v with
    | None => (v, Raise AttributeError)
    | Some a =>
        (MkVerifier (current v) (stack v)
           (alter (fun l => l ++ [(name, actual_checksum)]) a (lists v)),
         Ok tt)
    end.

Definition exec_mask : Z :=
  Z.lor stat.S_IXUSR (Z.lor stat.S_IXGRP stat.S_IXOTH).

(** The body of the loop of [Pop] over the lines of the manifest. *)
Definition pop_line (dir_obj line : string)
    (expected : list (string * string)) : M ustate (list (string * string)) :=
  match Py.split Py.SP 3 line with
  | [exec_bit; type; expected_checksum; name] =>
      let expected' := expected ++ [(name, expected_checksum)] in
      (if String.eqb exec_bit "x" then
         mode <- on_fs (os.lstat name) ;;
         on_fs (os.chmod name (Z.lor mode exec_mask))
       else if String.eqb exec_bit "-" then ret tt
       else raise (RuntimeError (InvalidExecBit exec_bit))) ;;;
      ret expected'
  | _ => raise (RuntimeError (InvalidDirectoryEntry line dir_obj))
  end.

(** [self.current], as a value: [None] or the list at that address. *)
Definition actual (v : Verifier) : option (list (string * string)) :=
  match current v with
  | Some a => lists v !! a
  | None => None
  end.

(** The end of [Pop]: [self.stack.pop()], and [current] becomes the
    list now on top, if there is one. *)
Definition pop_stack : M Verifier unit :=
  fun v =>
    match stack v with
    | [] => (v, Raise IndexError)
    | _ =>
        let stack' := removelast (stack v) in
        (MkVerifier (match stack' with
                     | [] => current v
                     | _ => Some (List.last stack' 0%nat)
                     end) stack' (lists v), Ok tt)
    end.

(** [Pop(dir_obj)].  When the two lists differ, both are logged before
    the integrity error is raised: [for n, c in actual] raises
    [TypeError] when [self.current] is [None], and the [raise] is not
    reached. *)
Definition Pop (dir_obj : string) : M ustate unit :=
  expected <- for_each (Py.splitlines dir_obj) (pop_line dir_obj) [] ;;
  fun s =>
    if decide (Some expected = actual (ver s)) then on_ver pop_stack s
    else (s, Raise (match current (ver s) with
                    | None => TypeError
                    | Some _ => RuntimeError StreamIntegrityError
                    end)).

End verifier.

(** [_MakeOneDir(dir)] *)
Definition _MakeOneDir (dir : string) : M world unit :=
  try_except (os.mkdir dir) is_OSError
    (fun e => match e with
              | OSError EEXIST => ret tt
              | _ => raise e
              end).

(** [try: tnet.readbytes(in_file)  except EOFError: raise RuntimeError(e)] *)
Definition read_or (e : runtime_error) : M ustate string :=
  try_except (on_in tnet.readbytes) is_EOFError
    (fun _ => raise (RuntimeError e)).

(** The branches of the loop of [_UnpackTree] on the command of a
    record; [continue] is the next iteration, at the level given. *)
Definition dispatch (continue : Z -> M ustate unit) (level : Z)
    (command name contents : string) : M ustate unit :=
  let actual_checksum := Sha1.hexdigest contents in
  if String.eqb command ">" then
    (if negb (String.eqb name ".") then
       on_fs (_MakeOneDir name) ;;; on_fs (os.chdir name)
     else ret tt) ;;;
    on_ver verifier.Push ;;;
    continue (level + 1)
  else if String.eqb command "<" then
    verifier.Pop contents ;;;
    on_ver (verifier.OnEntry name actual_checksum) ;;;
    let level' := level - 1 in
    if level' =? 0 then ret tt
    else
      (if negb (String.eqb name ".") then on_fs (os.chdir "..")
       else ret tt) ;;;
      continue level'
  else if String.eqb command "F" then
    on_fs (os.write_file name contents) ;;;
    on_ver (verifier.OnEntry name actual_checksum) ;;;
    continue level
  else if String.eqb command "L" then
    on_fs (try_except (os.symlink contents name) is_OSError
             (fun e => match e with
                       | OSError EEXIST => ret tt
                       | _ => raise (RuntimeError (ErrorMakingSymlink name))
                       end)) ;;;
    on_ver (verifier.OnEntry name actual_checksum) ;;;
    continue level
  else raise (RuntimeError (InvalidCommand command)).

(** The [while True] loop of [_UnpackTree]: one op record and its data
    blob per iteration; it ends ([break]) at the end of the stream or
    when [level] is back to 0. *)
Fixpoint unpack_loop (fuel : nat) (level : Z) : M ustate unit :=
  match fuel with
  | O => raise OutOfFuel
  | S fuel' =>
      next <- try_except (op <- on_in tnet.readbytes ;; ret (Some op))
                is_EOFError (fun _ => ret None) ;;
      match next with
      | None => ret tt
      | Some op =>
          match Py.split Py.SP 1 op with
          | [command; name] =>
              contents <- read_or ExpectedContentsGotEOF ;;
              dispatch (unpack_loop fuel') level command name contents
          | _ => raise (RuntimeError (InvalidOpRecord op))
          end
      end
  end.

(** [_UnpackTree(in_file, dir)], with the root checksum it prints as its
    value.  Every iteration of the loop reads at least one byte, so the
    length of the input bounds their number. *)
Definition _UnpackTree (dir : string) : M ustate string :=
  on_fs (_MakeOneDir dir) ;;;
  on_fs (os.chdir dir) ;;;
  on_ver (fun _ => (verifier.__init__, Ok tt)) ;;;
  header <- read_or ExpectedHeaderGotEOF ;;
  if negb (String.eqb header "dfo--") then
    raise (RuntimeError (BadHeader header))
  else
    (fun s => unpack_loop (S (String.length (in_file s))) 0 s) ;;;
    root_checksum <- read_or ExpectedRootChecksumGotEOF ;;
    ret root_checksum.

(** Packing [d] and unpacking the stream into [dir], in the world [w]. *)
Definition unpack_of (stream dir : string) (w : world) : ustate * result string :=
  _UnpackTree dir (UState stream w verifier.__init__).

(** ** Trees and the records of their pack

    The definitions below serve the statements: which trees are directory
    trees of files, directories and symlinks, what the records of such a
    tree are, and what its unpacked image is. *)

Definition is_hex (c : ascii) : bool :=
  Py.contains c "0123456789abcdef".

Fixpoint all_hex (s : string) : bool :=
  match s with
  | EmptyString => true
  | String c s' => is_hex c && all_hex s'
  end.

(** A name that the manifest can carry: a single path component without a
    line end. *)
Definition good_name (name : string) : bool :=
  os.plain name && negb (Py.contains Py.LF name) && negb (Py.contains Py.CR name).

Fixpoint distinct (l : list string) : bool :=
  match l with
  | [] => true
  | x :: l' => negb (existsb (String.eqb x) l') && distinct l'
  end.

(** Trees of regular files, directories and symlinks, the names of a
    directory being distinct; [names_ok] is what is asked of each name. *)
Fixpoint tree_of (names_ok : string -> bool) (n : node) : bool :=
  match n with
  | File _ _ => true
  | Symlink _ => true
  | Dir _ es =>
      distinct (map fst es)
      && (fix all (l : list (string * node)) : bool :=
            match l with
            | [] => true
            | (k, m) :: l' => names_ok k && tree_of names_ok m && all l'
            end) es
  | Special _ _ => false
  end.

Definition is_dir (n : node) : bool :=
  match n with Dir _ _ => true | _ => false end.

(** The owner-executable bit, [0100]. *)
Definition owner_exec (perms : Z) : bool := Z.testbit perms 6.

(** The entries of a directory under the names [ns], in that order. *)
Definition entries_of (es : list (string * node)) (ns : list string)
    : list (string * node) :=
  omap (fun name => option_map (pair name) (os.lookup name es)) ns.

(** The entries of a directory in the order [_PackTree] visits them. *)
Definition sorted_entries (d : node) : list (string * node) :=
  match d with
  | Dir _ es => entries_of es (sorted (map fst es))
  | _ => []
  end.

Definition type_letter (n : node) : string :=
  match n with
  | File _ _ => "F"
  | Symlink _ => "L"
  | Dir _ _ => "D"
  | Special _ _ => ""
  end.

Definition exec_letter (n : node) : string :=
  match n with
  | File p _ => if owner_exec p then "x" else "-"
  | _ => "-"
  end.

Definition checksum_with (man : node -> string) (n : node) : string :=
  match n with
  | File _ data => Sha1.hexdigest data
  | Symlink target => Sha1.hexdigest target
  | Dir _ _ => Sha1.hexdigest (man n)
  | Special _ _ => ""
  end.

Definition line_with (man : node -> string) (e : string * node) : string :=
  exec_letter e.2 +:+ " " +:+ type_letter e.2 +:+ " "
    +:+ checksum_with man e.2 +:+ " " +:+ e.1.

(** The manifest of a directory: one line per entry, in sorted order. *)
Fixpoint manifest (fuel : nat) (d : node) : string :=
  match fuel with
  | O => ""
  | S f => Py.join_lines (map (line_with (manifest f)) (sorted_entries d))
  end.

Definition entry_blobs (sub : node -> list string) (man : node -> string)
    (e : string * node) : list string :=
  match e.2 with
  | File _ data => ["F " +:+ e.1; data]
  | Symlink target => ["L " +:+ e.1; target]
  | Dir _ _ => ["> " +:+ e.1; ""] ++ sub e.2 ++ ["< " +:+ e.1; man e.2]
  | Special _ _ => []
  end.

(** The blobs written for the entries of a directory. *)
Fixpoint blobs (fuel : nat) (d : node) : list string :=
  match fuel with
  | O => []
  | S f => flat_map (entry_blobs (blobs f) (manifest f)) (sorted_entries d)
  end.

(** The bytes of a sequence of blobs. *)
Definition framed (l : list string) : string :=
  fold_right (fun b acc => tnet.dump_line b +:+ acc) "" l.

Definition entry_count (sub : node -> nat) (e : string * node) : nat :=
  match e.2 with
  | Dir _ _ => sub e.2 + 1
  | _ => 1
  end.

(** The node count [_PackTree] returns: the nodes below the directory. *)
Fixpoint count (fuel : nat) (d : node) : nat :=
  match fuel with
  | O => 0
  | S f => list_sum (map (entry_count (count f)) (sorted_entries d))
  end.

(** The manifest of the root of a tree, and the stream of the tree up to
    its last blob, the trailer. *)
Definition root_manifest (d : node) : string := manifest (S (height d)) d.

Definition stream_body (d : node) : string :=
  framed (["dfo--"; "> ."; ""] ++ blobs (S (height d)) d
            ++ ["< ."; root_manifest d]).

(** The stream of a whole tree: the trailer is the root checksum. *)
Definition stream_of (d : node) : string :=
  stream_body d +:+ tnet.dump_line (Sha1.hexdigest (root_manifest d)).

(** Modes of what unpack creates, under a umask. *)
Definition creat_file (um : Z) : Z := Z.land 0x1B6 (Z.lnot um).
Definition creat_dir (um : Z) : Z := Z.land 0x1FF (Z.lnot um).

(** The permission bits after [os.chmod(name, mode | exec_mask)] on a
    regular file of permission bits [perms]. *)
Definition chmod_x (perms : Z) : Z :=
  stat.S_IMODE (Z.lor (Z.lor stat.S_IFREG (stat.S_IMODE perms)) verifier.exec_mask).

(** What unpack makes of a node: its image once the directory around it
    is closed, and before that ([fresh]). *)
Fixpoint image (um : Z) (fuel : nat) (n : node) : node :=
  match n with
  | File p data =>
      File (if owner_exec p then chmod_x (creat_file um) else creat_file um) data
  | Symlink target => Symlink target
  | Dir _ _ =>
      match fuel with
      | O => Dir (creat_dir um) []
      | S f =>
          Dir (creat_dir um)
            (map (fun e => (e.1, image um f e.2)) (sorted_entries n))
      end
  | Special k p => Special k p
  end.

Definition fresh (um : Z) (fuel : nat) (n : node) : node :=
  match n with
  | File _ data => File (creat_file um) data
  | _ => image um fuel n
  end.

Definition fresh_entries (um : Z) (fuel : nat) (ents : list (string * node))
    : list (string * node) :=
  map (fun e => (e.1, fresh um fuel e.2)) ents.

Definition image_entries (um : Z) (fuel : nat) (ents : list (string * node))
    : list (string * node) :=
  map (fun e => (e.1, image um fuel e.2)) ents.

(** The entries the verifier collects for a directory. *)
Definition checksums (man : node -> string) (ents : list (string * node))
    : list (string * string) :=
  map (fun e => (e.1, checksum_with man e.2)) ents.

Definition not_special (n : node) : bool :=
  match n with Special _ _ => false | _ => true end.

(** Two trees with the same names, and under each name the same kind of
    node with the same contents, target or entries, and the same
    owner-executable flag on regular files. *)
Fixpoint same (a b : node) : bool :=
  match a, b with
  | File p data, File p' data' =>
      String.eqb data data' && Bool.eqb (owner_exec p) (owner_exec p')
  | Symlink t, Symlink t' => String.eqb t t'
  | Dir _ es, Dir _ es' =>
      forallb (fun k => bool_decide (is_Some (os.lookup k es))) (map fst es')
      && (fix all (l : list (string * node)) : bool :=
            match l with
            | [] => true
            | (k, n) :: l' =>
                match os.lookup k es' with
                | Some m => same n m
                | None => false
                end && all l'
            end) es
  | _, _ => false
  end.

(** The same tree under another listing order: the same names in every
    directory, in any order, and under each name the same node, with the
    same mode. *)
Fixpoint relisted (a b : node) : bool :=
  match a, b with
  | File p data, File p' data' => (p =? p') && String.eqb data data'
  | Symlink t, Symlink t' => String.eqb t t'
  | Dir p es, Dir p' es' =>
      (p =? p')
      && forallb (fun k => bool_decide (is_Some (os.lookup k es))) (map fst es')
      && (fix all (l : list (string * node)) : bool :=
            match l with
            | [] => true
            | (k, n) :: l' =>
                match os.lookup k es' with
                | Some m => relisted n m
                | None => false
                end && all l'
            end) es
  | _, _ => false
  end.

(** The nodes of a tree, itself included, and its directories. *)
Fixpoint nodes (n : node) : nat :=
  match n with
  | Dir _ es => S (list_sum (map (fun e => nodes e.2) es))
  | _ => 1
  end.

Fixpoint dirs (n : node) : nat :=
  match n with
  | Dir _ es => S (list_sum (map (fun e => dirs e.2) es))
  | _ => 0
  end.

(** The entries of a directory that unpack is about to materialise:
    distinct good names, over trees no deeper than [f]. *)
Definition ents_ok (f : nat) (ents : list (string * node)) : Prop :=
  List.NoDup (map fst ents)
  /\ Forall (fun e => good_name e.1 = true /\ tree_of good_name e.2 = true
                      /\ (height e.2 <= f)%nat) ents.

Definition entries_blobs (f : nat) (ents : list (string * node)) : list string :=
  flat_map (entry_blobs (blobs f) (manifest f)) ents.

(** Running the loop of [_UnpackTree] over the records of [ents], inside
    a directory that holds [H] and none of their names, whose collector
    is the list at address [a]: after some [n] iterations the entries
    stand in the directory, still to be closed, and are collected. *)
Definition unpacks (um : Z) (f : nat) (ents : list (string * node)) : Prop :=
  forall H U a stk L level rest,
    Forall (fun e => os.lookup e.1 H = None) ents ->
    (a < length L)%nat -> 0 < level ->
    exists n extra,
      (n <= String.length (framed (entries_blobs f ents)))%nat /\
      forall k,
        unpack_loop (n + k) level
          (UState (framed (entries_blobs f ents) +:+ rest) (World H U um)
             (MkVerifier (Some a) (stk ++ [a]) L))
        = unpack_loop k level
            (UState rest (World (H ++ fresh_entries um f ents) U um)
               (MkVerifier (Some a) (stk ++ [a])
                  (alter (fun l => l ++ checksums (manifest f) ents) a L ++ extra))).

(** ** Manifests in general

    A manifest line as a record of its four fields, for the statements on
    [Verifier.Pop] over any manifest, not only the one pack wrote. *)
Record mline : Type := MLine {
  ml_exec : bool;        (* the first field: [x] or [-] *)
  ml_type : string;
  ml_checksum : string;
  ml_name : string
}.

Definition render (l : mline) : string :=
  (if ml_exec l then "x" else "-") +:+ " " +:+ ml_type l +:+ " "
    +:+ ml_checksum l +:+ " " +:+ ml_name l.

(** The fields are such that the line reads back as written: no space in
    the type and the checksum, no line end anywhere. *)
Definition line_ok (l : mline) : bool :=
  negb (Py.contains Py.SP (ml_type l)) && negb (Py.contains Py.SP (ml_checksum l))
  && negb (Py.contains Py.LF (ml_type l)) && negb (Py.contains Py.CR (ml_type l))
  && negb (Py.contains Py.LF (ml_checksum l)) && negb (Py.contains Py.CR (ml_checksum l))
  && negb (Py.contains Py.LF (ml_name l)) && negb (Py.contains Py.CR (ml_name l)).

(** The list [expected] that [Pop] builds from the lines. *)
Definition expected_of (lines : list mline) : list (string * string) :=
  map (fun l => (ml_name l, ml_checksum l)) lines.

Definition x_names (lines : list mline) : list string :=
  map ml_name (List.filter ml_exec lines).

(** [os.chmod(name, os.lstat(name).st_mode | exec_mask)] on a node. *)
Definition chmod_x_node (n : node) : node :=
  let perms' := stat.S_IMODE (Z.lor (os.st_mode n) verifier.exec_mask) in
  match n with
  | File _ data => File perms' data
  | Symlink target => Symlink target
  | Dir _ es => Dir perms' es
  | Special k _ => Special k perms'
  end.

(** The entries of a directory after that chmod on the names in [ns]. *)
Definition mark_x (ns : list string) (es : list (string * node))
    : list (string * node) :=
  map (fun e => if existsb (String.eqb e.1) ns then (e.1, chmod_x_node e.2) else e) es.

Definition chmodable (n : node) : bool :=
  match n with Symlink _ => false | _ => true end.

(** Every [x] line names a node of the directory that is no symlink. *)
Definition x_present (lines : list mline) (es : list (string * node)) : bool :=
  forallb (fun l => implb (ml_exec l)
                      (os.plain (ml_name l)
                       && match os.lookup (ml_name l) es with
                          | Some n => chmodable n
                          | None => false
                          end)) lines.

(** ** The blobs of a stream *)

(** All the blobs of a stream, read one after the other up to its end. *)
Fixpoint read_all (fuel : nat) (s : string) : option (list string) :=
  match fuel with
  | O => None
  | S f =>
      match tnet.readbytes s with
      | (rest, Ok b) => option_map (cons b) (read_all f rest)
      | (_, Raise EOFError) => Some []
      | (_, Raise _) => None
      end
  end.

Definition blobs_of (s : string) : option (list string) :=
  read_all (S (String.length s)) s.

(** ** Sample inputs *)

(** ["hi\n"] *)
Definition hi : string := String "h" (String "i" (String Py.LF "")).

(** A directory that holds the file [a.txt] of mode 0644 and content
    ["hi\n"]. *)
Definition tree_b : node := Dir 493 [("a.txt", File 420 hi)].

(** A directory with one empty file whose name holds a carriage return,
    and one where it holds a line feed. *)
Definition tree_cr : node :=
  Dir 493 [(String "a" (String Py.CR "b"), File 420 "")].

Definition tree_lf : node :=
  Dir 493 [(String "a" (String Py.LF "b"), File 420 "")].

(** An empty working directory, umask 022. *)
Definition w0 : world := World [] [] 18.

(** The manifest line of a file [a.txt] that is not executable and holds
    ["hi\n"]: ["- F <sha1 of hi\n> a.txt\n"]. *)
Definition line_b : string :=
  "- F " +:+ Sha1.hexdigest hi +:+ " a.txt" +:+ Py.chr Py.LF.

(** A working directory with a regular file [a.txt] of mode 0600 and a
    symlink to it, and a verifier inside one directory. *)
Definition w1 : world :=
  World [("a.txt", File 384 "old"); ("b", Symlink "a.txt")] [] 18.

Definition v1 : Verifier := MkVerifier (Some 0%nat) [0%nat] [[]].

(** A directory that holds the files [a] and [b], both empty and of mode
    0644, and a verifier that collected them in that order. *)
Definition empty_sum : string := Sha1.hexdigest "".

Definition w2 : world := World [("a", File 420 ""); ("b", File 420 "")] [] 18.

Definition v2 : Verifier :=
  MkVerifier (Some 0%nat) [0%nat] [[("a", empty_sum); ("b", empty_sum)]].

Definition line_a : mline := MLine true "F" empty_sum "a".
Definition line_b' : mline := MLine false "F" empty_sum "b".

(** A directory of a file and a subdirectory, and the same directory
    listed in the other order. *)
Definition tree_ab : node :=
  Dir 493 [("a", File 420 "x"); ("b", Dir 493 [("c", Symlink "../a")])].

Definition tree_ba : node :=
  Dir 493 [("b", Dir 493 [("c", Symlink "../a")]); ("a", File 420 "x")].

(** The directory [tree_ab] with other modes: the file readable by its
    owner only, the directories closed to others. *)
Definition tree_mode : node :=
  Dir 448 [("b", Dir 488 [("c", Symlink "../a")]); ("a", File 256 "x")].

(** A tree of any nodes in which the names of every directory are
    distinct, as in a file system. *)
Fixpoint listed (n : node) : bool :=
  match n with
  | Dir _ es =>
      distinct (map fst es)
      && (fix all (l : list (string * node)) : bool :=
            match l with
            | [] => true
            | (_, m) :: l' => listed m && all l'
            end) es
  | _ => true
  end.

(** A run of pack that ended on the error for a node that is neither a
    symlink, a regular file nor a directory. *)
Definition cant_serialize {A} (r : string * result A) : Prop :=
  exists outf name mode,
    r = (outf, Raise (RuntimeError (CantSerialize name mode)))
    /\ stat.S_ISLNK mode = false /\ stat.S_ISREG mode = false
    /\ stat.S_ISDIR mode = false.

Definition returns {A} (r : string * result A) : Prop :=
  exists outf a, r = (outf, Ok a).

(** A directory with a file and, after it in sorted order, a fifo. *)
Definition tree_fifo : node :=
  Dir 493 [("pipe", Special Fifo 420); ("a", File 420 "x")].

(** The manifest that [_PackTree] returns for a directory. *)
Definition packed_manifest (d : node) : string :=
  match snd (_PackTree (S (height d)) d "") with
  | Ok (dir_obj, _) => dir_obj
  | Raise _ => ""
  end.

(** The four fields of the manifest line of an entry: [x] for a regular
    file that its owner may execute and [-] otherwise, the letter of the
    kind, the digest of the contents, of the target or of the manifest of
    the subdirectory, and the name. *)
Definition manifest_fields (e : string * node) : list string :=
  [exec_letter e.2; type_letter e.2; checksum_with packed_manifest e.2; e.1].

(** A manifest line without its type field. *)
Definition untyped (l : mline) : bool * string * string :=
  (ml_exec l, ml_checksum l, ml_name l).

(** The stream of a directory that holds one empty directory, with the
    name [a] in the record that opens that directory, and the name [b]
    in the record that closes it and in the manifest of the root. *)
Definition renamed_stream (a b trailer : string) : string :=
  framed ["dfo--"; "> ."; ""; "> " +:+ a; ""; "< " +:+ b; ""; "< .";
          Py.join_lines [render (MLine false "D" (Sha1.hexdigest "") b)]]
    +:+ tnet.dump_line trailer.

(** ** Faults *)

(** The exceptions that would be a fault of the loop of [_UnpackTree]
    itself and not an answer to its input: [IndexError], from
    [self.stack.pop()] on an empty stack, and the end of the recursion
    bound of [unpack_loop], which stands for a loop that does not end. *)
Definition fault (e : exn) : bool :=
  match e with
  | IndexError | OutOfFuel => true
  | _ => false
  end.

Definition faulty {A} (r : result A) : bool :=
  match r with
  | Raise e => fault e
  | Ok _ => false
  end.

(** From a state in [P], [m] raises no fault, and when it returns its
    value and state are in [Q]. *)
Definition triple {S A} (P : S -> Prop) (m : M S A) (Q : A -> S -> Prop) : Prop :=
  forall s, P s ->
    match m s with
    | (s', Ok a) => Q a s'
    | (_, Raise e) => fault e = false
    end.

Definition nofault {S A} (m : M S A) : Prop :=
  forall s, faulty (snd (m s)) = false.

(** A property of the input left and of the verifier. *)
Definition holds (P : string -> Verifier -> Prop) (s : ustate) : Prop :=
  P (in_file s) (ver s).

(** What the loop of [_UnpackTree] keeps: [level] is the height of the
    stack, and [current] is [None] as long as nothing was pushed.  [n]
    bounds the input left. *)
Definition inv (n : nat) (level : Z) (i : string) (v : Verifier) : Prop :=
  (String.length i < n)%nat
  /\ Z.of_nat (length (stack v)) = level
  /\ (stack v = [] -> current v = None).

(** Running the loop of [_UnpackTree] over the records of [todo], inside
    a directory that already holds the image of [ents], where [todo] are
    entries of [ents]: after some [n] iterations the entries are
    collected, and the directory is as it was. *)
Definition reunpacks (um : Z) (f : nat) (ents todo : list (string * node)) : Prop :=
  forall U a stk L level rest,
    (a < length L)%nat -> 0 < level ->
    exists n extra,
      (n <= String.length (framed (entries_blobs f todo)))%nat /\
      forall k,
        unpack_loop (n + k) level
          (UState (framed (entries_blobs f todo) +:+ rest)
             (World (image_entries um f ents) U um)
             (MkVerifier (Some a) (stk ++ [a]) L))
        = unpack_loop k level
            (UState rest (World (image_entries um f ents) U um)
               (MkVerifier (Some a) (stk ++ [a])
                  (alter (fun l => l ++ checksums (manifest f) todo) a L ++ extra))).

(** The stream of a tree cut before the record that closes its root:
    the header, the record that opens the root, and the records of the
    entries. *)
Definition cut_stream (d : node) : string :=
  framed (["dfo--"; "> ."; ""] ++ blobs (S (height d)) d).

(** * Properties *)

(** ** SHA-1 test vectors *)

Example sha1_empty :
  Sha1.hexdigest "" = "da39a3ee5e6b4b0d3255bfef95601890afd80709".
Proof. vm_compute. reflexivity. Qed.

Example sha1_abc :
  Sha1.hexdigest "abc" = "a9993e364706816aba3e25717850c26c9cd0d89d".
Proof. vm_compute. reflexivity. Qed.

Example sha1_two_blocks :
  Sha1.hexdigest "abcdbcdecdefdefgefghfghighijhijkijkljklmklmnlmnomnopnopq"
  = "84983e441c3bd26ebaae4aa1f95129e5e54670f1".
Proof. vm_compute. reflexivity. Qed.

Example sha1_55 :
  Sha1.hexdigest "aaaaaaaaaaaaaaaaaaaaaaaaaaaaaaaaaaaaaaaaaaaaaaaaaaaaaaa"
  = "c1c8bbdc22796e28c0e15163d20899b65621d65a".
Proof. vm_compute. reflexivity. Qed.

Example sha1_56 :
  Sha1.hexdigest "aaaaaaaaaaaaaaaaaaaaaaaaaaaaaaaaaaaaaaaaaaaaaaaaaaaaaaaa"
  = "c2db330f6083854c99d4b5bfb6e8f29f201be699".
Proof. vm_compute. reflexivity. Qed.

Example sha1_64 :
  Sha1.hexdigest "aaaaaaaaaaaaaaaaaaaaaaaaaaaaaaaaaaaaaaaaaaaaaaaaaaaaaaaaaaaaaaaa"
  = "0098ba824b5c16427bd7a1122a5a442a25ec644d".
Proof. vm_compute. reflexivity. Qed.



(** ** Byte strings *)

Lemma str_app_cons a s t : String a s +:+ t = String a (s +:+ t).
Proof. reflexivity. Qed.

Lemma str_app_nil_l t : "" +:+ t = t.
Proof. reflexivity. Qed.

Lemma str_app_nil_r s : s +:+ "" = s.
Proof. induction s as [|a s IH]; [reflexivity|]. rewrite str_app_cons, IH. reflexivity. Qed.

Lemma str_app_assoc s1 s2 s3 : (s1 +:+ s2) +:+ s3 = s1 +:+ (s2 +:+ s3).
Proof.
  induction s1 as [|a s1 IH]; [reflexivity|].
  rewrite !str_app_cons, IH. reflexivity.
Qed.

Lemma str_length_app s1 s2 :
  String.length (s1 +:+ s2) = (String.length s1 + String.length s2)%nat.
Proof.
  induction s1 as [|a s1 IH]; [reflexivity|].
  rewrite str_app_cons. simpl. rewrite IH. reflexivity.
Qed.

Lemma contains_app c s1 s2 :
  Py.contains c (s1 +:+ s2) = Py.contains c s1 || Py.contains c s2.
Proof.
  induction s1 as [|a s1 IH]; [reflexivity|].
  rewrite str_app_cons. simpl. destruct (Ascii.eqb a c); [reflexivity|apply IH].
Qed.

Lemma split_once_app sep a b :
  Py.contains sep a = false ->
  Py.split_once sep (a +:+ String sep b) = Some (a, b).
Proof.
  induction a as [|c a IH]; intros Hc.
  - rewrite str_app_nil_l. simpl. rewrite Ascii.eqb_refl. reflexivity.
  - rewrite str_app_cons. simpl in *. destruct (Ascii.eqb c sep); [discriminate|].
    rewrite IH by assumption. reflexivity.
Qed.

Lemma split_once_none sep s :
  Py.contains sep s = false -> Py.split_once sep s = None.
Proof.
  induction s as [|c s IH]; intros Hc; [reflexivity|].
  simpl in *. destruct (Ascii.eqb c sep); [discriminate|].
  rewrite IH by assumption. reflexivity.
Qed.

(** A line that holds no line end is split off whole. *)
Lemma splitlines_line l rest :
  Py.contains Py.LF l = false -> Py.contains Py.CR l = false ->
  Py.splitlines (l +:+ String Py.LF rest) = l :: Py.splitlines rest.
Proof.
  induction l as [|c l IH]; intros Hlf Hcr.
  - reflexivity.
  - rewrite str_app_cons. simpl in Hlf, Hcr.
    destruct (Ascii.eqb c Py.LF) eqn:E1; [discriminate|].
    destruct (Ascii.eqb c Py.CR) eqn:E2; [discriminate|].
    cbn [Py.splitlines]. rewrite E1, E2, IH by assumption. reflexivity.
Qed.

Lemma splitlines_join_lines lines :
  Forall (fun l => Py.contains Py.LF l = false /\ Py.contains Py.CR l = false) lines ->
  Py.splitlines (Py.join_lines lines) = lines.
Proof.
  induction 1 as [|l lines [Hlf Hcr] _ IH]; [reflexivity|].
  cbn [Py.join_lines fold_right]. rewrite splitlines_line by assumption.
  f_equal. exact IH.
Qed.

(** ** The framing layer: what [dump_line] writes, [readbytes] reads *)

Lemma read_length_digit c k acc rest :
  tnet.digit c = Some k -> Ascii.eqb c ":" = false ->
  tnet.read_length acc (String c rest) = tnet.read_length (10 * acc + k) rest.
Proof. intros Hd Hc. cbn [tnet.read_length]. rewrite Hc, Hd. reflexivity. Qed.

Lemma read_length_uint d : forall acc rest,
  tnet.read_length acc (NilEmpty.string_of_uint d +:+ String ":" rest)
  = Some (Nat.of_uint_acc d acc, rest).
Proof.
  induction d; intros acc rest; cbn [NilEmpty.string_of_uint Nat.of_uint_acc];
    [reflexivity|rewrite str_app_cons; erewrite read_length_digit by reflexivity;
       rewrite Nat.tail_mul_spec; etrans; [|apply IHd]; f_equal; simpl; lia..].
Qed.

Lemma read_length_str_of_nat n rest :
  tnet.read_length 0 (Py.str_of_nat n +:+ String ":" rest) = Some (n, rest).
Proof.
  unfold Py.str_of_nat. rewrite read_length_uint.
  change (Nat.of_uint_acc (Nat.to_uint n) 0) with (Nat.of_uint (Nat.to_uint n)).
  rewrite DecimalNat.Unsigned.of_to. reflexivity.
Qed.

Lemma take_app b r : tnet.take (String.length b) (b +:+ r) = Some (b, r).
Proof.
  induction b as [|c b IH]; [reflexivity|].
  rewrite str_app_cons. simpl. rewrite IH. reflexivity.
Qed.

Lemma dump_line_app b rest :
  tnet.dump_line b +:+ rest
  = Py.str_of_nat (String.length b) +:+ String ":" (b +:+ String Py.LF rest).
Proof.
  unfold tnet.dump_line, Py.chr. rewrite str_app_assoc, str_app_cons, str_app_assoc.
  reflexivity.
Qed.

Lemma readbytes_dump_line b rest :
  tnet.readbytes (tnet.dump_line b +:+ rest) = (rest, Ok b).
Proof.
  rewrite dump_line_app. unfold tnet.readbytes.
  rewrite read_length_str_of_nat, take_app, Ascii.eqb_refl.
  destruct (Py.str_of_nat (String.length b)); reflexivity.
Qed.

Lemma dump_line_length b : (1 <= String.length (tnet.dump_line b))%nat.
Proof.
  unfold tnet.dump_line. rewrite str_length_app. simpl. lia.
Qed.

(** ** Digests are forty hexadecimal digits *)

Lemma hexchar_hex n : is_hex (Sha1.hexchar n) = true.
Proof.
  destruct n as [|p|p]; [reflexivity| |reflexivity].
  do 5 (try destruct p as [p|p|]); reflexivity.
Qed.

Lemma hex32_hex w tail : all_hex tail = true -> all_hex (Sha1.hex32 w tail) = true.
Proof.
  intros H. unfold Sha1.hex32. cbn [fold_right all_hex].
  rewrite !hexchar_hex, H. reflexivity.
Qed.

Lemma hexdigest_hex s : all_hex (Sha1.hexdigest s) = true.
Proof.
  unfold Sha1.hexdigest. destruct (Sha1.digest s) as [[[[a b] c] d] e].
  do 5 apply hex32_hex. reflexivity.
Qed.

Lemma hexdigest_length s : String.length (Sha1.hexdigest s) = 40%nat.
Proof.
  unfold Sha1.hexdigest. destruct (Sha1.digest s) as [[[[a b] c] d] e].
  reflexivity.
Qed.

Lemma all_hex_contains c s :
  is_hex c = false -> all_hex s = true -> Py.contains c s = false.
Proof.
  intros Hc. induction s as [|a s IH]; [reflexivity|].
  simpl. intros [Ha Hs]%andb_prop. destruct (Ascii.eqb_spec a c) as [->|_].
  - congruence.
  - apply IH, Hs.
Qed.

Lemma falsy_hexdigest s : falsy (Some (Sha1.hexdigest s)) = false.
Proof.
  pose proof (hexdigest_length s) as H.
  destruct (Sha1.hexdigest s); [discriminate|reflexivity].
Qed.

(** ** Streaming a file copies it whole *)

Lemma read_app size f :
  forall chunk rest, read size f = (chunk, rest) -> f = chunk +:+ rest.
Proof.
  revert size. induction f as [|c f IH]; intros size chunk rest; simpl.
  - intros [= <- <-]. reflexivity.
  - destruct (size =? 0)%N.
    + intros [= <- <-]. reflexivity.
    + destruct (read (N.pred size) f) as [ch r] eqn:E. intros [= <- <-].
      rewrite str_app_cons. f_equal. eapply IH, E.
Qed.

Lemma read_nonempty size c f :
  size <> 0%N -> exists chunk rest, read size (String c f) = (String c chunk, rest).
Proof.
  intros Hs. simpl. apply N.eqb_neq in Hs. rewrite Hs.
  destruct (read (N.pred size) f) as [ch r]. eauto.
Qed.

Lemma copy_chunks_total fuel : forall f sha1 outf,
  (String.length f < fuel)%nat ->
  copy_chunks fuel f sha1 outf = (outf +:+ f, Ok (sha1 +:+ f)).
Proof.
  induction fuel as [|fuel IH]; intros f sha1 outf Hlen; [lia|].
  cbn [copy_chunks]. destruct f as [|c f].
  - simpl. unfold ret. rewrite !str_app_nil_r. reflexivity.
  - destruct (read_nonempty CHUNK_SIZE c f) as (chunk & rest & E); [discriminate|].
    rewrite E. pose proof (read_app _ _ _ _ E) as Hf.
    unfold bind, write. rewrite IH.
    + rewrite !str_app_assoc, <- Hf. reflexivity.
    + apply (f_equal String.length) in Hf. rewrite str_length_app in Hf.
      simpl in *. lia.
Qed.

(** ** Modes *)

Lemma S_IFMT_lor k p :
  Z.land k 0xF000 = k -> stat.S_IFMT (Z.lor k (stat.S_IMODE p)) = k.
Proof.
  intros Hk. unfold stat.S_IFMT, stat.S_IMODE.
  rewrite Z.land_lor_distr_l, Hk, <- Z.land_assoc.
  change (Z.land 0xFFF 0xF000) with 0. rewrite Z.land_0_r, Z.lor_0_r.
  reflexivity.
Qed.

Lemma S_IMODE_lor k p :
  Z.land k 0xFFF = 0 -> stat.S_IMODE (Z.lor k (stat.S_IMODE p)) = stat.S_IMODE p.
Proof.
  intros Hk. unfold stat.S_IMODE.
  rewrite Z.land_lor_distr_l, Hk, <- Z.land_assoc.
  change (Z.land 0xFFF 0xFFF) with 0xFFF. reflexivity.
Qed.

Lemma land_bit6 p : (Z.land p 64 =? 0) = negb (Z.testbit p 6).
Proof.
  destruct (Z.testbit p 6) eqn:E; simpl.
  - apply Z.eqb_neq. intros H.
    apply (f_equal (fun x => Z.testbit x 6)) in H.
    rewrite Z.land_spec, E in H. discriminate H.
  - apply Z.eqb_eq, Z.bits_inj'. intros n Hn.
    rewrite Z.land_spec, Z.bits_0. change 64 with (2 ^ 6).
    rewrite Z.pow2_bits_eqb by lia.
    destruct (Z.eqb_spec 6 n) as [<-|_]; [rewrite E; reflexivity|].
    apply andb_false_r.
Qed.

Lemma exec_bit_file p data :
  (Z.land (stat.S_IMODE (os.st_mode (File p data))) stat.S_IXUSR =? 0)
  = negb (owner_exec p).
Proof.
  cbn [os.st_mode]. rewrite S_IMODE_lor by reflexivity.
  unfold stat.S_IMODE, stat.S_IXUSR, owner_exec.
  rewrite <- Z.land_assoc. change (Z.land 0xFFF 0x40) with 64.
  apply land_bit6.
Qed.

(** ** Directory entries *)

Lemma lookup_cons name k n es :
  os.lookup name ((k, n) :: es)
  = if String.eqb k name then Some n else os.lookup name es.
Proof.
  unfold os.lookup. cbn [os.find_entry].
  destruct (String.eqb k name); [reflexivity|].
  destruct (os.find_entry name es) as [[[b m] a]|]; reflexivity.
Qed.

Lemma lookup_In name n es : os.lookup name es = Some n -> In (name, n) es.
Proof.
  induction es as [|[k m] es IH]; [discriminate|].
  rewrite lookup_cons. destruct (String.eqb_spec k name) as [->|_].
  - intros [= ->]. left. reflexivity.
  - intros H. right. apply IH, H.
Qed.

Lemma lookup_is_Some name es :
  In name (map fst es) -> is_Some (os.lookup name es).
Proof.
  induction es as [|[k m] es IH]; [intros []|].
  rewrite lookup_cons. destruct (String.eqb_spec k name) as [->|Hne]; [eauto|].
  intros [H|H]; [contradiction|]. apply IH, H.
Qed.

Lemma lookup_None name es :
  ~ In name (map fst es) -> os.lookup name es = None.
Proof.
  induction es as [|[k m] es IH]; [reflexivity|].
  rewrite lookup_cons. cbn [map fst In].
  destruct (String.eqb_spec k name) as [->|Hne]; [tauto|]. intros H. apply IH. tauto.
Qed.

Lemma distinct_NoDup l : distinct l = true <-> List.NoDup l.
Proof.
  induction l as [|x l IH]; simpl.
  - split; [constructor|reflexivity].
  - rewrite andb_true_iff, negb_true_iff, IH. split.
    + intros [Hx Hl]. constructor; [|assumption]. intros Hin.
      assert (existsb (String.eqb x) l = true) as E; [|congruence].
      apply existsb_exists. exists x. split; [assumption|apply String.eqb_refl].
    + intros H. inversion H as [|? ? Hx Hl]; subst. split; [|assumption].
      destruct (existsb (String.eqb x) l) eqn:E; [|reflexivity].
      apply existsb_exists in E as (y & Hy & Hxy).
      apply String.eqb_eq in Hxy as <-. contradiction.
Qed.

Lemma tree_of_dir ok p es :
  tree_of ok (Dir p es) = true
  <-> distinct (map fst es) = true
      /\ Forall (fun e => ok e.1 = true /\ tree_of ok e.2 = true) es.
Proof.
  cbn [tree_of]. rewrite andb_true_iff.
  apply and_iff_compat_l.
  induction es as [|[k m] es IH].
  - split; [constructor|reflexivity].
  - rewrite !andb_true_iff, IH. split.
    + intros [[? ?] ?]. constructor; [split|]; assumption.
    + intros H. inversion H as [|? ? [? ?] ?]; subst. tauto.
Qed.

Lemma height_In p es k n : In (k, n) es -> (height n < height (Dir p es))%nat.
Proof.
  cbn [height]. induction es as [|[k' m] es IH]; [intros []|].
  cbn [fold_right snd]. intros [[= -> ->]|H]; [lia|].
  specialize (IH H). lia.
Qed.

Lemma tree_of_lookup ok p es name n :
  tree_of ok (Dir p es) = true -> os.lookup name es = Some n ->
  ok name = true /\ tree_of ok n = true /\ (height n < height (Dir p es))%nat.
Proof.
  intros [_ Hall]%tree_of_dir Hl%lookup_In.
  rewrite Forall_forall in Hall.
  destruct (Hall (name, n)) as [? ?]; [apply list_elem_of_In, Hl|].
  split; [assumption|]. split; [assumption|]. eapply height_In, Hl.
Qed.

Lemma sorted_In name names : In name (sorted names) <-> In name names.
Proof.
  unfold sorted. rewrite <- !list_elem_of_In.
  rewrite (merge_sort_Permutation String.le names). reflexivity.
Qed.

Lemma elt_sorted_entries p es :
  Forall (fun e => os.lookup e.1 es = Some e.2) (sorted_entries (Dir p es)).
Proof.
  cbn [sorted_entries]. unfold entries_of. generalize (sorted (map fst es)) as ns.
  induction ns as [|name ns IH]; [constructor|].
  cbn [omap list_omap]. destruct (os.lookup name es) as [n|] eqn:E; cbn [option_map].
  - constructor; [exact E|exact IH].
  - exact IH.
Qed.

(** ** What [_PackTree] writes and returns *)

Local Opaque Sha1.hexdigest tnet.dump_line Py.str_of_nat.

Ltac str_norm :=
  repeat (rewrite ?str_app_assoc, ?str_app_nil_r; rewrite ?str_app_cons, ?str_app_nil_l).

Lemma framed_app l1 l2 : framed (l1 ++ l2) = framed l1 +:+ framed l2.
Proof.
  induction l1 as [|b l1 IH]; [reflexivity|].
  cbn [framed fold_right app]. fold (framed (l1 ++ l2)). fold (framed l1).
  rewrite IH, str_app_assoc. reflexivity.
Qed.

Lemma framed_cons b l : framed (b :: l) = tnet.dump_line b +:+ framed l.
Proof. reflexivity. Qed.

Lemma dump_line_unfold b :
  tnet.dump_line b
  = Py.str_of_nat (String.length b) +:+ String ":" (b +:+ Py.chr Py.LF).
Proof. Transparent tnet.dump_line. reflexivity. Opaque tnet.dump_line. Qed.

Section PackEntry.

Variable f : nat.
Variable recurse : node -> M string (string * nat).
Variable ok : string -> bool.
Variable p : Z.
Variable es : list (string * node).
Hypothesis Hd : tree_of ok (Dir p es) = true.
Hypothesis recurse_spec : forall name n outf,
  os.lookup name es = Some n -> is_dir n = true ->
  recurse n outf = (outf +:+ framed (blobs f n), Ok (manifest f n, count f n)).

Lemma pack_entry_spec name n vars outf :
  os.lookup name es = Some n ->
  exists o,
    pack_entry recurse (Dir p es) name vars outf
    = (outf +:+ framed (entry_blobs (blobs f) (manifest f) (name, n)),
       Ok (PackVars (this_dir vars ++ [line_with (manifest f) (name, n)])
             (this_count vars + entry_count (count f) (name, n)) o)).
Proof.
  intros Hl. destruct (tree_of_lookup _ _ _ _ _ Hd Hl) as (_ & Hn & _).
  unfold pack_entry, bind at 1, lift at 1. cbn [os.lstat_in].
  rewrite Hl. destruct n as [q data|target|q sub|k q]; [| | |discriminate].
  - (* regular file *)
    unfold stat.S_ISLNK, stat.S_ISREG.
    cbn [os.st_mode]. rewrite S_IFMT_lor by reflexivity.
    cbn [Z.eqb stat.S_IFREG stat.S_IFLNK Pos.eqb].
    unfold bind, _WritePair, write, lift, ret. cbn [os.open_r os.st_size].
    rewrite copy_chunks_total by lia.
    rewrite str_app_nil_l, falsy_hexdigest. cbn [default from_option id].
    change (Z.lor stat.S_IFREG (stat.S_IMODE q)) with (os.st_mode (File q data)).
    rewrite exec_bit_file, negb_involutive.
    eexists. f_equal.
    cbn [entry_blobs snd fst]. rewrite !framed_cons.
    rewrite (dump_line_unfold data). unfold Py.chr.
    cbn [framed fold_right]. str_norm. reflexivity.
  - (* symlink *)
    unfold stat.S_ISLNK. cbn [os.st_mode].
    change (stat.S_IFMT (Z.lor stat.S_IFLNK 511) =? stat.S_IFLNK) with true.
    unfold bind, _WritePair, _WriteChunk, write, lift, ret. cbn [os.readlink falsy].
    eexists. f_equal.
    cbn [entry_blobs snd fst]. rewrite !framed_cons.
    cbn [framed fold_right]. str_norm. reflexivity.
  - (* directory *)
    unfold stat.S_ISLNK, stat.S_ISREG, stat.S_ISDIR.
    cbn [os.st_mode]. rewrite S_IFMT_lor by reflexivity.
    cbn [Z.eqb stat.S_IFREG stat.S_IFLNK stat.S_IFDIR Pos.eqb].
    unfold bind, _WritePair, _WriteChunk, write, lift, ret.
    rewrite (recurse_spec name) by (assumption || reflexivity). cbn [falsy].
    eexists. f_equal.
    cbn [entry_blobs snd fst app]. rewrite !framed_cons, !framed_app, !framed_cons.
    cbn [framed fold_right]. str_norm. reflexivity.
Qed.

Lemma pack_loop_spec : forall ns vars outf,
  Forall (fun name => In name (map fst es)) ns ->
  exists o,
    for_each ns (pack_entry recurse (Dir p es)) vars outf
    = (outf +:+ framed (flat_map (entry_blobs (blobs f) (manifest f)) (entries_of es ns)),
       Ok (PackVars (this_dir vars ++ map (line_with (manifest f)) (entries_of es ns))
             (this_count vars + list_sum (map (entry_count (count f)) (entries_of es ns))) o)).
Proof.
  induction ns as [|name ns IH]; intros vars outf Hns.
  - exists (obj vars). cbn. unfold ret. destruct vars.
    cbn. rewrite str_app_nil_r, List.app_nil_r, Nat.add_0_r. reflexivity.
  - inversion Hns as [|? ? Hname Hns']; subst.
    destruct (lookup_is_Some _ _ Hname) as [n Hl].
    cbn [for_each]. unfold bind at 1.
    destruct (pack_entry_spec name n vars outf Hl) as [o1 ->].
    destruct (IH (PackVars (this_dir vars ++ [line_with (manifest f) (name, n)])
                    (this_count vars + entry_count (count f) (name, n)) o1)
                (outf +:+ framed (entry_blobs (blobs f) (manifest f) (name, n))) Hns')
      as [o2 ->].
    exists o2. unfold entries_of. cbn [omap list_omap]. rewrite Hl.
    cbn [option_map flat_map map list_sum fold_right this_dir this_count].
    fold (entries_of es ns).
    rewrite framed_app, str_app_assoc, <- List.app_assoc, Nat.add_assoc.
    reflexivity.
Qed.

End PackEntry.

Lemma pack_tree_spec ok fuel : forall d outf,
  tree_of ok d = true -> is_dir d = true -> (height d <= fuel)%nat ->
  _PackTree fuel d outf
  = (outf +:+ framed (blobs fuel d), Ok (manifest fuel d, count fuel d)).
Proof.
  induction fuel as [|f IH]; intros d outf Hd Hdir Hh.
  - destruct d; try discriminate. cbn [height] in Hh. lia.
  - destruct d as [| |p es|]; try discriminate.
    cbn [_PackTree]. unfold bind at 1, lift. cbn [os.listdir].
    destruct (pack_loop_spec f (_PackTree f) ok p es Hd) with
      (ns := sorted (map fst es))
      (vars := PackVars [] 0 None) (outf := outf) as [o E].
    + intros name n outf' Hl Hn.
      destruct (tree_of_lookup _ _ _ _ _ Hd Hl) as (_ & Hn' & Hlt).
      apply IH; [assumption..|lia].
    + apply List.Forall_forall. intros name. apply sorted_In.
    + unfold bind. rewrite E. reflexivity.
Qed.

Lemma PackTree_spec ok d :
  tree_of ok d = true -> is_dir d = true ->
  PackTree d ""
  = (stream_of d, Ok (Sha1.hexdigest (root_manifest d), count (S (height d)) d)).
Proof.
  intros Hd Hdir. unfold PackTree, bind, _WriteChunk, _WritePair, write.
  rewrite (pack_tree_spec ok) by (assumption || lia).
  f_equal. unfold stream_of, stream_body, root_manifest.
  cbn [app]. rewrite !framed_cons, !framed_app, !framed_cons.
  cbn [framed fold_right]. str_norm. reflexivity.
Qed.

(** ** One iteration of the loop of [_UnpackTree] *)

Lemma framed_pair a b rest :
  framed [a; b] +:+ rest = tnet.dump_line a +:+ (tnet.dump_line b +:+ rest).
Proof. cbn [framed fold_right]. str_norm. reflexivity. Qed.

Lemma on_in_readbytes b rest w v :
  on_in tnet.readbytes (UState (tnet.dump_line b +:+ rest) w v)
  = (UState rest w v, Ok b).
Proof. unfold on_in. cbn [in_file fs ver]. rewrite readbytes_dump_line. reflexivity. Qed.

Lemma read_or_dump_line e b rest w v :
  read_or e (UState (tnet.dump_line b +:+ rest) w v) = (UState rest w v, Ok b).
Proof. unfold read_or, try_except. rewrite on_in_readbytes. reflexivity. Qed.

Lemma unpack_loop_step f level op contents rest w v :
  unpack_loop (S f) level (UState (framed [op; contents] +:+ rest) w v)
  = match Py.split Py.SP 1 op with
    | [command; name] =>
        dispatch (unpack_loop f) level command name contents (UState rest w v)
    | _ => (UState (tnet.dump_line contents +:+ rest) w v,
            Raise (RuntimeError (InvalidOpRecord op)))
    end.
Proof.
  rewrite framed_pair. cbn [unpack_loop].
  unfold bind at 1, try_except at 1, bind at 1. rewrite on_in_readbytes.
  unfold ret at 1.
  destruct (Py.split Py.SP 1 op) as [|c [|n [|? ?]]]; try reflexivity.
  unfold bind. rewrite read_or_dump_line. reflexivity.
Qed.

Lemma step_F f level name contents rest w w' v v' :
  os.write_file name contents w = (w', Ok tt) ->
  verifier.OnEntry name (Sha1.hexdigest contents) v = (v', Ok tt) ->
  unpack_loop (S f) level (UState (framed ["F " +:+ name; contents] +:+ rest) w v)
  = unpack_loop f level (UState rest w' v').
Proof.
  intros Hw Hv. rewrite unpack_loop_step.
  change (Py.split Py.SP 1 ("F " +:+ name)) with ["F"; name].
  unfold dispatch, bind, on_fs, on_ver. cbn [String.eqb Ascii.eqb Bool.eqb in_file fs ver].
  rewrite Hw. cbn [in_file fs ver]. rewrite Hv. reflexivity.
Qed.

Lemma step_L f level name contents rest w w' v v' :
  os.symlink contents name w = (w', Ok tt) ->
  verifier.OnEntry name (Sha1.hexdigest contents) v = (v', Ok tt) ->
  unpack_loop (S f) level (UState (framed ["L " +:+ name; contents] +:+ rest) w v)
  = unpack_loop f level (UState rest w' v').
Proof.
  intros Hw Hv. rewrite unpack_loop_step.
  change (Py.split Py.SP 1 ("L " +:+ name)) with ["L"; name].
  unfold dispatch, bind, on_fs, on_ver, try_except.
  cbn [String.eqb Ascii.eqb Bool.eqb in_file fs ver].
  rewrite Hw. cbn [in_file fs ver]. rewrite Hv. reflexivity.
Qed.

Lemma step_push f level name contents rest w w1 w2 v :
  name <> "." ->
  _MakeOneDir name w = (w1, Ok tt) ->
  os.chdir name w1 = (w2, Ok tt) ->
  unpack_loop (S f) level (UState (framed ["> " +:+ name; contents] +:+ rest) w v)
  = unpack_loop f (level + 1) (UState rest w2 (fst (verifier.Push v))).
Proof.
  intros Hn Hw1 Hw2. rewrite unpack_loop_step.
  change (Py.split Py.SP 1 ("> " +:+ name)) with [">"; name].
  apply String.eqb_neq in Hn.
  unfold dispatch, bind, on_fs, on_ver, verifier.Push.
  cbn [String.eqb Ascii.eqb Bool.eqb in_file fs ver]. rewrite Hn. cbn [negb].
  cbn [in_file fs ver]. rewrite Hw1. cbn [in_file fs ver]. rewrite Hw2.
  reflexivity.
Qed.

Lemma step_pop f level name contents rest w w1 w2 v v1 v2 :
  name <> "." -> level - 1 <> 0 ->
  verifier.Pop contents (UState rest w v) = (UState rest w1 v1, Ok tt) ->
  verifier.OnEntry name (Sha1.hexdigest contents) v1 = (v2, Ok tt) ->
  os.chdir ".." w1 = (w2, Ok tt) ->
  unpack_loop (S f) level (UState (framed ["< " +:+ name; contents] +:+ rest) w v)
  = unpack_loop f (level - 1) (UState rest w2 v2).
Proof.
  intros Hn Hlevel Hpop Hv Hw. rewrite unpack_loop_step.
  change (Py.split Py.SP 1 ("< " +:+ name)) with ["<"; name].
  apply String.eqb_neq in Hn. apply Z.eqb_neq in Hlevel.
  unfold dispatch, bind, on_fs, on_ver.
  cbn [String.eqb Ascii.eqb Bool.eqb in_file fs ver]. rewrite Hpop.
  cbn [in_file fs ver]. rewrite Hv, Hlevel, Hn. cbn [negb in_file fs ver].
  rewrite Hw. reflexivity.
Qed.

Lemma step_pop_root f name contents rest w w1 v v1 v2 :
  verifier.Pop contents (UState rest w v) = (UState rest w1 v1, Ok tt) ->
  verifier.OnEntry name (Sha1.hexdigest contents) v1 = (v2, Ok tt) ->
  unpack_loop (S f) 1 (UState (framed ["< " +:+ name; contents] +:+ rest) w v)
  = (UState rest w1 v2, Ok tt).
Proof.
  intros Hpop Hv. rewrite unpack_loop_step.
  change (Py.split Py.SP 1 ("< " +:+ name)) with ["<"; name].
  unfold dispatch, bind, on_fs, on_ver.
  cbn [String.eqb Ascii.eqb Bool.eqb in_file fs ver]. rewrite Hpop.
  cbn [in_file fs ver]. rewrite Hv. reflexivity.
Qed.

(** ** File system operations in the working directory *)

Lemma lookup_find_None name es :
  os.lookup name es = None <-> os.find_entry name es = None.
Proof.
  unfold os.lookup. destruct (os.find_entry name es) as [[[? ?] ?]|];
    split; congruence.
Qed.

Lemma find_entry_fresh name n H T :
  os.lookup name H = None ->
  os.find_entry name (H ++ (name, n) :: T) = Some (H, n, T).
Proof.
  induction H as [|[k m] H IH]; intros Hl.
  - cbn. rewrite String.eqb_refl. reflexivity.
  - rewrite lookup_cons in Hl. cbn [app os.find_entry].
    destruct (String.eqb k name); [discriminate|].
    rewrite IH by assumption. reflexivity.
Qed.

Lemma lookup_fresh name n H T :
  os.lookup name H = None -> os.lookup name (H ++ (name, n) :: T) = Some n.
Proof. intros E. unfold os.lookup. rewrite find_entry_fresh by assumption. reflexivity. Qed.

Lemma lookup_app_None name H T :
  os.lookup name H = None -> os.lookup name T = None ->
  os.lookup name (H ++ T) = None.
Proof.
  intros E1 E2. induction H as [|[k m] H IH]; [assumption|].
  rewrite lookup_cons in E1. cbn [app]. rewrite lookup_cons.
  destruct (String.eqb k name); [discriminate|]. apply IH, E1.
Qed.

Lemma lookup_single_ne name k n :
  k <> name -> os.lookup name [(k, n)] = None.
Proof.
  intros Hne. rewrite lookup_cons. apply String.eqb_neq in Hne. rewrite Hne.
  reflexivity.
Qed.

Lemma good_name_plain name : good_name name = true -> os.plain name = true.
Proof. unfold good_name. intros [[? ?]%andb_prop ?]%andb_prop. assumption. Qed.

Lemma good_name_lines name :
  good_name name = true ->
  Py.contains Py.LF name = false /\ Py.contains Py.CR name = false.
Proof.
  unfold good_name. intros [[_ H1]%andb_prop H2]%andb_prop.
  apply negb_true_iff in H1, H2. tauto.
Qed.

Lemma plain_not_dot name : os.plain name = true -> name <> "." /\ name <> "..".
Proof.
  unfold os.plain. rewrite !andb_true_iff, !negb_true_iff.
  intros [[[[_ H1] H2] _] _]. split; apply String.eqb_neq; assumption.
Qed.

Lemma mkdir_fresh name h u um :
  os.plain name = true -> os.lookup name h = None ->
  _MakeOneDir name (World h u um)
  = (World (h ++ [(name, Dir (creat_dir um) [])]) u um, Ok tt).
Proof.
  intros Hp Hl. unfold _MakeOneDir, try_except, os.mkdir. cbn [here up umask].
  rewrite Hp, Hl. reflexivity.
Qed.

Lemma chdir_into name q es before after u um :
  os.plain name = true ->
  os.find_entry name (before ++ (name, Dir q es) :: after)
  = Some (before, Dir q es, after) ->
  os.chdir name (World (before ++ (name, Dir q es) :: after) u um)
  = (World es (Frame name q before after :: u) um, Ok tt).
Proof.
  intros Hp Hf. unfold os.chdir. cbn [here up umask].
  destruct (plain_not_dot _ Hp) as [_ Hdd]. apply String.eqb_neq in Hdd.
  rewrite Hdd, Hp, Hf. reflexivity.
Qed.

Lemma chdir_up h fr u um :
  os.chdir ".." (World h (fr :: u) um)
  = (World (fr_before fr ++ (fr_name fr, Dir (fr_perms fr) h) :: fr_after fr) u um,
     Ok tt).
Proof. reflexivity. Qed.

Lemma write_file_fresh name contents h u um :
  os.plain name = true -> os.lookup name h = None ->
  os.write_file name contents (World h u um)
  = (World (h ++ [(name, File (creat_file um) contents)]) u um, Ok tt).
Proof.
  intros Hp Hl%lookup_find_None. unfold os.write_file. cbn [here up umask].
  rewrite Hp, Hl. reflexivity.
Qed.

Lemma symlink_fresh name target h u um :
  os.plain name = true -> os.lookup name h = None ->
  os.symlink target name (World h u um)
  = (World (h ++ [(name, Symlink target)]) u um, Ok tt).
Proof.
  intros Hp Hl. unfold os.symlink. cbn [here up umask].
  rewrite Hp, Hl. reflexivity.
Qed.

(** ** The lines of a manifest *)

Lemma split_line a b c d :
  Py.contains Py.SP a = false -> Py.contains Py.SP b = false ->
  Py.contains Py.SP c = false ->
  Py.split Py.SP 3 (a +:+ " " +:+ b +:+ " " +:+ c +:+ " " +:+ d) = [a; b; c; d].
Proof.
  intros Ha Hb Hc.
  change (a +:+ " " +:+ b +:+ " " +:+ c +:+ " " +:+ d)
    with (a +:+ String Py.SP (b +:+ String Py.SP (c +:+ String Py.SP d))).
  cbn [Py.split]. rewrite !split_once_app by assumption. reflexivity.
Qed.

Lemma hexdigest_no c s : is_hex c = false -> Py.contains c (Sha1.hexdigest s) = false.
Proof. intros Hc. apply all_hex_contains; [assumption|apply hexdigest_hex]. Qed.

Lemma exec_letter_no c n :
  is_hex c = false -> Ascii.eqb "x" c = false -> Ascii.eqb "-" c = false ->
  Py.contains c (exec_letter n) = false.
Proof.
  intros _ H1 H2. destruct n as [q ?| | |]; cbn [exec_letter];
    [destruct (owner_exec q)|..]; cbn [Py.contains]; rewrite ?H1, ?H2; reflexivity.
Qed.

Lemma type_letter_no c n :
  Ascii.eqb "F" c = false -> Ascii.eqb "L" c = false -> Ascii.eqb "D" c = false ->
  Py.contains c (type_letter n) = false.
Proof.
  intros H1 H2 H3. destruct n; cbn [type_letter Py.contains];
    rewrite ?H1, ?H2, ?H3; reflexivity.
Qed.

Lemma checksum_with_no c man n :
  is_hex c = false -> Py.contains c (checksum_with man n) = false.
Proof. intros Hc. destruct n; cbn [checksum_with]; try apply hexdigest_no; auto. Qed.

Lemma line_no c man k n :
  is_hex c = false -> Ascii.eqb "x" c = false -> Ascii.eqb "-" c = false ->
  Ascii.eqb "F" c = false -> Ascii.eqb "L" c = false -> Ascii.eqb "D" c = false ->
  Ascii.eqb " " c = false ->
  Py.contains c k = false ->
  Py.contains c (line_with man (k, n)) = false.
Proof.
  intros. unfold line_with. cbn [fst snd].
  rewrite !contains_app, exec_letter_no, type_letter_no, checksum_with_no by assumption.
  cbn [Py.contains orb]. rewrite H5. assumption.
Qed.

Lemma split_line_with man k n :
  Py.split Py.SP 3 (line_with man (k, n))
  = [exec_letter n; type_letter n; checksum_with man n; k].
Proof.
  unfold line_with. cbn [fst snd]. apply split_line.
  - apply exec_letter_no; reflexivity.
  - apply type_letter_no; reflexivity.
  - apply checksum_with_no; reflexivity.
Qed.

Lemma lines_no_break man ents :
  Forall (fun e => good_name e.1 = true) ents ->
  Forall (fun l => Py.contains Py.LF l = false /\ Py.contains Py.CR l = false)
    (map (line_with man) ents).
Proof.
  induction 1 as [|[k n] ents Hk _ IH]; [constructor|].
  cbn [map]. constructor; [|exact IH].
  destruct (good_name_lines _ Hk). split; apply line_no; auto.
Qed.

(** ** Closing a directory: [Verifier.Pop] *)

Lemma map_fst_image_entries um f l : map fst (image_entries um f l) = map fst l.
Proof. unfold image_entries. rewrite List.map_map. reflexivity. Qed.

Lemma map_fst_fresh_entries um f l : map fst (fresh_entries um f l) = map fst l.
Proof. unfold fresh_entries. rewrite List.map_map. reflexivity. Qed.

Lemma NoDup_app_cons_not_in (done : list (string * node)) k n todo :
  List.NoDup (map fst (done ++ (k, n) :: todo)) -> ~ In k (map fst done).
Proof.
  rewrite List.map_app. cbn [map fst]. intros H Hin.
  apply List.NoDup_remove_2 in H. apply H, List.in_or_app. left. exact Hin.
Qed.

Lemma image_File um f q data :
  image um f (File q data)
  = File (if owner_exec q then chmod_x (creat_file um) else creat_file um) data.
Proof. destruct f; reflexivity. Qed.

Lemma image_Symlink um f target : image um f (Symlink target) = Symlink target.
Proof. destruct f; reflexivity. Qed.

Lemma pop_lines um f man dir_obj rest U v : forall todo done acc,
  List.NoDup (map fst (done ++ todo)) ->
  Forall (fun e => good_name e.1 = true /\ not_special e.2 = true) todo ->
  for_each (map (line_with man) todo) (verifier.pop_line dir_obj) acc
    (UState rest (World (image_entries um f done ++ fresh_entries um f todo) U um) v)
  = (UState rest (World (image_entries um f (done ++ todo)) U um) v,
     Ok (acc ++ checksums man todo)).
Proof.
  induction todo as [|[k n] todo IH]; intros done acc Hnd Hall.
  - cbn. unfold ret. rewrite !List.app_nil_r. reflexivity.
  - inversion Hall as [|? ? [Hk Hn] Hall']; subst. cbn [fst snd] in Hk, Hn.
    pose proof (good_name_plain _ Hk) as Hp.
    assert (os.lookup k (image_entries um f done) = None) as Hfree.
    { apply lookup_None. rewrite map_fst_image_entries.
      eapply NoDup_app_cons_not_in, Hnd. }
    assert (image_entries um f (done ++ (k, n) :: todo)
            = image_entries um f (done ++ [(k, n)]) ++ image_entries um f todo)
      as Himg.
    { unfold image_entries. rewrite <- List.map_app, <- List.app_assoc. reflexivity. }
    assert (List.NoDup (map fst ((done ++ [(k, n)]) ++ todo))) as Hnd'.
    { rewrite <- List.app_assoc. exact Hnd. }
    specialize (IH (done ++ [(k, n)]) (acc ++ [(k, checksum_with man n)]) Hnd' Hall').
    cbn [map for_each]. unfold bind at 1. unfold verifier.pop_line.
    rewrite split_line_with.
    assert (forall s : ustate,
      s = UState rest (World (image_entries um f (done ++ [(k, n)])
                               ++ fresh_entries um f todo) U um) v ->
      for_each (map (line_with man) todo) (verifier.pop_line dir_obj)
        (acc ++ [(k, checksum_with man n)]) s
      = (UState rest (World (image_entries um f (done ++ (k, n) :: todo)) U um) v,
         Ok (acc ++ checksums man ((k, n) :: todo)))) as Hgo.
    { intros s ->. rewrite IH, <- List.app_assoc.
      cbn [checksums map app fst snd]. rewrite <- List.app_assoc. reflexivity. }
    destruct n as [q data|target|q sub|? ?]; [| | |discriminate];
      cbn [exec_letter]; [destruct (owner_exec q) eqn:Hx|..].
    + (* an executable file: lstat and chmod *)
      cbn [String.eqb Ascii.eqb Bool.eqb]. unfold bind, on_fs, os.lstat, os.chmod, ret.
      cbn [fs here up umask in_file ver fresh_entries map fst snd fresh].
      rewrite Hp. cbn [negb].
      rewrite lookup_fresh by assumption. cbn [fs here up umask in_file ver].
      rewrite find_entry_fresh by assumption.
      apply Hgo. f_equal. f_equal.
      unfold image_entries. rewrite List.map_app. cbn [map fst snd].
      rewrite image_File, Hx, <- List.app_assoc. reflexivity.
    + cbn [String.eqb Ascii.eqb Bool.eqb]. unfold bind, ret.
      apply Hgo. f_equal. f_equal.
      unfold image_entries, fresh_entries. rewrite List.map_app.
      cbn [map fst snd fresh]. rewrite image_File, Hx, <- List.app_assoc. reflexivity.
    + cbn [String.eqb Ascii.eqb Bool.eqb]. unfold bind, ret.
      apply Hgo. f_equal. f_equal.
      unfold image_entries, fresh_entries. rewrite List.map_app.
      cbn [map fst snd fresh]. rewrite <- List.app_assoc. reflexivity.
    + cbn [String.eqb Ascii.eqb Bool.eqb]. unfold bind, ret.
      apply Hgo. f_equal. f_equal.
      unfold image_entries, fresh_entries. rewrite List.map_app.
      cbn [map fst snd fresh]. rewrite <- List.app_assoc. reflexivity.
Qed.

Lemma Pop_spec um f man rest U ents a stk L :
  List.NoDup (map fst ents) ->
  Forall (fun e => good_name e.1 = true /\ not_special e.2 = true) ents ->
  L !! a = Some (checksums man ents) ->
  verifier.Pop (Py.join_lines (map (line_with man) ents))
    (UState rest (World (fresh_entries um f ents) U um)
       (MkVerifier (Some a) (stk ++ [a]) L))
  = (UState rest (World (image_entries um f ents) U um)
       (MkVerifier (match stk with [] => Some a | _ => Some (List.last stk 0%nat) end)
          stk L), Ok tt).
Proof.
  intros Hnd Hall HL. unfold verifier.Pop, bind.
  rewrite splitlines_join_lines.
  2:{ apply lines_no_break. eapply List.Forall_impl; [|exact Hall]. intros e [? _]. assumption. }
  pose proof (pop_lines um f man (Py.join_lines (map (line_with man) ents))
                rest U (MkVerifier (Some a) (stk ++ [a]) L) ents [] [] Hnd Hall) as E.
  cbn [image_entries map app] in E. rewrite E. cbn [app].
  unfold verifier.actual. cbn [ver current lists]. rewrite HL.
  destruct (decide (Some (checksums man ents) = Some (checksums man ents))) as [_|Hne];
    [|contradiction].
  unfold on_ver, verifier.pop_stack. cbn [ver stack current lists in_file fs].
  rewrite List.removelast_last.
  destruct (stk ++ [a]) eqn:Hs; [destruct stk; discriminate|]. reflexivity.
Qed.

Lemma ents_ok_sorted_entries q sub f :
  tree_of good_name (Dir q sub) = true -> (height (Dir q sub) <= S f)%nat ->
  ents_ok f (sorted_entries (Dir q sub)).
Proof.
  intros Hd Hh. pose proof (elt_sorted_entries q sub) as Helt. split.
  - assert (map fst (sorted_entries (Dir q sub)) = sorted (map fst sub)) as ->.
    { cbn [sorted_entries]. unfold entries_of.
      assert (Forall (fun name => In name (map fst sub)) (sorted (map fst sub))) as Hin.
      { apply List.Forall_forall. intros name. apply sorted_In. }
      induction Hin as [|name ns Hname _ IH]; [reflexivity|].
      cbn [omap list_omap]. destruct (lookup_is_Some _ _ Hname) as [n ->].
      cbn [option_map map fst]. f_equal. exact IH. }
    apply tree_of_dir in Hd as [Hdist _]. apply distinct_NoDup in Hdist.
    unfold sorted. eapply Permutation.Permutation_NoDup; [|exact Hdist].
    symmetry. apply merge_sort_Permutation.
  - eapply List.Forall_impl; [|exact Helt]. intros [k n] Hl. cbn [fst snd] in *.
    destruct (tree_of_lookup _ _ _ _ _ Hd Hl) as (? & ? & ?).
    split; [assumption|]. split; [assumption|]. lia.
Qed.

Lemma tree_of_not_special ok n : tree_of ok n = true -> not_special n = true.
Proof. destruct n; [reflexivity..|discriminate]. Qed.

Lemma OnEntry_spec name ck a stk L :
  verifier.OnEntry name ck (MkVerifier (Some a) stk L)
  = (MkVerifier (Some a) stk (alter (fun l => l ++ [(name, ck)]) a L), Ok tt).
Proof. reflexivity. Qed.

Lemma alter_snoc_more {A} (x : A) ys a (L : list (list A)) extra extra' :
  (a < length L)%nat ->
  alter (fun l => l ++ ys) a (alter (fun l => l ++ [x]) a L ++ extra) ++ extra'
  = alter (fun l => l ++ x :: ys) a L ++ (extra ++ extra').
Proof.
  intros Ha. rewrite alter_app_l by (rewrite length_alter; exact Ha).
  rewrite list_alter_alter_eq, <- List.app_assoc. f_equal.
  apply list_alter_ext; [|reflexivity]. intros l _. cbn.
  rewrite <- List.app_assoc. reflexivity.
Qed.

Lemma alter_after_push {A} (g h : list A -> list A) a (L : list (list A)) extra :
  (a < length L)%nat ->
  alter h a (alter g (length L) (L ++ [[]]) ++ extra)
  = alter h a L ++ (g [] :: extra).
Proof.
  intros Ha.
  rewrite (alter_app_r_alt g L [[]] (length L)) by lia.
  rewrite Nat.sub_diag. cbn [alter list_alter].
  rewrite <- List.app_assoc. rewrite alter_app_l by exact Ha. reflexivity.
Qed.

Lemma lookup_after_push {A} (g : list A -> list A) (L : list (list A)) extra :
  (alter g (length L) (L ++ [[]]) ++ extra) !! length L = Some (g []).
Proof.
  rewrite (alter_app_r_alt g L [[]] (length L)) by lia.
  rewrite Nat.sub_diag. cbn [alter list_alter].
  rewrite <- List.app_assoc. rewrite lookup_app_r by lia. rewrite Nat.sub_diag.
  reflexivity.
Qed.

Lemma framed_length_app l1 l2 :
  String.length (framed (l1 ++ l2))
  = (String.length (framed l1) + String.length (framed l2))%nat.
Proof. rewrite framed_app. apply str_length_app. Qed.

Lemma framed_pair_length a b : (2 <= String.length (framed [a; b]))%nat.
Proof.
  cbn [framed fold_right]. rewrite !str_length_app.
  pose proof (dump_line_length a). pose proof (dump_line_length b). lia.
Qed.

(** ** Unpacking the records of a directory *)

Lemma unpacks_nil um f : unpacks um f [].
Proof.
  intros H U a stk L level rest _ Ha Hlevel. exists 0%nat, [].
  split; [cbn; lia|]. intros k. cbn [entries_blobs flat_map framed fold_right
    fresh_entries checksums map Nat.add].
  rewrite str_app_nil_l, !List.app_nil_r.
  rewrite list_alter_id by (intros; apply List.app_nil_r). reflexivity.
Qed.

Lemma unpacks_cons um f e ents :
  ~ In e.1 (map fst ents) ->
  unpacks um f [e] -> unpacks um f ents -> unpacks um f (e :: ents).
Proof.
  intros Hnotin He Hents H U a stk L level rest Hfree Ha Hlevel.
  inversion Hfree as [|? ? Hfe Hfents]; subst.
  destruct (He H U a stk L level (framed (entries_blobs f ents) +:+ rest))
    as (n1 & extra1 & Hn1 & E1); [constructor; [assumption|constructor]|assumption..|].
  destruct (Hents (H ++ fresh_entries um f [e]) U a stk
              (alter (fun l => l ++ checksums (manifest f) [e]) a L ++ extra1)
              level rest) as (n2 & extra2 & Hn2 & E2).
  - rewrite Forall_forall in Hfents. apply List.Forall_forall. intros e' Hin.
    apply lookup_app_None.
    + apply Hfents, list_elem_of_In, Hin.
    + apply lookup_single_ne. intros Heq. apply Hnotin. rewrite Heq.
      apply List.in_map, Hin.
  - rewrite List.length_app, length_alter. lia.
  - assumption.
  - assert (entries_blobs f (e :: ents) = entries_blobs f [e] ++ entries_blobs f ents) as Hb.
    { unfold entries_blobs. cbn [flat_map]. rewrite List.app_nil_r. reflexivity. }
    exists (n1 + n2)%nat, (extra1 ++ extra2). split.
    + rewrite Hb, framed_length_app. lia.
    + intros k. rewrite Hb, framed_app, str_app_assoc, <- Nat.add_assoc, E1, E2.
      f_equal. f_equal.
      * f_equal. rewrite <- List.app_assoc. reflexivity.
      * f_equal. cbn [checksums map]. apply alter_snoc_more, Ha.
Qed.

Lemma unpacks_file um f name q data :
  good_name name = true -> unpacks um f [(name, File q data)].
Proof.
  intros Hname H U a stk L level rest Hfree Ha Hlevel.
  inversion Hfree as [|? ? Hf _]; subst. cbn [fst] in Hf.
  exists 1%nat, []. split.
  - cbn [entries_blobs flat_map entry_blobs snd fst app].
    pose proof (framed_pair_length ("F " +:+ name) data). lia.
  - intros k. cbn [entries_blobs flat_map entry_blobs snd fst app Nat.add].
    erewrite step_F;
      [|apply write_file_fresh; [apply good_name_plain, Hname|exact Hf]
       |apply OnEntry_spec].
    rewrite List.app_nil_r. reflexivity.
Qed.

Lemma unpacks_symlink um f name target :
  good_name name = true -> unpacks um f [(name, Symlink target)].
Proof.
  intros Hname H U a stk L level rest Hfree Ha Hlevel.
  inversion Hfree as [|? ? Hf _]; subst. cbn [fst] in Hf.
  exists 1%nat, []. split.
  - cbn [entries_blobs flat_map entry_blobs snd fst app].
    pose proof (framed_pair_length ("L " +:+ name) target). lia.
  - intros k. cbn [entries_blobs flat_map entry_blobs snd fst app Nat.add].
    erewrite step_L;
      [|apply symlink_fresh; [apply good_name_plain, Hname|exact Hf]
       |apply OnEntry_spec].
    rewrite List.app_nil_r. unfold fresh_entries. cbn [map fst snd fresh].
    rewrite image_Symlink. reflexivity.
Qed.

Lemma top_after_pop stk (a a1 : nat) :
  match stk ++ [a] with
  | [] => Some a1
  | _ => Some (List.last (stk ++ [a]) 0%nat)
  end = Some a.
Proof.
  rewrite List.last_last. destruct (stk ++ [a]) eqn:E; [|reflexivity].
  destruct stk; discriminate.
Qed.

Lemma unpacks_dir um f name q sub :
  good_name name = true ->
  tree_of good_name (Dir q sub) = true ->
  (height (Dir q sub) <= S f)%nat ->
  unpacks um f (sorted_entries (Dir q sub)) ->
  unpacks um (S f) [(name, Dir q sub)].
Proof.
  intros Hname Hd Hh Hsub H U a stk L level rest Hfree Ha Hlevel.
  inversion Hfree as [|? ? Hf _]; subst. cbn [fst] in Hf.
  pose proof (good_name_plain _ Hname) as Hp.
  destruct (plain_not_dot _ Hp) as [Hdot _].
  destruct (ents_ok_sorted_entries q sub f Hd Hh) as [Hnd Hall].
  set (ents := sorted_entries (Dir q sub)) in *.
  set (man := Py.join_lines (map (line_with (manifest f)) ents)).
  assert (entries_blobs (S f) [(name, Dir q sub)]
          = ["> " +:+ name; ""] ++ entries_blobs f ents ++ ["< " +:+ name; man]) as Hb.
  { unfold entries_blobs. cbn [flat_map entry_blobs fst snd].
    rewrite List.app_nil_r. reflexivity. }
  destruct (Hsub [] (Frame name (creat_dir um) H [] :: U) (length L) (stk ++ [a])
              (L ++ [[]]) (level + 1) (framed ["< " +:+ name; man] +:+ rest))
    as (n1 & extra1 & Hn1 & E1).
  { apply List.Forall_forall. intros; reflexivity. }
  { rewrite List.length_app. cbn. lia. }
  { lia. }
  exists (S (n1 + 1)), (checksums (manifest f) ents :: extra1). split.
  - rewrite Hb, !framed_length_app.
    pose proof (framed_pair_length ("> " +:+ name) "").
    pose proof (framed_pair_length ("< " +:+ name) man). lia.
  - intros k. rewrite Hb, !framed_app, !str_app_assoc.
    cbn [Nat.add].
    erewrite step_push;
      [|exact Hdot|apply mkdir_fresh; assumption
       |apply chdir_into; [exact Hp|apply find_entry_fresh, Hf]].
    cbn [verifier.Push fst lists stack].
    rewrite <- Nat.add_assoc, E1. cbn [Nat.add app].
    erewrite step_pop;
      [|exact Hdot|lia
       |apply Pop_spec;
          [exact Hnd
          |eapply List.Forall_impl; [|exact Hall]; intros e (? & ?%tree_of_not_special & _);
             split; assumption
          |apply (lookup_after_push (fun l => l ++ checksums (manifest f) ents))]
       |rewrite top_after_pop; apply OnEntry_spec
       |apply chdir_up].
    cbn [fr_before fr_name fr_perms fr_after].
    rewrite alter_after_push by exact Ha.
    replace (level + 1 - 1) with level by lia.
    reflexivity.
Qed.

Lemma unpack_entries um f : forall ents, ents_ok f ents -> unpacks um f ents.
Proof.
  induction f as [|f IHf]; intros ents; induction ents as [|[name n] ents IH];
    intros [Hnd Hall]; try apply unpacks_nil.
  - inversion Hall as [|? ? (Hname & Hn & Hh) Hall']; subst.
    inversion Hnd as [|? ? Hnotin Hnd']; subst. cbn [fst snd] in *.
    apply unpacks_cons; [exact Hnotin| |apply IH; split; assumption].
    destruct n as [q data|target|q sub|? ?]; [| | |discriminate].
    + apply unpacks_file, Hname.
    + apply unpacks_symlink, Hname.
    + cbn [height] in Hh. lia.
  - inversion Hall as [|? ? (Hname & Hn & Hh) Hall']; subst.
    inversion Hnd as [|? ? Hnotin Hnd']; subst. cbn [fst snd] in *.
    apply unpacks_cons; [exact Hnotin| |apply IH; split; assumption].
    destruct n as [q data|target|q sub|? ?]; [| | |discriminate].
    + apply unpacks_file, Hname.
    + apply unpacks_symlink, Hname.
    + apply unpacks_dir; [assumption..|].
      apply IHf, ents_ok_sorted_entries; assumption.
Qed.

(** ** Unpacking the stream of a tree *)

Lemma step_push_root f level contents rest w v :
  unpack_loop (S f) level (UState (framed ["> ."; contents] +:+ rest) w v)
  = unpack_loop f (level + 1) (UState rest w (fst (verifier.Push v))).
Proof.
  rewrite unpack_loop_step.
  change (Py.split Py.SP 1 "> .") with [">"; "."].
  unfold dispatch, bind, on_fs, on_ver, verifier.Push, ret.
  cbn [String.eqb Ascii.eqb Bool.eqb negb in_file fs ver fst].
  reflexivity.
Qed.

Lemma unpack_stream um q es dir H U trailer :
  tree_of good_name (Dir q es) = true ->
  os.plain dir = true -> os.lookup dir H = None ->
  exists v',
    unpack_of (stream_body (Dir q es) +:+ tnet.dump_line trailer) dir (World H U um)
    = (UState ""
         (World (image_entries um (height (Dir q es)) (sorted_entries (Dir q es)))
            (Frame dir (creat_dir um) H [] :: U) um) v',
       Ok trailer).
Proof.
  intros Hd Hp Hfree.
  set (d := Dir q es) in *. set (h := height d).
  destruct (ents_ok_sorted_entries q es h Hd) as [Hnd Hall]; [unfold h, d; lia|].
  fold d in Hnd, Hall. set (ents := sorted_entries d) in *.
  set (man := manifest (S h) d).
  assert (stream_body d +:+ tnet.dump_line trailer
          = tnet.dump_line "dfo--"
              +:+ (framed ["> ."; ""]
                     +:+ (framed (entries_blobs h ents)
                            +:+ (framed ["< ."; man]
                                   +:+ (tnet.dump_line trailer +:+ "")))))
    as ->.
  { unfold stream_body, root_manifest. fold h. fold man.
    change (blobs (S h) d) with (entries_blobs h ents).
    cbn [app]. rewrite !framed_cons, !framed_app, !framed_cons.
    cbn [framed fold_right]. str_norm. reflexivity. }
  destruct (unpack_entries um h ents (conj Hnd Hall) []
              (Frame dir (creat_dir um) H [] :: U) 0%nat [] [[]] 1
              (framed ["< ."; man] +:+ (tnet.dump_line trailer +:+ "")))
    as (n & extra & Hn & E).
  { apply List.Forall_forall. intros; reflexivity. }
  { cbn. lia. }
  { lia. }
  eexists. unfold unpack_of, _UnpackTree.
  unfold bind at 1. unfold on_fs at 1. cbn [in_file fs ver].
  rewrite mkdir_fresh by assumption.
  unfold bind at 1. unfold on_fs at 1. cbn [in_file fs ver].
  rewrite chdir_into by (try assumption; apply find_entry_fresh; assumption).
  unfold bind at 1. unfold on_ver at 1. cbn [in_file fs ver].
  unfold bind at 1. rewrite read_or_dump_line.
  cbn [String.eqb Ascii.eqb Bool.eqb negb].
  unfold bind at 1. cbn [in_file].
  match goal with
  | |- context [S (String.length ?s)] =>
      assert (exists k, S (String.length s) = S (n + S k)) as [k ->]
  end.
  { match goal with
    | |- context [S (String.length ?s)] => exists (String.length s - n - 1)%nat
    end.
    rewrite !str_length_app.
    pose proof (framed_pair_length "> ." "").
    pose proof (framed_pair_length "< ." man). lia. }
  rewrite step_push_root. cbn [verifier.Push verifier.__init__ fst lists stack length app Z.add].
  cbn [app] in E. change (0 + 1) with 1. rewrite (E (S k)).
  change ([] ++ fresh_entries um h ents) with (fresh_entries um h ents).
  change (fun l => l ++ checksums (manifest h) ents)
    with (fun l : list (string * string) => l ++ checksums (manifest h) ents).
  change "< ." with ("< " +:+ ".").
  erewrite step_pop_root;
    [|apply (Pop_spec um h (manifest h) _ _ ents 0%nat []);
        [exact Hnd
        |eapply List.Forall_impl; [|exact Hall]; intros e (? & ?%tree_of_not_special & _);
           split; assumption
        |reflexivity]
     |apply OnEntry_spec].
  unfold bind. rewrite read_or_dump_line. unfold ret.
  reflexivity.
Qed.

(** ** The image of a tree is the same tree *)

Lemma owner_exec_creat_file um : owner_exec (creat_file um) = false.
Proof. unfold owner_exec, creat_file. rewrite Z.land_spec. reflexivity. Qed.

Lemma owner_exec_chmod_x p : owner_exec (chmod_x p) = true.
Proof.
  unfold owner_exec, chmod_x, stat.S_IMODE.
  change verifier.exec_mask with 73.
  rewrite Z.land_spec, Z.lor_spec. change (Z.testbit 73 6) with true.
  change (Z.testbit 4095 6) with true. rewrite orb_true_r. reflexivity.
Qed.

Lemma same_dir q es q' es' :
  same (Dir q es) (Dir q' es') = true
  <-> forallb (fun k => bool_decide (is_Some (os.lookup k es))) (map fst es') = true
      /\ Forall (fun e => match os.lookup e.1 es' with
                          | Some m => same e.2 m = true
                          | None => False
                          end) es.
Proof.
  cbn [same]. rewrite andb_true_iff. apply and_iff_compat_l.
  induction es as [|[k n] es IH].
  - split; [constructor|reflexivity].
  - rewrite andb_true_iff, IH. cbn [fst snd]. split.
    + intros [Hk Hes]. constructor; [|exact Hes]. cbn [fst snd].
      destruct (os.lookup k es'); [exact Hk|discriminate].
    + intros H. inversion H as [|? ? Hk Hes]; subst. cbn [fst snd] in Hk.
      split; [|exact Hes]. destruct (os.lookup k es'); [exact Hk|contradiction].
Qed.

Lemma lookup_map_entries (g : node -> node) k l :
  os.lookup k (map (fun e => (e.1, g e.2)) l) = option_map g (os.lookup k l).
Proof.
  induction l as [|[k' n] l IH]; [reflexivity|].
  cbn [map fst snd]. rewrite !lookup_cons.
  destruct (String.eqb k' k); [reflexivity|exact IH].
Qed.

Lemma lookup_entries_of_None es ns k :
  os.lookup k es = None -> os.lookup k (entries_of es ns) = None.
Proof.
  intros Hk. induction ns as [|n ns IH]; [reflexivity|].
  unfold entries_of. cbn [omap list_omap]. fold (entries_of es ns).
  destruct (os.lookup n es) as [m|] eqn:E; cbn [option_map]; [|exact IH].
  rewrite lookup_cons. destruct (String.eqb_spec n k) as [->|_]; [congruence|exact IH].
Qed.

Lemma lookup_entries_of es ns k :
  In k ns -> os.lookup k (entries_of es ns) = os.lookup k es.
Proof.
  induction ns as [|n ns IH]; [intros []|]. intros Hin.
  unfold entries_of. cbn [omap list_omap]. fold (entries_of es ns).
  destruct (String.eqb_spec n k) as [->|Hne].
  - destruct (os.lookup k es) as [m|] eqn:E; cbn [option_map].
    + rewrite lookup_cons, String.eqb_refl. reflexivity.
    + apply lookup_entries_of_None, E.
  - destruct Hin as [?|Hin]; [contradiction|].
    destruct (os.lookup n es) as [m|] eqn:E; cbn [option_map]; [|apply IH, Hin].
    rewrite lookup_cons. apply String.eqb_neq in Hne. rewrite Hne. apply IH, Hin.
Qed.

Lemma lookup_NoDup k n es :
  List.NoDup (map fst es) -> In (k, n) es -> os.lookup k es = Some n.
Proof.
  induction es as [|[k' m] es IH]; [intros _ []|].
  cbn [map fst]. intros Hnd Hin. inversion Hnd as [|? ? Hk' Hnd']; subst.
  rewrite lookup_cons. destruct Hin as [[= -> ->]|Hin].
  - rewrite String.eqb_refl. reflexivity.
  - destruct (String.eqb_spec k' k) as [->|_]; [|apply IH; assumption].
    exfalso. apply Hk'. change k with (fst (k, n)). apply List.in_map, Hin.
Qed.

Lemma same_image um ok fuel : forall d,
  tree_of ok d = true -> (height d <= fuel)%nat ->
  same d (image um fuel d) = true.
Proof.
  induction fuel as [|f IH]; intros d Hd Hh;
    (destruct d as [p data|target|q es|? ?]; [| | |discriminate]).
  1,4: rewrite image_File; cbn [same]; rewrite String.eqb_refl;
       destruct (owner_exec p) eqn:E;
       rewrite ?owner_exec_chmod_x, ?owner_exec_creat_file; reflexivity.
  1,3: rewrite image_Symlink; cbn [same]; apply String.eqb_refl.
  - cbn [height] in Hh. lia.
  - cbn [image]. fold (image_entries um f (sorted_entries (Dir q es))).
    apply same_dir. pose proof Hd as [Hdist Hall]%tree_of_dir.
    apply distinct_NoDup in Hdist. split.
    + apply forallb_forall. intros k Hk. apply bool_decide_eq_true.
      rewrite map_fst_image_entries in Hk. apply List.in_map_iff in Hk as ([k' n] & <- & Hin).
      pose proof (elt_sorted_entries q es) as Helt.
      rewrite Forall_forall in Helt. specialize (Helt _ (proj2 (list_elem_of_In _ _) Hin)).
      cbn [fst snd] in *. rewrite Helt. eauto.
    + apply List.Forall_forall. intros [k n] Hin. cbn [fst snd].
      unfold image_entries. rewrite lookup_map_entries. cbn [sorted_entries].
      rewrite lookup_entries_of.
      2:{ apply sorted_In. change k with (fst (k, n)). apply List.in_map, Hin. }
      rewrite (lookup_NoDup k n es Hdist Hin). cbn [option_map].
      pose proof (lookup_NoDup k n es Hdist Hin) as Hl.
      destruct (tree_of_lookup _ _ _ _ _ Hd Hl) as (_ & Hn & Hlt).
      apply IH; [exact Hn|lia].
Qed.

(** ** [Verifier.Pop] on any manifest *)

Lemma S_IMODE_chmod k p :
  Z.land k 0xFFF = 0 ->
  stat.S_IMODE (Z.lor (Z.lor k (stat.S_IMODE p)) verifier.exec_mask)
  = Z.lor (stat.S_IMODE p) 73.
Proof.
  intros Hk. change verifier.exec_mask with 73. unfold stat.S_IMODE.
  rewrite !Z.land_lor_distr_l, Hk, <- Z.land_assoc.
  change (Z.land 0xFFF 0xFFF) with 0xFFF. change (Z.land 73 0xFFF) with 73.
  reflexivity.
Qed.

Lemma S_IMODE_idem p : stat.S_IMODE (stat.S_IMODE p) = stat.S_IMODE p.
Proof.
  unfold stat.S_IMODE. rewrite <- Z.land_assoc. reflexivity.
Qed.

Lemma lor_x_idem p :
  Z.lor (stat.S_IMODE (Z.lor (stat.S_IMODE p) 73)) 73 = Z.lor (stat.S_IMODE p) 73.
Proof.
  unfold stat.S_IMODE at 1. rewrite Z.land_lor_distr_l.
  fold (stat.S_IMODE (stat.S_IMODE p)). rewrite S_IMODE_idem.
  change (Z.land 73 0xFFF) with 73.
  rewrite <- Z.lor_assoc. reflexivity.
Qed.

Lemma special_fmt_low k : Z.land (os.special_fmt k) 0xFFF = 0.
Proof. destruct k; reflexivity. Qed.

Lemma chmod_x_node_idem n : chmod_x_node (chmod_x_node n) = chmod_x_node n.
Proof.
  destruct n as [p data|target|p es|k p]; [|reflexivity| |];
    unfold chmod_x_node; cbn [os.st_mode];
    rewrite !S_IMODE_chmod by (reflexivity || apply special_fmt_low);
    rewrite lor_x_idem; reflexivity.
Qed.

Lemma chmodable_chmod_x_node n : chmodable (chmod_x_node n) = chmodable n.
Proof. destruct n; reflexivity. Qed.

Lemma find_entry_split k es b n a :
  os.find_entry k es = Some (b, n, a) ->
  es = b ++ (k, n) :: a /\ os.lookup k b = None.
Proof.
  revert b. induction es as [|[k' m] es IH]; intros b; [discriminate|].
  cbn [os.find_entry]. destruct (String.eqb_spec k' k) as [->|Hne].
  - intros [= <- <- <-]. split; reflexivity.
  - destruct (os.find_entry k es) as [[[b' n'] a']|]; [|discriminate].
    intros [= <- <- <-]. destruct (IH b' eq_refl) as [-> Hb]. split; [reflexivity|].
    rewrite lookup_cons. apply String.eqb_neq in Hne. rewrite Hne. exact Hb.
Qed.

Lemma lookup_find k es n :
  os.lookup k es = Some n -> exists b a, os.find_entry k es = Some (b, n, a).
Proof.
  unfold os.lookup. destruct (os.find_entry k es) as [[[b m] a]|]; [|discriminate].
  intros [= ->]. eauto.
Qed.

Lemma replace_first_map (g : node -> node) k es b n a :
  List.NoDup (map fst es) ->
  os.find_entry k es = Some (b, n, a) ->
  b ++ (k, g n) :: a
  = map (fun e => if String.eqb e.1 k then (e.1, g e.2) else e) es.
Proof.
  revert b. induction es as [|[k' m] es IH]; intros b Hnd; [discriminate|].
  cbn [map fst] in Hnd. inversion Hnd as [|? ? Hk' Hnd']; subst.
  cbn [os.find_entry map fst snd]. destruct (String.eqb_spec k' k) as [->|Hne].
  - intros [= <- <- <-]. cbn [app]. f_equal.
    symmetry. erewrite List.map_ext_in; [apply List.map_id|].
    intros [k2 m2] Hin. cbn [fst snd].
    destruct (String.eqb_spec k2 k) as [->|_]; [|reflexivity].
    exfalso. apply Hk'. change k with (fst (k, m2)). apply List.in_map, Hin.
  - destruct (os.find_entry k es) as [[[b' n'] a']|] eqn:E; [|discriminate].
    intros [= <- <- <-]. cbn [app]. f_equal. apply IH; [assumption|reflexivity].
Qed.

Lemma map_fst_mark_x ns es : map fst (mark_x ns es) = map fst es.
Proof.
  unfold mark_x. rewrite List.map_map. apply List.map_ext. intros [k n].
  cbn [fst snd]. destruct (existsb _ ns); reflexivity.
Qed.

Lemma mark_x_mark_x k ns es :
  mark_x ns (mark_x [k] es) = mark_x (k :: ns) es.
Proof.
  unfold mark_x. rewrite List.map_map. apply List.map_ext. intros [k' n].
  cbn [fst snd existsb]. rewrite orb_false_r.
  destruct (String.eqb k' k); cbn [fst snd orb].
  - destruct (existsb (String.eqb k') ns); [rewrite chmod_x_node_idem|]; reflexivity.
  - reflexivity.
Qed.

Lemma mark_x_nil es : mark_x [] es = es.
Proof. unfold mark_x. cbn [existsb]. apply List.map_id. Qed.

Lemma lookup_mark_x k ns es :
  os.lookup k (mark_x ns es)
  = option_map (fun n => if existsb (String.eqb k) ns then chmod_x_node n else n)
      (os.lookup k es).
Proof.
  induction es as [|[k' n] es IH]; [reflexivity|].
  unfold mark_x. cbn [map fst snd]. fold (mark_x ns es).
  destruct (String.eqb_spec k' k) as [->|Hne].
  - destruct (existsb (String.eqb k) ns); rewrite !lookup_cons, String.eqb_refl;
      reflexivity.
  - apply String.eqb_neq in Hne.
    destruct (existsb (String.eqb k') ns); rewrite !lookup_cons; cbn [fst];
      rewrite Hne; exact IH.
Qed.

Lemma line_ok_fields l :
  line_ok l = true ->
  Py.contains Py.SP (ml_type l) = false /\ Py.contains Py.SP (ml_checksum l) = false
  /\ Py.contains Py.LF (render l) = false /\ Py.contains Py.CR (render l) = false.
Proof.
  unfold line_ok. rewrite !andb_true_iff, !negb_true_iff.
  intros [[[[[[[H1 H2] H3] H4] H5] H6] H7] H8].
  split; [assumption|]. split; [assumption|].
  unfold render. rewrite !contains_app, H3, H4, H5, H6, H7, H8.
  destruct (ml_exec l); split; reflexivity.
Qed.

Lemma split_render l :
  line_ok l = true ->
  Py.split Py.SP 3 (render l)
  = [if ml_exec l then "x" else "-"; ml_type l; ml_checksum l; ml_name l].
Proof.
  intros (H1 & H2 & _)%line_ok_fields. unfold render.
  apply split_line; [destruct (ml_exec l); reflexivity|assumption..].
Qed.

Lemma x_present_mark_x lines ns es :
  x_present lines es = true -> x_present lines (mark_x ns es) = true.
Proof.
  unfold x_present. rewrite !forallb_forall. intros Hall l Hl.
  specialize (Hall l Hl). destruct (ml_exec l); [|reflexivity].
  cbn [implb] in *. apply andb_prop in Hall as [Hp Hn]. rewrite Hp. cbn [andb].
  rewrite lookup_mark_x. destruct (os.lookup (ml_name l) es) as [n|]; [|discriminate].
  cbn [option_map]. destruct (existsb _ ns); [rewrite chmodable_chmod_x_node|];
    exact Hn.
Qed.

Lemma chmod_found name n b a U um :
  os.plain name = true -> chmodable n = true ->
  os.find_entry name (b ++ (name, n) :: a) = Some (b, n, a) ->
  os.chmod name (Z.lor (os.st_mode n) verifier.exec_mask)
    (World (b ++ (name, n) :: a) U um)
  = (World (b ++ (name, chmod_x_node n) :: a) U um, Ok tt).
Proof.
  intros Hp Hn Hf. unfold os.chmod. cbn [here up umask]. rewrite Hp, Hf.
  destruct n; [reflexivity|discriminate|reflexivity..].
Qed.

Lemma pop_pass dir_obj i U um v : forall lines es acc,
  List.NoDup (map fst es) ->
  Forall (fun l => line_ok l = true) lines ->
  x_present lines es = true ->
  for_each (map render lines) (verifier.pop_line dir_obj) acc
    (UState i (World es U um) v)
  = (UState i (World (mark_x (x_names lines) es) U um) v,
     Ok (acc ++ expected_of lines)).
Proof.
  induction lines as [|l lines IH]; intros es acc Hnd Hok Hx.
  - cbn. unfold ret. rewrite mark_x_nil, List.app_nil_r. reflexivity.
  - inversion Hok as [|? ? Hl Hok']; subst.
    cbn [x_present forallb] in Hx. apply andb_prop in Hx as [Hxl Hx].
    fold (x_present lines es) in Hx.
    cbn [map for_each]. unfold bind at 1. unfold verifier.pop_line.
    rewrite split_render by assumption.
    destruct (ml_exec l) eqn:Hexec.
    + cbn [implb] in Hxl. apply andb_prop in Hxl as [Hp Hn].
      destruct (os.lookup (ml_name l) es) as [n|] eqn:Hlook; [|discriminate].
      destruct (lookup_find _ _ _ Hlook) as (b & a & Hfind).
      destruct (find_entry_split _ _ _ _ _ Hfind) as [Hes _].
      cbn [String.eqb Ascii.eqb Bool.eqb]. unfold bind, on_fs, os.lstat, ret.
      cbn [fs here up umask in_file ver]. rewrite Hp, Hlook. cbn [negb fs in_file ver].
      rewrite Hes at 1. rewrite Hes in Hfind. rewrite chmod_found by assumption.
      rewrite (replace_first_map chmod_x_node _ _ _ _ _ Hnd
                 (eq_ind_r (fun x => os.find_entry (ml_name l) x = _) Hfind Hes)).
      change (map _ es) with
        (map (fun e : string * node =>
                if (e.1 =? ml_name l)%string then (e.1, chmod_x_node e.2) else e) es).
      assert (map (fun e : string * node =>
                     if (e.1 =? ml_name l)%string then (e.1, chmod_x_node e.2) else e) es
              = mark_x [ml_name l] es) as ->.
      { unfold mark_x. apply List.map_ext. intros e. cbn [existsb].
        rewrite orb_false_r. reflexivity. }
      rewrite IH;
        [|rewrite map_fst_mark_x; assumption|assumption|apply x_present_mark_x, Hx].
      rewrite mark_x_mark_x, <- List.app_assoc.
      unfold x_names. cbn [List.filter]. rewrite Hexec. reflexivity.
    + cbn [String.eqb Ascii.eqb Bool.eqb]. unfold bind, ret.
      rewrite IH by assumption. rewrite <- List.app_assoc.
      unfold x_names. cbn [List.filter]. rewrite Hexec. reflexivity.
Qed.

Lemma render_lines_no_break lines :
  Forall (fun l => line_ok l = true) lines ->
  Forall (fun l => Py.contains Py.LF l = false /\ Py.contains Py.CR l = false)
    (map render lines).
Proof.
  induction 1 as [|l lines Hl _ IH]; [constructor|].
  cbn [map]. constructor; [|exact IH].
  apply line_ok_fields in Hl as (_ & _ & ? & ?). split; assumption.
Qed.

(** [Pop] on any manifest: it first applies the chmod of every [x] line,
    then compares the list built from the lines with the list collected,
    and pops the stack only when they are equal.  When they differ it
    raises the integrity error, or [TypeError] from the loop that logs
    the list collected when there is none. *)
Lemma Pop_general lines i es U um v :
  List.NoDup (map fst es) ->
  Forall (fun l => line_ok l = true) lines ->
  x_present lines es = true ->
  verifier.Pop (Py.join_lines (map render lines)) (UState i (World es U um) v)
  = if decide (Some (expected_of lines) = verifier.actual v)
    then on_ver verifier.pop_stack
           (UState i (World (mark_x (x_names lines) es) U um) v)
    else (UState i (World (mark_x (x_names lines) es) U um) v,
          Raise (match current v with
                 | None => TypeError
                 | Some _ => RuntimeError StreamIntegrityError
                 end)).
Proof.
  intros Hnd Hok Hx. unfold verifier.Pop, bind.
  rewrite splitlines_join_lines by (apply render_lines_no_break, Hok).
  rewrite pop_pass by assumption. cbn [app ver]. reflexivity.
Qed.

(** * The claims *)




(** C5. The trailer is read after the loop and returned as it is: for a
    tree as in C1, replace the last blob of its stream, the trailer, by any
    blob; unpack then leaves the same file system as for the stream pack
    wrote, the tree of C1, and returns the replaced blob. *)
Theorem trailer_not_compared (T : node) (dir : string) (w : world) (trailer : string) :
  is_dir T = true ->
  tree_of good_name T = true ->
  os.plain dir = true ->
  os.lookup dir (here w) = None ->
  exists body checksum count s' T',
    PackTree T "" = (body +:+ tnet.dump_line checksum, Ok (checksum, count))
    /\ unpack_of (body +:+ tnet.dump_line trailer) dir w = (s', Ok trailer)
    /\ fs s' = fs (fst (unpack_of (body +:+ tnet.dump_line checksum) dir w))
    /\ os.chdir ".." (fs s')
       = (World (here w ++ [(dir, T')]) (up w) (umask w), Ok tt)
    /\ same T T' = true.
Proof.
  intros Hdir HT Hp Hfree. destruct T as [| |q es|]; try discriminate.
  destruct w as [H U um]. cbn [here up umask] in *.
  destruct (unpack_stream um q es dir H U trailer HT Hp Hfree) as [v' E].
  destruct (unpack_stream um q es dir H U
              (Sha1.hexdigest (root_manifest (Dir q es))) HT Hp Hfree) as [v'' E'].
  exists (stream_body (Dir q es)), (Sha1.hexdigest (root_manifest (Dir q es))),
    (count (S (height (Dir q es))) (Dir q es)).
  eexists. exists (image um (S (height (Dir q es))) (Dir q es)).
  split; [apply (PackTree_spec good_name); assumption|].
  split; [exact E|]. split; [rewrite E'; reflexivity|]. split; [reflexivity|].
  apply (same_image um good_name); [assumption|lia].
Qed.

Lemma trailer_not_compared_witness :
  is_dir tree_b = true /\ tree_of good_name tree_b = true
  /\ os.plain "out" = true /\ os.lookup "out" (here w0) = None
  /\ exists body checksum count s' T',
       PackTree tree_b "" = (body +:+ tnet.dump_line checksum, Ok (checksum, count))
       /\ unpack_of (body +:+ tnet.dump_line "068c57bfa6ffdbcdcffaae0a4d4240f5765664f2")
            "out" w0
          = (s', Ok "068c57bfa6ffdbcdcffaae0a4d4240f5765664f2")
       /\ fs s' = fs (fst (unpack_of (body +:+ tnet.dump_line checksum) "out" w0))
       /\ os.chdir ".." (fs s')
          = (World (here w0 ++ [("out", T')]) (up w0) (umask w0), Ok tt)
       /\ same tree_b T' = true.
Proof.
  split; [reflexivity|]. split; [reflexivity|]. split; [reflexivity|].
  split; [reflexivity|].
  apply (trailer_not_compared tree_b "out" w0); reflexivity.
Defined.

(** C8. An op record without a space raises the error of an invalid op
    record as soon as it is read: the file system and the verifier are as
    before, and the data blob has not been read. *)
Theorem op_without_space (f : nat) (level : Z) (op rest : string)
    (w : world) (v : Verifier) :
  Py.contains Py.SP op = false ->
  unpack_loop (S f) level (UState (tnet.dump_line op +:+ rest) w v)
  = (UState rest w v, Raise (RuntimeError (InvalidOpRecord op))).
Proof.
  intros Hop. cbn [unpack_loop].
  unfold bind at 1, try_except at 1, bind at 1. rewrite on_in_readbytes.
  unfold ret at 1. cbn [Py.split]. rewrite split_once_none by assumption.
  reflexivity.
Qed.

Lemma op_without_space_witness :
  Py.contains Py.SP "Fname" = false
  /\ unpack_loop 1 1 (UState (tnet.dump_line "Fname" +:+ tnet.dump_line "data") w0
                        (MkVerifier (Some 0%nat) [0%nat] [[]]))
     = (UState (tnet.dump_line "data") w0 (MkVerifier (Some 0%nat) [0%nat] [[]]),
        Raise (RuntimeError (InvalidOpRecord "Fname"))).
Proof.
  split; [reflexivity|]. apply (op_without_space 0 1 "Fname"). reflexivity.
Defined.

(** C9. An [F] record whose name is that of a regular file of the current
    directory replaces the contents of that file by the data blob and goes
    on: the file keeps its mode and its place, the entry is collected, no
    error is raised.  [os.mkdir] and [os.symlink] on that name do raise
    "already exists". *)
Theorem F_overwrites (f : nat) (level : Z) (name contents rest : string)
    (w : world) (v : Verifier) before p old after a :
  os.plain name = true ->
  os.find_entry name (here w) = Some (before, File p old, after) ->
  current v = Some a ->
  unpack_loop (S f) level (UState (framed ["F " +:+ name; contents] +:+ rest) w v)
  = unpack_loop f level
      (UState rest
         (World (before ++ (name, File p contents) :: after) (up w) (umask w))
         (MkVerifier (Some a) (stack v)
            (alter (fun l => l ++ [(name, Sha1.hexdigest contents)]) a (lists v))))
  /\ os.mkdir name w = (w, Raise (OSError EEXIST))
  /\ os.symlink contents name w = (w, Raise (OSError EEXIST)).
Proof.
  intros Hp Hfind Hcur. split; [|split].
  - apply step_F.
    + unfold os.write_file. rewrite Hp, Hfind. reflexivity.
    + unfold verifier.OnEntry. rewrite Hcur. reflexivity.
  - unfold os.mkdir, os.lookup. rewrite Hp, Hfind. reflexivity.
  - unfold os.symlink, os.lookup. rewrite Hp, Hfind. reflexivity.
Qed.

Lemma F_overwrites_witness :
  os.plain "a.txt" = true
  /\ os.find_entry "a.txt" (here w1) = Some ([], File 384 "old", [("b", Symlink "a.txt")])
  /\ current v1 = Some 0%nat
  /\ (unpack_loop 1 1 (UState (framed ["F " +:+ "a.txt"; "new"] +:+ "") w1 v1)
      = unpack_loop 0 1
          (UState ""
             (World ([] ++ ("a.txt", File 384 "new") :: [("b", Symlink "a.txt")])
                (up w1) (umask w1))
             (MkVerifier (Some 0%nat) (stack v1)
                (alter (fun l => l ++ [("a.txt", Sha1.hexdigest "new")]) 0%nat (lists v1))))
      /\ os.mkdir "a.txt" w1 = (w1, Raise (OSError EEXIST))
      /\ os.symlink "new" "a.txt" w1 = (w1, Raise (OSError EEXIST))).
Proof.
  split; [reflexivity|]. split; [reflexivity|]. split; [reflexivity|].
  apply (F_overwrites 0 1 "a.txt" "new" "" w1 v1 [] 384 "old" [("b", Symlink "a.txt")] 0%nat);
    reflexivity.
Defined.

Lemma framed_snoc l b : framed l +:+ tnet.dump_line b = framed (l ++ [b]).
Proof.
  rewrite framed_app. cbn [framed fold_right]. rewrite str_app_nil_r. reflexivity.
Qed.

(** C6. Packing a directory that holds exactly one regular file [a.txt],
    not executable by its owner, of contents ["hi\n"]: the manifest of the
    root, the data blob of the record [< .], is the one line
    ["- F <sha1 of hi\n> a.txt\n"], and the root checksum, which is also
    the trailer, is the digest of that line. *)
Theorem pack_single_file (q p : Z) :
  owner_exec p = false ->
  root_manifest (Dir q [("a.txt", File p hi)]) = line_b
  /\ PackTree (Dir q [("a.txt", File p hi)]) ""
     = (framed ["dfo--"; "> ."; ""; "F a.txt"; hi; "< ."; line_b;
                Sha1.hexdigest line_b],
        Ok (Sha1.hexdigest line_b, 1%nat)).
Proof.
  intros Hx.
  assert (root_manifest (Dir q [("a.txt", File p hi)]) = line_b) as Hman.
  { unfold root_manifest.
    change (manifest (S (height (Dir q [("a.txt", File p hi)])))
              (Dir q [("a.txt", File p hi)]))
      with (Py.join_lines [line_with (manifest 1) ("a.txt", File p hi)]).
    unfold line_with. cbn [exec_letter type_letter checksum_with fst snd].
    rewrite Hx. vm_compute. reflexivity. }
  split; [exact Hman|].
  rewrite (PackTree_spec (fun _ => true)) by reflexivity.
  unfold stream_of, stream_body. rewrite Hman, framed_snoc.
  reflexivity.
Qed.

Lemma pack_single_file_witness :
  owner_exec 420 = false
  /\ root_manifest tree_b = line_b
  /\ PackTree tree_b ""
     = (framed ["dfo--"; "> ."; ""; "F a.txt"; hi; "< ."; line_b;
                Sha1.hexdigest line_b],
        Ok (Sha1.hexdigest line_b, 1%nat)).
Proof. split; [reflexivity|]. apply (pack_single_file 493 420). reflexivity. Defined.

Example line_b_value :
  line_b = "- F 55ca6286e3e4f4fba5d0448333fa99fc5a404a73 a.txt" +:+ Py.chr Py.LF
  /\ Sha1.hexdigest line_b = "968c57bfa6ffdbcdcffaae0a4d4240f5765664f2".
Proof. split; vm_compute; reflexivity. Qed.

Lemma chmod_x_node_File p data :
  chmod_x_node (File p data)
  = File (Z.lor (stat.S_IMODE p)
            (Z.lor stat.S_IXUSR (Z.lor stat.S_IXGRP stat.S_IXOTH))) data.
Proof.
  unfold chmod_x_node. cbn [os.st_mode]. rewrite S_IMODE_chmod by reflexivity.
  reflexivity.
Qed.

(** C3 (amended). When a directory closes, over a manifest whose [x]
    lines name nodes of that directory: for every line whose exec field is
    [x], the node of that name gets the three executable bits, of owner,
    group and others (0111), added to its permission bits; no other bit of
    it and nothing else in the directory or above it changes, whether the
    comparison that follows succeeds or not. *)
Theorem Pop_adds_exec_bits (lines : list mline) (i : string)
    (es : list (string * node)) (U : list frame) (um : Z) (v : Verifier) :
  List.NoDup (map fst es) ->
  Forall (fun l => line_ok l = true) lines ->
  x_present lines es = true ->
  fs (fst (verifier.Pop (Py.join_lines (map render lines))
             (UState i (World es U um) v)))
  = World (map (fun e => if existsb (String.eqb e.1) (x_names lines)
                         then (e.1, chmod_x_node e.2) else e) es) U um
  /\ forall p data,
       chmod_x_node (File p data)
       = File (Z.lor (stat.S_IMODE p)
                 (Z.lor stat.S_IXUSR (Z.lor stat.S_IXGRP stat.S_IXOTH))) data.
Proof.
  intros Hnd Hok Hx. split; [|apply chmod_x_node_File].
  rewrite Pop_general by assumption. fold (mark_x (x_names lines) es).
  destruct (decide _); [|reflexivity].
  unfold on_ver. cbn [ver fs in_file].
  destruct (verifier.pop_stack v). reflexivity.
Qed.

Lemma Pop_adds_exec_bits_witness :
  List.NoDup (map fst (here w2))
  /\ Forall (fun l => line_ok l = true) [line_a; line_b']
  /\ x_present [line_a; line_b'] (here w2) = true
  /\ fs (fst (verifier.Pop (Py.join_lines (map render [line_a; line_b']))
                (UState "" (World (here w2) [] 18) v2)))
     = World (map (fun e => if existsb (String.eqb e.1) (x_names [line_a; line_b'])
                            then (e.1, chmod_x_node e.2) else e) (here w2)) [] 18
  /\ forall p data,
       chmod_x_node (File p data)
       = File (Z.lor (stat.S_IMODE p)
                 (Z.lor stat.S_IXUSR (Z.lor stat.S_IXGRP stat.S_IXOTH))) data.
Proof.
  assert (List.NoDup (map fst (here w2))) as Hnd.
  { apply distinct_NoDup. reflexivity. }
  assert (Forall (fun l => line_ok l = true) [line_a; line_b']) as Hok.
  { repeat constructor. }
  split; [exact Hnd|]. split; [exact Hok|]. split; [reflexivity|].
  apply (Pop_adds_exec_bits [line_a; line_b'] "" (here w2) [] 18 v2 Hnd Hok).
  reflexivity.
Defined.

(** C3 as stated fails: the file [a], of mode 0644, is at mode 0755 after
    the pop, not at 0744: the executable bits of group and others, clear
    before, are set as well. *)
Lemma Pop_sets_group_and_other_bits :
  verifier.Pop (Py.join_lines (map render [line_a; line_b'])) (UState "" w2 v2)
  = (UState "" (World [("a", File 493 ""); ("b", File 420 "")] [] 18)
       (MkVerifier (Some 0%nat) [] [[("a", empty_sum); ("b", empty_sum)]]), Ok tt)
  /\ 493 <> Z.lor 420 stat.S_IXUSR
  /\ Z.testbit 420 3 = false /\ Z.testbit 493 3 = true
  /\ Z.testbit 420 0 = false /\ Z.testbit 493 0 = true.
Proof.
  split; [vm_compute; reflexivity|]. split; [discriminate|].
  repeat split; reflexivity.
Qed.

Lemma map_fst_expected_of lines : map fst (expected_of lines) = map ml_name lines.
Proof. unfold expected_of. rewrite List.map_map. reflexivity. Qed.



(** C10. [Pop] is not atomic on the integrity error: at the close of a
    directory, over a manifest whose list of entries is not the list
    collected for it, it raises the integrity error after the chmod of
    every [x] line has been applied.  A regular file named by an [x]
    line that lacked one of the three executable bits has them in the
    state left by the raise, which therefore is not the state before the
    call. *)
Theorem Pop_not_atomic (lines : list mline) (i : string)
    (es : list (string * node)) (U : list frame) (um : Z) (v : Verifier)
    (collected : list (string * string))
    (name : string) (p : Z) (data : string) :
  List.NoDup (map fst es) ->
  Forall (fun l => line_ok l = true) lines ->
  x_present lines es = true ->
  verifier.actual v = Some collected ->
  expected_of lines <> collected ->
  In name (x_names lines) ->
  os.lookup name es = Some (File p data) ->
  Z.lor (stat.S_IMODE p) 73 <> p ->
  exists s',
    verifier.Pop (Py.join_lines (map render lines)) (UState i (World es U um) v)
    = (s', Raise (RuntimeError StreamIntegrityError))
    /\ os.lookup name (here (fs s')) = Some (File (Z.lor (stat.S_IMODE p) 73) data)
    /\ fs s' <> World es U um.
Proof.
  intros Hnd Hok Hx Hact Hdiff Hin Hl Hp.
  rewrite Pop_general by assumption. rewrite Hact.
  destruct (decide _) as [[= E]|_]; [contradiction|].
  unfold verifier.actual in Hact.
  destruct (current v) as [a|]; [|discriminate].
  eexists. split; [reflexivity|]. cbn [fs here].
  assert (os.lookup name (mark_x (x_names lines) es)
          = Some (File (Z.lor (stat.S_IMODE p) 73) data)) as Hl'.
  { rewrite lookup_mark_x, Hl. cbn [option_map].
    assert (existsb (String.eqb name) (x_names lines) = true) as ->.
    { apply existsb_exists. exists name. split; [exact Hin|apply String.eqb_refl]. }
    rewrite chmod_x_node_File. reflexivity. }
  split; [exact Hl'|].
  intros [= E]. rewrite E, Hl in Hl'. injection Hl' as Hl'. apply Hp. symmetry. exact Hl'.
Qed.

Lemma Pop_not_atomic_witness :
  List.NoDup (map fst (here w2))
  /\ Forall (fun l => line_ok l = true) [line_b'; line_a]
  /\ x_present [line_b'; line_a] (here w2) = true
  /\ verifier.actual v2 = Some [("a", empty_sum); ("b", empty_sum)]
  /\ expected_of [line_b'; line_a] <> [("a", empty_sum); ("b", empty_sum)]
  /\ In "a" (x_names [line_b'; line_a])
  /\ os.lookup "a" (here w2) = Some (File 420 "")
  /\ Z.lor (stat.S_IMODE 420) 73 <> 420
  /\ exists s',
       verifier.Pop (Py.join_lines (map render [line_b'; line_a]))
         (UState "" (World (here w2) [] 18) v2)
       = (s', Raise (RuntimeError StreamIntegrityError))
       /\ os.lookup "a" (here (fs s')) = Some (File (Z.lor (stat.S_IMODE 420) 73) "")
       /\ fs s' <> World (here w2) [] 18.
Proof.
  assert (List.NoDup (map fst (here w2))) as Hnd.
  { apply distinct_NoDup. reflexivity. }
  assert (Forall (fun l => line_ok l = true) [line_b'; line_a]) as Hok.
  { repeat constructor. }
  assert (expected_of [line_b'; line_a] <> [("a", empty_sum); ("b", empty_sum)])
    as Hdiff by discriminate.
  assert (In "a" (x_names [line_b'; line_a])) as Hin by (left; reflexivity).
  assert (Z.lor (stat.S_IMODE 420) 73 <> 420) as Hp by discriminate.
  split; [exact Hnd|]. split; [exact Hok|]. split; [reflexivity|].
  split; [reflexivity|]. split; [exact Hdiff|]. split; [exact Hin|].
  split; [reflexivity|]. split; [exact Hp|].
  apply (Pop_not_atomic [line_b'; line_a] "" (here w2) [] 18 v2
           [("a", empty_sum); ("b", empty_sum)] "a" 420 ""
           Hnd Hok eq_refl eq_refl Hdiff Hin eq_refl Hp).
Defined.

(** ** Counting the blobs of a stream *)

Lemma read_all_framed l : forall fuel,
  (String.length (framed l) < fuel)%nat -> read_all fuel (framed l) = Some l.
Proof.
  induction l as [|b l IH]; intros fuel Hlen.
  - destruct fuel; [lia|]. reflexivity.
  - destruct fuel; [lia|]. rewrite framed_cons in *. cbn [read_all].
    rewrite readbytes_dump_line. rewrite IH; [reflexivity|].
    rewrite str_length_app in Hlen. pose proof (dump_line_length b). lia.
Qed.

Lemma blobs_of_framed l : blobs_of (framed l) = Some l.
Proof. apply read_all_framed. lia. Qed.

Lemma list_sum_perm {A} (g : A -> nat) l l' :
  Permutation l l' -> list_sum (map g l) = list_sum (map g l').
Proof.
  induction 1 as [|x l l' _ IH|x y l|l l' l'' _ IH1 _ IH2]; simpl.
  - reflexivity.
  - rewrite IH. reflexivity.
  - lia.
  - congruence.
Qed.

Lemma list_sum_ext {A} (g1 g2 : A -> nat) l :
  Forall (fun e => g1 e = g2 e) l -> list_sum (map g1 l) = list_sum (map g2 l).
Proof.
  induction 1 as [|e l He _ IH]; [reflexivity|].
  simpl. rewrite He, IH. reflexivity.
Qed.

Lemma list_sum_double {A} (a b : A -> nat) l :
  list_sum (map (fun e => 2 * (a e + b e))%nat l)
  = (2 * (list_sum (map a l) + list_sum (map b l)))%nat.
Proof. induction l as [|e l IH]; [reflexivity|]. simpl in *. lia. Qed.

Lemma entries_of_cons_notin k n es ns :
  ~ In k ns -> entries_of ((k, n) :: es) ns = entries_of es ns.
Proof.
  induction ns as [|name ns IH]; [reflexivity|]. intros Hnotin.
  unfold entries_of. cbn [omap list_omap]. fold (entries_of ((k, n) :: es) ns).
  fold (entries_of es ns). rewrite lookup_cons.
  destruct (String.eqb_spec k name) as [->|_].
  - exfalso. apply Hnotin. left. reflexivity.
  - rewrite IH; [reflexivity|]. intros Hin. apply Hnotin. right. exact Hin.
Qed.

Lemma entries_of_names es :
  List.NoDup (map fst es) -> entries_of es (map fst es) = es.
Proof.
  induction es as [|[k n] es IH]; [reflexivity|]. cbn [map fst].
  intros Hnd. inversion Hnd as [|? ? Hk Hnd']; subst.
  unfold entries_of. cbn [omap list_omap].
  rewrite lookup_cons, String.eqb_refl. cbn [option_map].
  fold (entries_of ((k, n) :: es) (map fst es)).
  rewrite entries_of_cons_notin by exact Hk. rewrite IH by exact Hnd'. reflexivity.
Qed.

Lemma sorted_entries_perm q es :
  List.NoDup (map fst es) -> Permutation (sorted_entries (Dir q es)) es.
Proof.
  intros Hnd. cbn [sorted_entries]. unfold entries_of, sorted.
  rewrite (merge_sort_Permutation String.le (map fst es)).
  fold (entries_of es (map fst es)). rewrite entries_of_names by exact Hnd.
  reflexivity.
Qed.

Lemma blobs_count ok f : forall d,
  tree_of ok d = true -> is_dir d = true -> (height d <= f)%nat ->
  (length (blobs f d) + 4 = 2 * (nodes d + dirs d))%nat
  /\ (count f d + 1 = nodes d)%nat.
Proof.
  induction f as [|f IH]; intros d Hd Hdir Hh;
    (destruct d as [| |q es|]; try discriminate).
  - cbn [height] in Hh. lia.
  - pose proof Hd as [Hdist _]%tree_of_dir. apply distinct_NoDup in Hdist.
    pose proof (sorted_entries_perm q es Hdist) as Hperm.
    assert (Forall (fun e =>
              length (entry_blobs (blobs f) (manifest f) e)
              = (2 * (nodes e.2 + dirs e.2))%nat
              /\ entry_count (count f) e = nodes e.2)
              (sorted_entries (Dir q es))) as Hall.
    { eapply List.Forall_impl; [|apply elt_sorted_entries].
      intros [k n] Hl. cbn [fst snd] in *.
      destruct (tree_of_lookup _ _ _ _ _ Hd Hl) as (_ & Hn & Hlt).
      destruct n as [p data|target|q' sub|? ?]; [| | |discriminate];
        unfold entry_blobs, entry_count; cbn [fst snd nodes dirs length];
        [lia..|].
      destruct (IH (Dir q' sub) Hn eq_refl) as [Hb Hc]; [lia|].
      rewrite !List.length_app. cbn [length].
      cbn [nodes dirs] in Hb, Hc. lia. }
    cbn [blobs count nodes dirs]. rewrite List.length_flat_map.
    rewrite (list_sum_ext _ (fun e => 2 * (nodes e.2 + dirs e.2))%nat)
      by (eapply List.Forall_impl; [|exact Hall]; intros e [? _]; assumption).
    rewrite (list_sum_ext (entry_count (count f)) (fun e => nodes e.2))
      by (eapply List.Forall_impl; [|exact Hall]; intros e [_ ?]; assumption).
    rewrite (list_sum_perm _ _ _ Hperm).
    rewrite (list_sum_perm (fun e => nodes e.2) _ _ Hperm).
    rewrite (list_sum_double (fun e => nodes e.2) (fun e => dirs e.2)). lia.
Qed.

(** C2 (amended). For every tree with N nodes, the root directory
    counted, D of them directories, the stream that pack writes is made of
    exactly 2 (N + D) + 2 blobs: the header, one (op record, data blob)
    pair for each file and symlink and two for each directory, the root
    included, and the trailer.  The node count that pack returns is
    N - 1, the nodes below the root. *)
Theorem pack_blob_count (T : node) :
  is_dir T = true ->
  tree_of (fun _ => true) T = true ->
  exists stream checksum count l,
    PackTree T "" = (stream, Ok (checksum, count))
    /\ S count = nodes T
    /\ blobs_of stream = Some l
    /\ length l = (2 * (nodes T + dirs T) + 2)%nat.
Proof.
  intros Hdir HT.
  destruct (blobs_count (fun _ => true) (S (height T)) T HT Hdir) as [Hb Hc]; [lia|].
  exists (stream_of T), (Sha1.hexdigest (root_manifest T)), (count (S (height T)) T).
  exists (["dfo--"; "> ."; ""] ++ blobs (S (height T)) T
            ++ ["< ."; root_manifest T] ++ [Sha1.hexdigest (root_manifest T)]).
  split; [apply (PackTree_spec (fun _ => true)); assumption|].
  split; [lia|]. split.
  - unfold stream_of, stream_body. rewrite framed_snoc, <- !List.app_assoc.
    apply blobs_of_framed.
  - rewrite !List.length_app. cbn [length]. lia.
Qed.

Lemma pack_blob_count_witness :
  is_dir tree_b = true /\ tree_of (fun _ => true) tree_b = true
  /\ exists stream checksum count l,
       PackTree tree_b "" = (stream, Ok (checksum, count))
       /\ S count = nodes tree_b
       /\ blobs_of stream = Some l
       /\ length l = (2 * (nodes tree_b + dirs tree_b) + 2)%nat.
Proof.
  split; [reflexivity|]. split; [reflexivity|].
  apply (pack_blob_count tree_b); reflexivity.
Defined.

(** C2 as stated fails: the empty directory has one node, its root, and
    its stream has six blobs, not four. *)
Lemma empty_tree_has_six_blobs :
  nodes (Dir 493 []) = 1%nat
  /\ blobs_of (fst (PackTree (Dir 493 []) ""))
     = Some ["dfo--"; "> ."; ""; "< ."; ""; Sha1.hexdigest ""]
  /\ length ["dfo--"; "> ."; ""; "< ."; ""; Sha1.hexdigest ""]
     <> (2 * nodes (Dir 493 []) + 2)%nat.
Proof.
  split; [reflexivity|]. split; [vm_compute; reflexivity|]. cbn. lia.
Qed.

(** ** The listing order does not matter *)

Lemma relisted_dir p es p' es' :
  relisted (Dir p es) (Dir p' es') = true
  <-> p = p'
      /\ forallb (fun k => bool_decide (is_Some (os.lookup k es))) (map fst es') = true
      /\ Forall (fun e => match os.lookup e.1 es' with
                          | Some m => relisted e.2 m = true
                          | None => False
                          end) es.
Proof.
  cbn [relisted]. rewrite !andb_true_iff, Z.eqb_eq.
  match goal with
  | |- (_ /\ ?B' = true) <-> (_ /\ _ /\ ?B) => assert (B' = true <-> B) as HB
  end.
  { induction es as [|[k n] es IH].
    - split; [constructor|reflexivity].
    - rewrite andb_true_iff, IH. cbn [fst snd]. split.
      + intros [Hk Hes]. constructor; [|exact Hes]. cbn [fst snd].
        destruct (os.lookup k es'); [exact Hk|discriminate].
      + intros H. inversion H as [|? ? Hk Hes]; subst. cbn [fst snd] in Hk.
        split; [|exact Hes]. destruct (os.lookup k es'); [exact Hk|contradiction]. }
  tauto.
Qed.

Lemma lookup_is_Some_In name es :
  is_Some (os.lookup name es) -> In name (map fst es).
Proof.
  intros [n Hl]. apply lookup_In in Hl. change name with (fst (name, n)).
  apply List.in_map, Hl.
Qed.

Lemma sorted_perm l l' : Permutation l l' -> sorted l = sorted l'.
Proof.
  intros Hp. unfold sorted. apply (Sorted_unique String.le).
  - apply Sorted_merge_sort; apply _.
  - apply Sorted_merge_sort; apply _.
  - rewrite !merge_sort_Permutation. exact Hp.
Qed.

Lemma relisted_names p es p' es' :
  tree_of (fun _ => true) (Dir p es) = true ->
  tree_of (fun _ => true) (Dir p' es') = true ->
  relisted (Dir p es) (Dir p' es') = true ->
  sorted (map fst es) = sorted (map fst es').
Proof.
  intros [Hd _]%tree_of_dir [Hd' _]%tree_of_dir (_ & Hback & Hforth)%relisted_dir.
  apply distinct_NoDup in Hd, Hd'. apply sorted_perm.
  apply Permutation.NoDup_Permutation; [assumption..|]. intros name. split.
  - intros Hin. apply List.in_map_iff in Hin as ([k n] & <- & Hin). cbn [fst].
    rewrite Forall_forall in Hforth.
    specialize (Hforth _ (proj2 (list_elem_of_In _ _) Hin)). cbn [fst snd] in Hforth.
    apply lookup_is_Some_In. destruct (os.lookup k es'); [eauto|contradiction].
  - intros Hin. rewrite forallb_forall in Hback.
    apply lookup_is_Some_In. eapply bool_decide_eq_true, Hback, Hin.
Qed.

Lemma relisted_lookup p es p' es' name n :
  tree_of (fun _ => true) (Dir p es) = true ->
  relisted (Dir p es) (Dir p' es') = true ->
  os.lookup name es = Some n ->
  exists n', os.lookup name es' = Some n' /\ relisted n n' = true.
Proof.
  intros _ (_ & _ & Hforth)%relisted_dir Hl%lookup_In.
  rewrite Forall_forall in Hforth.
  specialize (Hforth _ (proj2 (list_elem_of_In _ _) Hl)). cbn [fst snd] in Hforth.
  destruct (os.lookup name es') as [n'|]; [eauto|contradiction].
Qed.

Lemma relisted_records : forall f f' d d',
  tree_of (fun _ => true) d = true -> tree_of (fun _ => true) d' = true ->
  relisted d d' = true -> is_dir d = true ->
  (height d <= f)%nat -> (height d' <= f')%nat ->
  blobs f d = blobs f' d' /\ manifest f d = manifest f' d' /\ count f d = count f' d'.
Proof.
  induction f as [|f IH]; intros f' d d' Hd Hd' Hrel Hdir Hh Hh';
    (destruct d as [| |p es|]; try discriminate).
  { cbn [height] in Hh. lia. }
  destruct d' as [| |p' es'|]; try discriminate.
  destruct f' as [|f']; [cbn [height] in Hh'; lia|].
  pose proof (relisted_names _ _ _ _ Hd Hd' Hrel) as Hnames.
  cbn [blobs manifest count sorted_entries]. rewrite <- Hnames.
  assert (Forall (fun name => In name (map fst es)) (sorted (map fst es))) as Hin.
  { apply List.Forall_forall. intros name. apply sorted_In. }
  revert Hin. generalize (sorted (map fst es)) as ns. intros ns Hin.
  induction Hin as [|name ns Hname _ IHns]; [auto|].
  destruct IHns as (Hb & Hm & Hc).
  destruct (lookup_is_Some _ _ Hname) as [n Hl].
  destruct (relisted_lookup _ _ _ _ _ _ Hd Hrel Hl) as (n' & Hl' & Hnn').
  destruct (tree_of_lookup _ _ _ _ _ Hd Hl) as (_ & Hn & Hlt).
  destruct (tree_of_lookup _ _ _ _ _ Hd' Hl') as (_ & Hn' & Hlt').
  unfold entries_of in *. cbn [omap list_omap]. rewrite Hl, Hl'.
  cbn [option_map flat_map map list_sum fold_right Py.join_lines].
  assert (entry_blobs (blobs f) (manifest f) (name, n)
          = entry_blobs (blobs f') (manifest f') (name, n')
          /\ line_with (manifest f) (name, n) = line_with (manifest f') (name, n')
          /\ entry_count (count f) (name, n) = entry_count (count f') (name, n'))
    as (E1 & E2 & E3).
  { destruct n as [q data|t|q sub|? ?], n' as [q' data'|t'|q' sub'|? ?];
      try discriminate; unfold entry_blobs, line_with, entry_count;
      cbn [fst snd exec_letter type_letter checksum_with].
    - cbn [relisted] in Hnn'. apply andb_prop in Hnn' as [->%Z.eqb_eq ->%String.eqb_eq].
      auto.
    - cbn [relisted] in Hnn'. apply String.eqb_eq in Hnn' as ->. auto.
    - destruct (IH f' (Dir q sub) (Dir q' sub') Hn Hn' Hnn' eq_refl)
        as (-> & -> & ->); [lia..|]. auto. }
  rewrite E1, E2, E3. fold (Py.join_lines (map (line_with (manifest f))
    (omap (fun name => option_map (pair name) (os.lookup name es)) ns))) in *.
  fold (Py.join_lines (map (line_with (manifest f'))
    (omap (fun name => option_map (pair name) (os.lookup name es')) ns))) in *.
  cbn [list_sum fold_right] in Hc |- *.
  rewrite Hb, Hm. split; [reflexivity|]. split; [reflexivity|].
  f_equal. exact Hc.
Qed.

Lemma PackTree_spec_at ok d outf :
  tree_of ok d = true -> is_dir d = true ->
  PackTree d outf
  = (outf +:+ stream_of d,
     Ok (Sha1.hexdigest (root_manifest d), count (S (height d)) d)).
Proof.
  intros Hd Hdir. unfold PackTree, bind, _WriteChunk, _WritePair, write.
  rewrite (pack_tree_spec ok) by (assumption || lia).
  f_equal. unfold stream_of, stream_body, root_manifest.
  cbn [app]. rewrite !framed_cons, !framed_app, !framed_cons.
  cbn [framed fold_right]. str_norm. reflexivity.
Qed.

(** C7. Pack is a function of the tree alone, whatever the order in which
    the directories list their entries: two runs on the same tree, the
    listings of the second in any other order ([T'] is [T] relisted),
    write the same bytes and return the same checksum and count. *)
Theorem pack_deterministic (T T' : node) (outf : string) :
  is_dir T = true ->
  tree_of (fun _ => true) T = true ->
  tree_of (fun _ => true) T' = true ->
  relisted T T' = true ->
  PackTree T outf = PackTree T' outf.
Proof.
  intros Hdir HT HT' Hrel.
  assert (is_dir T' = true) as Hdir'.
  { destruct T as [| |? ?|]; try discriminate. destruct T'; try discriminate. reflexivity. }
  destruct (relisted_records (S (height T)) (S (height T')) T T' HT HT' Hrel Hdir)
    as (Hb & Hm & Hc); [lia..|].
  rewrite !(PackTree_spec_at (fun _ => true)) by assumption.
  unfold stream_of, stream_body, root_manifest. rewrite Hb, Hm, Hc. reflexivity.
Qed.

Lemma pack_deterministic_witness :
  is_dir tree_ab = true
  /\ tree_of (fun _ => true) tree_ab = true
  /\ tree_of (fun _ => true) tree_ba = true
  /\ relisted tree_ab tree_ba = true
  /\ PackTree tree_ab "" = PackTree tree_ba "".
Proof.
  split; [reflexivity|]. split; [reflexivity|]. split; [reflexivity|].
  split; [reflexivity|]. apply (pack_deterministic tree_ab tree_ba ""); reflexivity.
Defined.


(** * Further properties of the code *)

(** ** Pack reads only what the format tracks *)

Lemma same_names p es p' es' :
  tree_of (fun _ => true) (Dir p es) = true ->
  tree_of (fun _ => true) (Dir p' es') = true ->
  same (Dir p es) (Dir p' es') = true ->
  sorted (map fst es) = sorted (map fst es').
Proof.
  intros [Hd _]%tree_of_dir [Hd' _]%tree_of_dir (Hback & Hforth)%same_dir.
  apply distinct_NoDup in Hd, Hd'. apply sorted_perm.
  apply Permutation.NoDup_Permutation; [assumption..|]. intros name. split.
  - intros Hin. apply List.in_map_iff in Hin as ([k n] & <- & Hin). cbn [fst].
    rewrite Forall_forall in Hforth.
    specialize (Hforth _ (proj2 (list_elem_of_In _ _) Hin)). cbn [fst snd] in Hforth.
    apply lookup_is_Some_In. destruct (os.lookup k es'); [eauto|contradiction].
  - intros Hin. rewrite forallb_forall in Hback.
    apply lookup_is_Some_In. eapply bool_decide_eq_true, Hback, Hin.
Qed.

Lemma same_lookup p es p' es' name n :
  same (Dir p es) (Dir p' es') = true ->
  os.lookup name es = Some n ->
  exists n', os.lookup name es' = Some n' /\ same n n' = true.
Proof.
  intros (_ & Hforth)%same_dir Hl%lookup_In.
  rewrite Forall_forall in Hforth.
  specialize (Hforth _ (proj2 (list_elem_of_In _ _) Hl)). cbn [fst snd] in Hforth.
  destruct (os.lookup name es') as [n'|]; [eauto|contradiction].
Qed.

Lemma same_records : forall f f' d d',
  tree_of (fun _ => true) d = true -> tree_of (fun _ => true) d' = true ->
  same d d' = true -> is_dir d = true ->
  (height d <= f)%nat -> (height d' <= f')%nat ->
  blobs f d = blobs f' d' /\ manifest f d = manifest f' d' /\ count f d = count f' d'.
Proof.
  induction f as [|f IH]; intros f' d d' Hd Hd' Hrel Hdir Hh Hh';
    (destruct d as [| |p es|]; try discriminate).
  { cbn [height] in Hh. lia. }
  destruct d' as [| |p' es'|]; try discriminate.
  destruct f' as [|f']; [cbn [height] in Hh'; lia|].
  pose proof (same_names _ _ _ _ Hd Hd' Hrel) as Hnames.
  cbn [blobs manifest count sorted_entries]. rewrite <- Hnames.
  assert (Forall (fun name => In name (map fst es)) (sorted (map fst es))) as Hin.
  { apply List.Forall_forall. intros name. apply sorted_In. }
  revert Hin. generalize (sorted (map fst es)) as ns. intros ns Hin.
  induction Hin as [|name ns Hname _ IHns]; [auto|].
  destruct IHns as (Hb & Hm & Hc).
  destruct (lookup_is_Some _ _ Hname) as [n Hl].
  destruct (same_lookup _ _ _ _ _ _ Hrel Hl) as (n' & Hl' & Hnn').
  destruct (tree_of_lookup _ _ _ _ _ Hd Hl) as (_ & Hn & Hlt).
  destruct (tree_of_lookup _ _ _ _ _ Hd' Hl') as (_ & Hn' & Hlt').
  unfold entries_of in *. cbn [omap list_omap]. rewrite Hl, Hl'.
  cbn [option_map flat_map map list_sum fold_right Py.join_lines].
  assert (entry_blobs (blobs f) (manifest f) (name, n)
          = entry_blobs (blobs f') (manifest f') (name, n')
          /\ line_with (manifest f) (name, n) = line_with (manifest f') (name, n')
          /\ entry_count (count f) (name, n) = entry_count (count f') (name, n'))
    as (E1 & E2 & E3).
  { destruct n as [q data|t|q sub|? ?], n' as [q' data'|t'|q' sub'|? ?];
      try discriminate; unfold entry_blobs, line_with, entry_count;
      cbn [fst snd exec_letter type_letter checksum_with].
    - cbn [same] in Hnn'.
      apply andb_prop in Hnn' as [->%String.eqb_eq ->%Bool.eqb_prop]. auto.
    - cbn [same] in Hnn'. apply String.eqb_eq in Hnn' as ->. auto.
    - destruct (IH f' (Dir q sub) (Dir q' sub') Hn Hn' Hnn' eq_refl)
        as (-> & -> & ->); [lia..|]. auto. }
  rewrite E1, E2, E3. fold (Py.join_lines (map (line_with (manifest f))
    (omap (fun name => option_map (pair name) (os.lookup name es)) ns))) in *.
  fold (Py.join_lines (map (line_with (manifest f'))
    (omap (fun name => option_map (pair name) (os.lookup name es')) ns))) in *.
  cbn [list_sum fold_right] in Hc |- *.
  rewrite Hb, Hm. split; [reflexivity|]. split; [reflexivity|].
  f_equal. exact Hc.
Qed.

Lemma same_is_dir T T' : same T T' = true -> is_dir T = true -> is_dir T' = true.
Proof. destruct T, T'; try discriminate; reflexivity. Qed.

(** X1. What pack writes depends only on what the format tracks: two
    trees with the same names, file contents, symlink targets and
    owner-executable flags, whatever their other permission bits, the
    modes of their directories and their listing orders, give the same
    stream, checksum and count. *)
Theorem pack_ignores_untracked (T T' : node) (outf : string) :
  is_dir T = true ->
  tree_of (fun _ => true) T = true ->
  tree_of (fun _ => true) T' = true ->
  same T T' = true ->
  PackTree T outf = PackTree T' outf.
Proof.
  intros Hdir HT HT' Hrel.
  pose proof (same_is_dir _ _ Hrel Hdir) as Hdir'.
  destruct (same_records (S (height T)) (S (height T')) T T' HT HT' Hrel Hdir)
    as (Hb & Hm & Hc); [lia..|].
  rewrite !(PackTree_spec_at (fun _ => true)) by assumption.
  unfold stream_of, stream_body, root_manifest. rewrite Hb, Hm, Hc. reflexivity.
Qed.

Lemma pack_ignores_untracked_witness :
  is_dir tree_ab = true
  /\ tree_of (fun _ => true) tree_ab = true
  /\ tree_of (fun _ => true) tree_mode = true
  /\ same tree_ab tree_mode = true
  /\ PackTree tree_ab "" = PackTree tree_mode "".
Proof.
  split; [reflexivity|]. split; [reflexivity|]. split; [reflexivity|].
  split; [reflexivity|].
  apply (pack_ignores_untracked tree_ab tree_mode ""); reflexivity.
Defined.

(** ** Packing again what was unpacked *)

Lemma tree_of_weaken (ok ok' : string -> bool) :
  (forall k, ok k = true -> ok' k = true) ->
  forall f d, (height d <= f)%nat -> tree_of ok d = true -> tree_of ok' d = true.
Proof.
  intros Hok. induction f as [|f IH]; intros d Hh Hd;
    (destruct d as [| |q es|]; try discriminate; try reflexivity).
  { cbn [height] in Hh. lia. }
  pose proof Hd as [Hdist Hall]%tree_of_dir. apply tree_of_dir.
  split; [exact Hdist|].
  apply List.Forall_forall. intros [k n] Hin.
  rewrite Forall_forall in Hall.
  destruct (Hall _ (proj2 (list_elem_of_In _ _) Hin)) as [Hk Hn]. cbn [fst snd] in *.
  split; [apply Hok, Hk|]. apply IH; [|exact Hn].
  pose proof (height_In q es k n Hin). lia.
Qed.

Lemma tree_of_image um f : forall d,
  tree_of good_name d = true -> (height d <= f)%nat ->
  tree_of good_name (image um f d) = true.
Proof.
  induction f as [|f IH]; intros d Hd Hh;
    (destruct d as [p data|t|q es|]; try discriminate).
  1,4: rewrite image_File; reflexivity.
  1,3: rewrite image_Symlink; reflexivity.
  { cbn [height] in Hh. lia. }
  cbn [image]. fold (image_entries um f (sorted_entries (Dir q es))).
  destruct (ents_ok_sorted_entries q es f Hd Hh) as [Hnd Hall].
  apply tree_of_dir. split.
  - rewrite map_fst_image_entries. apply distinct_NoDup, Hnd.
  - unfold image_entries. apply List.Forall_map.
    eapply List.Forall_impl; [|exact Hall]. intros [k n] (Hk & Hn & Hhn).
    cbn [fst snd] in *. split; [exact Hk|]. apply IH; assumption.
Qed.

(** X2. Packing the tree that unpack made gives back the stream it was
    made from, byte for byte, and the same root checksum: the checksum
    names the tree, not one copy of it. *)
Theorem repack_same_stream (T : node) (dir : string) (w : world) :
  is_dir T = true ->
  tree_of good_name T = true ->
  os.plain dir = true ->
  os.lookup dir (here w) = None ->
  exists stream r s' T',
    PackTree T "" = (stream, Ok r)
    /\ unpack_of stream dir w = (s', Ok (fst r))
    /\ os.lookup dir (here (fst (os.chdir ".." (fs s')))) = Some T'
    /\ PackTree T' "" = (stream, Ok r).
Proof.
  intros Hdir HT Hp Hfree. destruct T as [| |q es|]; try discriminate.
  destruct w as [H U um]. cbn [here up umask] in *.
  set (T := Dir q es) in *.
  destruct (unpack_stream um q es dir H U
              (Sha1.hexdigest (root_manifest T)) HT Hp Hfree) as [v' E].
  fold T in E.
  assert (tree_of (fun _ => true) T = true) as HT1.
  { eapply (tree_of_weaken good_name); [reflexivity| |exact HT]. apply Nat.le_refl. }
  pose proof (tree_of_image um (S (height T)) T HT) as HI.
  specialize (HI ltac:(lia)).
  assert (tree_of (fun _ => true) (image um (S (height T)) T) = true) as HI1.
  { eapply (tree_of_weaken good_name); [reflexivity| |exact HI]. apply Nat.le_refl. }
  exists (stream_of T), (Sha1.hexdigest (root_manifest T), count (S (height T)) T).
  eexists. exists (image um (S (height T)) T).
  split; [apply (PackTree_spec good_name); assumption|].
  split; [exact E|]. split.
  - cbn [fs fst os.chdir String.eqb Ascii.eqb Bool.eqb up here fr_before fr_name
           fr_perms fr_after].
    apply lookup_fresh, Hfree.
  - rewrite <- (PackTree_spec good_name T HT Hdir).
    pose proof (same_image um good_name (S (height T)) T HT ltac:(lia)) as Hrel.
    pose proof (same_is_dir _ _ Hrel Hdir) as Hdir'.
    destruct (same_records (S (height T)) (S (height (image um (S (height T)) T)))
                T (image um (S (height T)) T) HT1 HI1 Hrel Hdir)
      as (Hb & Hm & Hc); [lia..|].
    rewrite !(PackTree_spec (fun _ => true)) by assumption.
    unfold stream_of, stream_body, root_manifest. rewrite Hb, Hm, Hc. reflexivity.
Qed.

Lemma repack_same_stream_witness :
  is_dir tree_ab = true /\ tree_of good_name tree_ab = true
  /\ os.plain "out" = true /\ os.lookup "out" (here w0) = None
  /\ exists stream r s' T',
       PackTree tree_ab "" = (stream, Ok r)
       /\ unpack_of stream "out" w0 = (s', Ok (fst r))
       /\ os.lookup "out" (here (fst (os.chdir ".." (fs s')))) = Some T'
       /\ PackTree T' "" = (stream, Ok r).
Proof.
  split; [reflexivity|]. split; [reflexivity|]. split; [reflexivity|].
  split; [reflexivity|]. apply (repack_same_stream tree_ab "out" w0); reflexivity.
Defined.

(** ** Packing a tree with a special file *)

Lemma listed_dir p es :
  listed (Dir p es) = true
  <-> distinct (map fst es) = true /\ Forall (fun e => listed e.2 = true) es.
Proof.
  cbn [listed]. rewrite andb_true_iff. apply and_iff_compat_l.
  induction es as [|[k m] es IH].
  - split; [constructor|reflexivity].
  - rewrite andb_true_iff, IH. split.
    + intros [? ?]. constructor; assumption.
    + intros H. inversion H; subst. tauto.
Qed.

Lemma special_fmt_high k : Z.land (os.special_fmt k) 0xF000 = os.special_fmt k.
Proof. destruct k; reflexivity. Qed.

Lemma bind_returns {A B} (m : M string A) (k : A -> M string B) s s' a :
  m s = (s', Ok a) -> bind m k s = k a s'.
Proof. intros E. unfold bind. rewrite E. reflexivity. Qed.

Lemma bind_cant_serialize {A B} (m : M string A) (k : A -> M string B) s :
  cant_serialize (m s) -> cant_serialize (bind m k s).
Proof.
  intros (o & name & mode & E & Hm). unfold bind. rewrite E.
  exists o, name, mode. split; [reflexivity|exact Hm].
Qed.

Lemma bind_write {B} (s : string) (k : unit -> M string B) outf :
  bind (write s) k outf = k tt (outf +:+ s).
Proof. reflexivity. Qed.

Section PackAny.

Variable recurse : node -> M string (string * nat).
Variable p : Z.
Variable es : list (string * node).
Hypothesis recurse_any : forall name n outf,
  os.lookup name es = Some n -> is_dir n = true ->
  (returns (recurse n outf) \/ cant_serialize (recurse n outf))
  /\ (tree_of (fun _ => true) n = false -> cant_serialize (recurse n outf)).

Lemma pack_entry_any name n vars outf :
  os.lookup name es = Some n ->
  (returns (pack_entry recurse (Dir p es) name vars outf)
   \/ cant_serialize (pack_entry recurse (Dir p es) name vars outf))
  /\ (tree_of (fun _ => true) n = false ->
      cant_serialize (pack_entry recurse (Dir p es) name vars outf)).
Proof.
  intros Hl. unfold pack_entry. cbn [os.lstat_in]. rewrite Hl.
  rewrite (bind_returns (lift (Ok n)) _ outf outf n eq_refl).
  destruct n as [q data|target|q sub|k q].
  - (* regular file *)
    split; [left|discriminate].
    unfold stat.S_ISLNK, stat.S_ISREG.
    cbn [os.st_mode]. rewrite S_IFMT_lor by reflexivity.
    cbn [Z.eqb stat.S_IFREG stat.S_IFLNK Pos.eqb].
    unfold bind, _WritePair, write, lift, ret. cbn [os.open_r os.st_size].
    rewrite copy_chunks_total by lia.
    rewrite str_app_nil_l, falsy_hexdigest. do 2 eexists. reflexivity.
  - (* symlink *)
    split; [left|discriminate].
    unfold stat.S_ISLNK. cbn [os.st_mode].
    change (stat.S_IFMT (Z.lor stat.S_IFLNK 511) =? stat.S_IFLNK) with true.
    unfold bind, _WritePair, _WriteChunk, write, lift, ret. cbn [os.readlink falsy].
    do 2 eexists. reflexivity.
  - (* directory *)
    unfold stat.S_ISLNK, stat.S_ISREG, stat.S_ISDIR.
    cbn [os.st_mode]. rewrite S_IFMT_lor by reflexivity.
    cbn [Z.eqb stat.S_IFREG stat.S_IFLNK stat.S_IFDIR Pos.eqb].
    unfold _WritePair, _WriteChunk.
    destruct (recurse_any name (Dir q sub)
                ((outf +:+ tnet.dump_line (">" +:+ " " +:+ name)) +:+ tnet.dump_line "")
                Hl eq_refl) as [[(o & [sub_obj cnt] & E)|Hfail] Hbad].
    + split.
      * left. unfold bind, write, ret. rewrite E. cbn [falsy]. do 2 eexists. reflexivity.
      * intros Hsub. specialize (Hbad Hsub). rewrite E in Hbad.
        destruct Hbad as (? & ? & ? & [=] & _).
    + split; [right|intros _];
        (apply bind_cant_serialize; rewrite !bind_write;
         apply bind_cant_serialize; exact Hfail).
  - (* neither *)
    unfold stat.S_ISLNK, stat.S_ISREG, stat.S_ISDIR.
    cbn [os.st_mode]. rewrite S_IFMT_lor by apply special_fmt_high.
    assert ((os.special_fmt k =? stat.S_IFLNK) = false) as -> by (destruct k; reflexivity).
    assert ((os.special_fmt k =? stat.S_IFREG) = false) as -> by (destruct k; reflexivity).
    assert ((os.special_fmt k =? stat.S_IFDIR) = false) as -> by (destruct k; reflexivity).
    split; [right|intros _];
      (apply bind_cant_serialize;
       exists outf, name, (Z.lor (os.special_fmt k) (stat.S_IMODE q));
       unfold stat.S_ISLNK, stat.S_ISREG, stat.S_ISDIR;
       rewrite S_IFMT_lor by apply special_fmt_high;
       destruct k; repeat split; reflexivity).
Qed.

Lemma pack_loop_any : forall ns vars outf,
  Forall (fun name => In name (map fst es)) ns ->
  (returns (for_each ns (pack_entry recurse (Dir p es)) vars outf)
   \/ cant_serialize (for_each ns (pack_entry recurse (Dir p es)) vars outf))
  /\ (Exists (fun name => exists n, os.lookup name es = Some n
                                    /\ tree_of (fun _ => true) n = false) ns ->
      cant_serialize (for_each ns (pack_entry recurse (Dir p es)) vars outf)).
Proof.
  induction ns as [|name ns IH]; intros vars outf Hns.
  - split; [left; do 2 eexists; reflexivity|]. intros H. inversion H.
  - inversion Hns as [|? ? Hname Hns']; subst.
    destruct (lookup_is_Some _ _ Hname) as [n Hl].
    destruct (pack_entry_any name n vars outf Hl) as [[(o & vars' & E)|Hfail] Hbad].
    + cbn [for_each]. rewrite (bind_returns _ _ _ _ _ E).
      destruct (IH vars' o Hns') as [Hany Hex]. split; [exact Hany|].
      intros Hexists. inversion Hexists as [? ? (n' & Hl' & Hn')|? ? Hrest]; subst.
      * rewrite Hl in Hl'. injection Hl' as <-. specialize (Hbad Hn').
        rewrite E in Hbad. destruct Hbad as (? & ? & ? & [=] & _).
      * apply Hex, Hrest.
    + cbn [for_each]. pose proof (bind_cant_serialize _
        (fun acc' => for_each ns (pack_entry recurse (Dir p es)) acc') _ Hfail) as Hgoal.
      split; [right; exact Hgoal|intros _; exact Hgoal].
Qed.

End PackAny.

Lemma tree_of_false_entry p es :
  listed (Dir p es) = true -> tree_of (fun _ => true) (Dir p es) = false ->
  exists k n, In (k, n) es /\ tree_of (fun _ => true) n = false.
Proof.
  intros [Hdist _]%listed_dir Hbad.
  destruct (List.Exists_dec (fun e : string * node => tree_of (fun _ => true) e.2 = false) es)
    as [Hex|Hnex].
  { intros e. destruct (tree_of (fun _ => true) e.2); [right; discriminate|left; reflexivity]. }
  - apply List.Exists_exists in Hex as ([k n] & Hin & Hn). eauto.
  - exfalso. assert (tree_of (fun _ => true) (Dir p es) = true) as Hok; [|congruence].
    apply tree_of_dir. split; [exact Hdist|].
    apply List.Forall_forall. intros e Hin. split; [reflexivity|].
    destruct (tree_of (fun _ => true) e.2) eqn:E; [reflexivity|].
    exfalso. apply Hnex, List.Exists_exists. eauto.
Qed.

Lemma pack_tree_any fuel : forall d outf,
  listed d = true -> is_dir d = true -> (height d <= fuel)%nat ->
  (returns (_PackTree fuel d outf) \/ cant_serialize (_PackTree fuel d outf))
  /\ (tree_of (fun _ => true) d = false -> cant_serialize (_PackTree fuel d outf)).
Proof.
  induction fuel as [|f IH]; intros d outf Hd Hdir Hh;
    (destruct d as [| |p es|]; try discriminate).
  { cbn [height] in Hh. lia. }
  pose proof Hd as [Hdist Hall]%listed_dir. apply distinct_NoDup in Hdist.
  assert (forall name n outf0,
            os.lookup name es = Some n -> is_dir n = true ->
            (returns (_PackTree f n outf0) \/ cant_serialize (_PackTree f n outf0))
            /\ (tree_of (fun _ => true) n = false -> cant_serialize (_PackTree f n outf0)))
    as Hrec.
  { intros name n outf0 Hl Hn. apply lookup_In in Hl.
    apply IH; [|exact Hn|pose proof (height_In p es name n Hl); lia].
    rewrite Forall_forall in Hall. apply (Hall (name, n)), list_elem_of_In, Hl. }
  destruct (pack_loop_any (_PackTree f) p es Hrec (sorted (map fst es))
              (PackVars [] 0 None) outf) as [Hany Hex].
  { apply List.Forall_forall. intros name. apply sorted_In. }
  cbn [_PackTree os.listdir].
  rewrite (bind_returns (lift (Ok (map fst es))) _ outf outf (map fst es) eq_refl).
  split.
  - destruct Hany as [(o & vars' & E)|Hfail].
    + left. rewrite (bind_returns _ _ _ _ _ E). do 2 eexists. reflexivity.
    + right. apply bind_cant_serialize, Hfail.
  - intros Hbad. apply bind_cant_serialize, Hex.
    destruct (tree_of_false_entry p es Hd Hbad) as (k & n & Hin & Hn).
    apply List.Exists_exists. exists k. split.
    + apply sorted_In. change k with (fst (k, n)). apply List.in_map, Hin.
    + exists n. split; [apply lookup_NoDup; assumption|exact Hn].
Qed.



Example pack_fifo :
  PackTree tree_fifo ""
  = (framed ["dfo--"; "> ."; ""; "F a"; "x"],
     Raise (RuntimeError (CantSerialize "pipe" 4516))).
Proof. vm_compute. reflexivity. Qed.

(** ** The manifest reads back *)

Lemma same_refl ok f : forall d,
  tree_of ok d = true -> (height d <= f)%nat -> same d d = true.
Proof.
  induction f as [|f IH]; intros d Hd Hh;
    (destruct d as [p data|t|q es|]; try discriminate).
  1,4: cbn [same]; rewrite String.eqb_refl; destruct (owner_exec p); reflexivity.
  1,3: cbn [same]; apply String.eqb_refl.
  { cbn [height] in Hh. lia. }
  apply same_dir. pose proof Hd as [Hdist Hall]%tree_of_dir.
  apply distinct_NoDup in Hdist. split.
  - apply forallb_forall. intros k Hk. apply bool_decide_eq_true, lookup_is_Some, Hk.
  - apply List.Forall_forall. intros [k n] Hin. cbn [fst snd].
    rewrite (lookup_NoDup k n es Hdist Hin).
    destruct (tree_of_lookup _ _ _ _ _ Hd (lookup_NoDup k n es Hdist Hin)) as (_ & Hn & Hlt).
    apply IH; [exact Hn|lia].
Qed.

Lemma manifest_fuel f f' d :
  tree_of good_name d = true -> is_dir d = true ->
  (height d <= f)%nat -> (height d <= f')%nat ->
  manifest f d = manifest f' d.
Proof.
  intros Hd Hdir Hh Hh'.
  assert (tree_of (fun _ => true) d = true) as Hd1.
  { eapply (tree_of_weaken good_name); [reflexivity|apply Nat.le_refl|exact Hd]. }
  apply (same_records f f' d d); try assumption.
  apply (same_refl good_name (height d)); [exact Hd|lia].
Qed.

Lemma packed_manifest_spec d :
  tree_of good_name d = true -> is_dir d = true ->
  packed_manifest d = manifest (S (height d)) d.
Proof.
  intros Hd Hdir. unfold packed_manifest.
  rewrite (pack_tree_spec good_name) by (assumption || lia). reflexivity.
Qed.

Lemma checksum_with_packed f n :
  tree_of good_name n = true -> (height n <= f)%nat ->
  checksum_with (manifest f) n = checksum_with packed_manifest n.
Proof.
  intros Hn Hh. destruct n as [| |q sub|]; try reflexivity.
  cbn [checksum_with]. rewrite packed_manifest_spec by (assumption || reflexivity).
  f_equal. apply manifest_fuel; (assumption || reflexivity || lia).
Qed.

(** X4. For a tree of regular files, symlinks and directories in which
    every name is a file name (not empty, not [.] or [..], without [/]
    or NUL) that holds no line end (LF or CR), the manifest that
    [_PackTree] returns for the directory reads back as [Pop] reads it:
    cut into lines and each line cut at its first three spaces, it
    gives, entry by entry in the order of the traversal, the exec flag,
    the kind, the checksum and the name; names with spaces come back
    whole. *)
Theorem manifest_reads_back (T : node) :
  is_dir T = true ->
  tree_of good_name T = true ->
  map (Py.split Py.SP 3) (Py.splitlines (packed_manifest T))
  = map manifest_fields (sorted_entries T).
Proof.
  intros Hdir HT. destruct T as [| |q es|]; try discriminate.
  rewrite packed_manifest_spec by assumption. cbn [manifest].
  destruct (ents_ok_sorted_entries q es (height (Dir q es)) HT) as [_ Hall]; [lia|].
  rewrite splitlines_join_lines.
  2:{ apply lines_no_break. eapply List.Forall_impl; [|exact Hall].
      intros e (? & _). assumption. }
  rewrite List.map_map. apply List.map_ext_Forall.
  eapply List.Forall_impl; [|exact Hall]. intros [k n] (_ & Hn & Hh).
  cbn [fst snd] in *. rewrite split_line_with. unfold manifest_fields. cbn [fst snd].
  rewrite checksum_with_packed by assumption. reflexivity.
Qed.

Lemma manifest_reads_back_witness :
  is_dir tree_ab = true /\ tree_of good_name tree_ab = true
  /\ map (Py.split Py.SP 3) (Py.splitlines (packed_manifest tree_ab))
     = map manifest_fields (sorted_entries tree_ab).
Proof.
  split; [reflexivity|]. split; [reflexivity|].
  apply (manifest_reads_back tree_ab); reflexivity.
Defined.

Lemma manifest_line_names q es :
  tree_of good_name (Dir q es) = true ->
  map (fun fields => nth 3 fields "")
    (map (Py.split Py.SP 3) (Py.splitlines (packed_manifest (Dir q es))))
  = map fst (sorted_entries (Dir q es)).
Proof.
  intros HT. rewrite packed_manifest_spec by (assumption || reflexivity).
  cbn [manifest].
  destruct (ents_ok_sorted_entries q es (height (Dir q es)) HT) as [_ Hall]; [lia|].
  rewrite splitlines_join_lines.
  2:{ apply lines_no_break. eapply List.Forall_impl; [|exact Hall].
      intros e (? & _). assumption. }
  rewrite !List.map_map. apply List.map_ext. intros [k n].
  rewrite split_line_with. reflexivity.
Qed.

(** X5. For a tree of regular files, symlinks and directories in which
    every name is a file name (not empty, not [.] or [..], without [/]
    or NUL) that holds no line end (LF or CR), the names of the lines of
    the manifest that [_PackTree] returns for the directory are the
    names that [os.listdir] gave, each once, in ascending order of their
    bytes, whatever the order of the listing. *)
Theorem manifest_names_sorted (q : Z) (es : list (string * node)) :
  tree_of good_name (Dir q es) = true ->
  let names := map (fun fields => nth 3 fields "")
                 (map (Py.split Py.SP 3)
                    (Py.splitlines (packed_manifest (Dir q es)))) in
  Sorted String.le names /\ Permutation names (map fst es).
Proof.
  intros HT names. subst names.
  rewrite manifest_line_names by assumption.
  assert (map fst (sorted_entries (Dir q es)) = sorted (map fst es)) as ->.
  { cbn [sorted_entries]. unfold entries_of.
    assert (Forall (fun name => In name (map fst es)) (sorted (map fst es))) as Hin.
    { apply List.Forall_forall. intros name. apply sorted_In. }
    induction Hin as [|name ns Hname _ IH]; [reflexivity|].
    cbn [omap list_omap]. destruct (lookup_is_Some _ _ Hname) as [n ->].
    cbn [option_map map fst]. f_equal. exact IH. }
  unfold sorted. split.
  - apply Sorted_merge_sort; apply _.
  - apply merge_sort_Permutation.
Qed.

Lemma manifest_names_sorted_witness :
  tree_of good_name tree_ba = true
  /\ Sorted String.le
       (map (fun fields => nth 3 fields "")
          (map (Py.split Py.SP 3) (Py.splitlines (packed_manifest tree_ba))))
  /\ Permutation
       (map (fun fields => nth 3 fields "")
          (map (Py.split Py.SP 3) (Py.splitlines (packed_manifest tree_ba))))
       (map fst [("b", Dir 493 [("c", Symlink "../a")]); ("a", File 420 "x")]).
Proof.
  split; [reflexivity|].
  apply (manifest_names_sorted 493
           [("b", Dir 493 [("c", Symlink "../a")]); ("a", File 420 "x")]).
  reflexivity.
Defined.

(** ** Streams that are no pack *)

Lemma readbytes_empty : tnet.readbytes "" = ("", Raise EOFError).
Proof. reflexivity. Qed.

Lemma read_or_empty e w v :
  read_or e (UState "" w v) = (UState "" w v, Raise (RuntimeError e)).
Proof. reflexivity. Qed.

Lemma unpack_enter dir H U um (k : M ustate string) in_ v :
  os.plain dir = true -> os.lookup dir H = None ->
  (on_fs (_MakeOneDir dir) ;;; on_fs (os.chdir dir) ;;;
   on_ver (fun _ => (verifier.__init__, Ok tt)) ;;; k)
    (UState in_ (World H U um) v)
  = k (UState in_ (World [] (Frame dir (creat_dir um) H [] :: U) um) verifier.__init__).
Proof.
  intros Hp Hfree.
  unfold bind at 1. unfold on_fs at 1. cbn [in_file fs ver].
  rewrite mkdir_fresh by assumption.
  unfold bind at 1. unfold on_fs at 1. cbn [in_file fs ver].
  rewrite chdir_into by (try assumption; apply find_entry_fresh; assumption).
  unfold bind at 1. unfold on_ver at 1. cbn [in_file fs ver]. reflexivity.
Qed.

(** X6. The destination is made and entered before the stream is looked
    at: on an empty stream, and on a stream whose first blob is not the
    magic [dfo--], unpack raises the error of the header, and the new
    directory, empty, is there and is the working directory. *)
Theorem unpack_checks_header_late (dir : string) (H : list (string * node))
    (U : list frame) (um : Z) :
  os.plain dir = true ->
  os.lookup dir H = None ->
  unpack_of "" dir (World H U um)
  = (UState "" (World [] (Frame dir (creat_dir um) H [] :: U) um) verifier.__init__,
     Raise (RuntimeError ExpectedHeaderGotEOF))
  /\ forall b rest,
       b <> "dfo--" ->
       unpack_of (tnet.dump_line b +:+ rest) dir (World H U um)
       = (UState rest (World [] (Frame dir (creat_dir um) H [] :: U) um)
            verifier.__init__,
          Raise (RuntimeError (BadHeader b))).
Proof.
  intros Hp Hfree. split.
  - unfold unpack_of, _UnpackTree. rewrite unpack_enter by assumption.
    unfold bind. rewrite read_or_empty. reflexivity.
  - intros b rest Hb. unfold unpack_of, _UnpackTree.
    rewrite unpack_enter by assumption.
    unfold bind at 1. rewrite read_or_dump_line.
    apply String.eqb_neq in Hb. rewrite Hb. reflexivity.
Qed.

Lemma unpack_checks_header_late_witness :
  os.plain "out" = true /\ os.lookup "out" (here w1) = None
  /\ unpack_of "" "out" (World (here w1) [] 18)
     = (UState "" (World [] (Frame "out" (creat_dir 18) (here w1) [] :: []) 18)
          verifier.__init__,
        Raise (RuntimeError ExpectedHeaderGotEOF))
  /\ forall b rest,
       b <> "dfo--" ->
       unpack_of (tnet.dump_line b +:+ rest) "out" (World (here w1) [] 18)
       = (UState rest (World [] (Frame "out" (creat_dir 18) (here w1) [] :: []) 18)
            verifier.__init__,
          Raise (RuntimeError (BadHeader b))).
Proof.
  split; [reflexivity|]. split; [reflexivity|].
  apply (unpack_checks_header_late "out" (here w1) [] 18); reflexivity.
Defined.

Lemma split_op_record command name :
  Py.contains Py.SP command = false ->
  Py.split Py.SP 1 (command +:+ " " +:+ name) = [command; name].
Proof.
  intros Hc. change (command +:+ " " +:+ name) with (command +:+ String Py.SP name).
  cbn [Py.split]. rewrite split_once_app by assumption. reflexivity.
Qed.

(** X7. A record is acted on only when its data blob has been read and
    its command is one of the four.  With another command the loop raises
    the error of an invalid command; when the stream ends after the op
    record it raises the error of missing contents, whatever the command.
    In both cases the file system and the verifier are as before. *)
Theorem bad_record_leaves_no_trace (f : nat) (level : Z)
    (command name : string) (w : world) (v : Verifier) :
  Py.contains Py.SP command = false ->
  (forall contents rest,
     command <> ">" -> command <> "<" -> command <> "F" -> command <> "L" ->
     unpack_loop (S f) level
       (UState (framed [command +:+ " " +:+ name; contents] +:+ rest) w v)
     = (UState rest w v, Raise (RuntimeError (InvalidCommand command))))
  /\ unpack_loop (S f) level
       (UState (tnet.dump_line (command +:+ " " +:+ name)) w v)
     = (UState "" w v, Raise (RuntimeError ExpectedContentsGotEOF)).
Proof.
  intros Hc. split.
  - intros contents rest H1 H2 H3 H4. rewrite unpack_loop_step.
    rewrite split_op_record by assumption. unfold dispatch.
    apply String.eqb_neq in H1, H2, H3, H4. rewrite H1, H2, H3, H4. reflexivity.
  - rewrite <- (str_app_nil_r (tnet.dump_line (command +:+ " " +:+ name))).
    cbn [unpack_loop].
    unfold bind at 1, try_except at 1, bind at 1. rewrite on_in_readbytes.
    unfold ret at 1. rewrite split_op_record by assumption.
    unfold bind. rewrite read_or_empty. reflexivity.
Qed.

Lemma bad_record_leaves_no_trace_witness :
  Py.contains Py.SP "D" = false
  /\ (forall contents rest,
        "D" <> ">" -> "D" <> "<" -> "D" <> "F" -> "D" <> "L" ->
        unpack_loop 1 1
          (UState (framed ["D" +:+ " " +:+ "a"; contents] +:+ rest) w1 v1)
        = (UState rest w1 v1, Raise (RuntimeError (InvalidCommand "D"))))
  /\ unpack_loop 1 1 (UState (tnet.dump_line ("D" +:+ " " +:+ "a")) w1 v1)
     = (UState "" w1 v1, Raise (RuntimeError ExpectedContentsGotEOF)).
Proof.
  split; [reflexivity|]. apply (bad_record_leaves_no_trace 0 1 "D" "a" w1 v1).
  reflexivity.
Defined.

(** X8. A file record that comes before any directory record is carried
    out, and only then does the verifier fail, on a collector that is
    [None]: the file is written, and the exception is [AttributeError],
    not the [RuntimeError] that the script reports as an error of its
    own. *)
Theorem entry_before_push (dir name contents rest : string)
    (H : list (string * node)) (U : list frame) (um : Z) :
  os.plain dir = true ->
  os.lookup dir H = None ->
  os.plain name = true ->
  unpack_of (framed ["dfo--"; "F " +:+ name; contents] +:+ rest) dir (World H U um)
  = (UState rest
       (World [(name, File (creat_file um) contents)]
          (Frame dir (creat_dir um) H [] :: U) um)
       verifier.__init__,
     Raise AttributeError).
Proof.
  intros Hp Hfree Hname. unfold unpack_of, _UnpackTree.
  rewrite unpack_enter by assumption.
  rewrite framed_cons, str_app_assoc.
  unfold bind at 1. rewrite read_or_dump_line.
  cbn [String.eqb Ascii.eqb Bool.eqb negb].
  unfold bind at 1. cbn [in_file]. rewrite unpack_loop_step.
  change (Py.split Py.SP 1 ("F " +:+ name)) with ["F"; name].
  unfold dispatch, bind, on_fs, on_ver.
  cbn [String.eqb Ascii.eqb Bool.eqb in_file fs ver].
  rewrite (write_file_fresh name contents [] _ um Hname eq_refl).
  reflexivity.
Qed.

Lemma entry_before_push_witness :
  os.plain "out" = true /\ os.lookup "out" [] = None /\ os.plain "a" = true
  /\ unpack_of (framed ["dfo--"; "F " +:+ "a"; "x"] +:+ "") "out" (World [] [] 18)
     = (UState ""
          (World [("a", File (creat_file 18) "x")]
             (Frame "out" (creat_dir 18) [] [] :: []) 18)
          verifier.__init__,
        Raise AttributeError).
Proof.
  split; [reflexivity|]. split; [reflexivity|]. split; [reflexivity|].
  apply (entry_before_push "out" "a" "x" "" [] [] 18); reflexivity.
Defined.



(** X10. A directory record whose name is already there: when it is a
    directory, the loop enters it as it is, with what it holds; when it
    is a regular file, "already exists" is passed over and the change of
    directory raises [OSError] (not a directory). *)
Theorem push_on_existing (f : nat) (level : Z) (name contents rest : string)
    (w : world) (v : Verifier) :
  os.plain name = true ->
  (forall before q es after,
     os.find_entry name (here w) = Some (before, Dir q es, after) ->
     unpack_loop (S f) level (UState (framed ["> " +:+ name; contents] +:+ rest) w v)
     = unpack_loop f (level + 1)
         (UState rest (World es (Frame name q before after :: up w) (umask w))
            (fst (verifier.Push v))))
  /\ (forall p data,
        os.lookup name (here w) = Some (File p data) ->
        unpack_loop (S f) level (UState (framed ["> " +:+ name; contents] +:+ rest) w v)
        = (UState rest w v, Raise (OSError ENOTDIR))).
Proof.
  intros Hp. destruct (plain_not_dot _ Hp) as [Hdot Hdd].
  destruct w as [h u um]. cbn [here up umask]. split.
  - intros before q es after Hfind.
    apply step_push with (w1 := World h u um); [exact Hdot| |].
    + unfold _MakeOneDir, try_except, os.mkdir, os.lookup. cbn [here up umask].
      rewrite Hp, Hfind. reflexivity.
    + unfold os.chdir. cbn [here up umask]. apply String.eqb_neq in Hdd.
      rewrite Hdd, Hp, Hfind. reflexivity.
  - intros p data Hl. rewrite unpack_loop_step.
    change (Py.split Py.SP 1 ("> " +:+ name)) with [">"; name].
    destruct (lookup_find _ _ _ Hl) as (b & a & Hfind).
    assert (Hmk : _MakeOneDir name (World h u um) = (World h u um, Ok tt)).
    { unfold _MakeOneDir, try_except, os.mkdir. cbn [here up umask].
      rewrite Hp, Hl. reflexivity. }
    assert (Hcd : os.chdir name (World h u um)
                  = (World h u um, Raise (OSError ENOTDIR))).
    { unfold os.chdir. cbn [here up umask]. apply String.eqb_neq in Hdd.
      rewrite Hdd, Hp, Hfind. reflexivity. }
    apply String.eqb_neq in Hdot.
    unfold dispatch, bind, on_fs.
    cbn [String.eqb Ascii.eqb Bool.eqb in_file fs ver]. rewrite Hdot. cbn [negb].
    cbn [in_file fs ver]. rewrite Hmk. cbn [in_file fs ver]. rewrite Hcd.
    reflexivity.
Qed.

Lemma push_on_existing_witness :
  os.plain "a.txt" = true
  /\ (forall before q es after,
        os.find_entry "a.txt" (here w1) = Some (before, Dir q es, after) ->
        unpack_loop 1 1 (UState (framed ["> " +:+ "a.txt"; ""] +:+ "") w1 v1)
        = unpack_loop 0 (1 + 1)
            (UState "" (World es (Frame "a.txt" q before after :: up w1) (umask w1))
               (fst (verifier.Push v1))))
  /\ (forall p data,
        os.lookup "a.txt" (here w1) = Some (File p data) ->
        unpack_loop 1 1 (UState (framed ["> " +:+ "a.txt"; ""] +:+ "") w1 v1)
        = (UState "" w1 v1, Raise (OSError ENOTDIR))).
Proof.
  split; [reflexivity|]. apply (push_on_existing 0 1 "a.txt" "" "" w1 v1).
  reflexivity.
Defined.

(** ** What the verifier does not look at *)

Lemma untyped_expected : forall lines lines',
  map untyped lines = map untyped lines' ->
  expected_of lines = expected_of lines'.
Proof.
  induction lines as [|l lines IH]; intros [|l' lines'] E; try discriminate;
    [reflexivity|].
  cbn [map] in E. injection E as E1 E2 E3 E. unfold expected_of. cbn [map].
  rewrite E2, E3. f_equal. apply IH, E.
Qed.

Lemma untyped_x_names : forall lines lines',
  map untyped lines = map untyped lines' ->
  x_names lines = x_names lines'.
Proof.
  induction lines as [|l lines IH]; intros [|l' lines'] E; try discriminate;
    [reflexivity|].
  cbn [map] in E. injection E as E1 E2 E3 E. unfold x_names.
  cbn [List.filter]. rewrite E1. specialize (IH _ E). unfold x_names in IH.
  destruct (ml_exec l'); cbn [map]; rewrite ?E3, IH; reflexivity.
Qed.

Lemma untyped_x_present es : forall lines lines',
  map untyped lines = map untyped lines' ->
  x_present lines es = x_present lines' es.
Proof.
  induction lines as [|l lines IH]; intros [|l' lines'] E; try discriminate;
    [reflexivity|].
  cbn [map] in E. injection E as E1 E2 E3 E. unfold x_present.
  cbn [forallb]. rewrite E1, E3. f_equal. apply IH, E.
Qed.

(** X11. [Pop] never looks at the type field of a manifest line: two
    manifests whose lines differ in their type fields only are verified
    alike, whatever the verifier collected and whatever the directory
    holds; the outcome, the modes set and the stack are the same. *)
Theorem Pop_ignores_type (lines lines' : list mline) (i : string)
    (es : list (string * node)) (U : list frame) (um : Z) (v : Verifier) :
  map untyped lines = map untyped lines' ->
  List.NoDup (map fst es) ->
  Forall (fun l => line_ok l = true) lines ->
  Forall (fun l => line_ok l = true) lines' ->
  x_present lines es = true ->
  verifier.Pop (Py.join_lines (map render lines)) (UState i (World es U um) v)
  = verifier.Pop (Py.join_lines (map render lines')) (UState i (World es U um) v).
Proof.
  intros E Hnd Hok Hok' Hx.
  rewrite !Pop_general; try assumption.
  - rewrite (untyped_expected _ _ E), (untyped_x_names _ _ E). reflexivity.
  - rewrite <- (untyped_x_present es _ _ E). exact Hx.
Qed.

Lemma Pop_ignores_type_witness :
  verifier.Pop (Py.join_lines (map render [line_a; line_b'])) (UState "" w2 v2)
  = verifier.Pop
      (Py.join_lines (map render [MLine true "D" empty_sum "a";
                                  MLine false "L" empty_sum "b"]))
      (UState "" w2 v2).
Proof.
  assert (Hs : forall c, is_hex c = false -> Py.contains c empty_sum = false)
    by (intros c Hc; apply hexdigest_no, Hc).
  apply (Pop_ignores_type [line_a; line_b']
           [MLine true "D" empty_sum "a"; MLine false "L" empty_sum "b"]
           "" (here w2) [] 18 v2).
  - reflexivity.
  - repeat constructor; cbn; intuition discriminate.
  - repeat constructor; unfold line_ok; cbn [ml_type ml_checksum ml_name line_a line_b'];
      rewrite !Hs by reflexivity; reflexivity.
  - repeat constructor; unfold line_ok; cbn [ml_type ml_checksum ml_name];
      rewrite !Hs by reflexivity; reflexivity.
  - reflexivity.
Defined.

Lemma Pop_empty i es U um a stk L :
  L !! a = Some [] ->
  verifier.Pop "" (UState i (World es U um) (MkVerifier (Some a) stk L))
  = on_ver verifier.pop_stack (UState i (World es U um) (MkVerifier (Some a) stk L)).
Proof.
  intros HL. unfold verifier.Pop, bind. cbn [Py.splitlines for_each]. unfold ret.
  cbn [ver verifier.actual current lists]. rewrite HL.
  rewrite decide_True by reflexivity. reflexivity.
Qed.

(** X12. The name in the record that closes a directory is not compared
    with the name in the record that opened it.  A stream that opens an
    empty directory as [a] and closes it as [b], with [b] in the manifest
    of the root, is unpacked without error, up to its trailer: the
    verification passes, and the directory on disk is [a]. *)
Theorem close_name_unchecked (a b trailer dir : string)
    (H : list (string * node)) (U : list frame) (um : Z) :
  os.plain dir = true ->
  os.lookup dir H = None ->
  os.plain a = true ->
  b <> "." ->
  Py.contains Py.LF b = false ->
  Py.contains Py.CR b = false ->
  exists v',
    unpack_of (renamed_stream a b trailer) dir (World H U um)
    = (UState ""
         (World [(a, Dir (creat_dir um) [])] (Frame dir (creat_dir um) H [] :: U) um)
         v',
       Ok trailer).
Proof.
  intros Hp Hfree Ha Hb Hlf Hcr.
  set (sum := Sha1.hexdigest "").
  set (l := MLine false "D" sum b).
  assert (Hl : line_ok l = true).
  { unfold line_ok, l, sum. cbn [ml_type ml_checksum ml_name].
    rewrite !hexdigest_no by reflexivity. rewrite Hlf, Hcr. reflexivity. }
  assert (renamed_stream a b trailer
          = tnet.dump_line "dfo--"
              +:+ (framed ["> ."; ""]
                     +:+ (framed ["> " +:+ a; ""]
                            +:+ (framed ["< " +:+ b; ""]
                                   +:+ (framed ["< " +:+ "."; Py.join_lines (map render [l])]
                                          +:+ (tnet.dump_line trailer +:+ ""))))))
    as ->.
  { unfold renamed_stream. cbn [framed fold_right map]. str_norm. reflexivity. }
  eexists. unfold unpack_of, _UnpackTree. rewrite unpack_enter by assumption.
  unfold bind at 1. rewrite read_or_dump_line.
  cbn [String.eqb Ascii.eqb Bool.eqb negb].
  unfold bind at 1. cbn [in_file].
  match goal with
  | |- context [S (String.length ?s)] =>
      assert (exists k, S (String.length s) = S (S (S (S k)))) as [k ->]
  end.
  { match goal with
    | |- context [S (String.length ?s)] => exists (String.length s - 3)%nat
    end.
    rewrite !str_length_app.
    pose proof (framed_pair_length "> ." "").
    pose proof (framed_pair_length ("> " +:+ a) "").
    pose proof (framed_pair_length ("< " +:+ b) ""). lia. }
  rewrite step_push_root.
  cbn [verifier.Push verifier.__init__ fst lists stack length app Z.add].
  erewrite step_push;
    [|apply plain_not_dot, Ha
     |apply mkdir_fresh; [exact Ha|reflexivity]
     |apply (chdir_into a (creat_dir um) [] [] []); [exact Ha|];
        apply find_entry_fresh; reflexivity].
  cbn [verifier.Push fst lists stack length app].
  erewrite step_pop;
    [|exact Hb|discriminate
     |rewrite Pop_empty by reflexivity; reflexivity
     |reflexivity
     |apply chdir_up].
  cbn [fr_before fr_after fr_name fr_perms app removelast List.last].
  erewrite step_pop_root;
    [|rewrite (Pop_general [l]);
        [rewrite decide_True by reflexivity; reflexivity
        |repeat constructor; cbn; intuition discriminate
        |repeat constructor; exact Hl
        |reflexivity]
     |reflexivity].
  unfold bind. rewrite read_or_dump_line. unfold ret.
  rewrite mark_x_nil. reflexivity.
Qed.

Lemma close_name_unchecked_witness :
  exists v',
    unpack_of (renamed_stream "a" "b" "0") "out" (World [] [] 18)
    = (UState ""
         (World [("a", Dir (creat_dir 18) [])]
            (Frame "out" (creat_dir 18) [] [] :: []) 18)
         v',
       Ok "0").
Proof.
  apply (close_name_unchecked "a" "b" "0" "out" [] [] 18);
    try reflexivity. discriminate.
Defined.


(** ** The end of the stream *)

Lemma unpack_stream_rest um q es dir H U trailer junk :
  tree_of good_name (Dir q es) = true ->
  os.plain dir = true -> os.lookup dir H = None ->
  exists v',
    unpack_of (stream_body (Dir q es) +:+ (tnet.dump_line trailer +:+ junk)) dir
      (World H U um)
    = (UState junk
         (World (image_entries um (height (Dir q es)) (sorted_entries (Dir q es)))
            (Frame dir (creat_dir um) H [] :: U) um) v',
       Ok trailer).
Proof.
  intros Hd Hp Hfree.
  set (d := Dir q es) in *. set (h := height d).
  destruct (ents_ok_sorted_entries q es h Hd) as [Hnd Hall]; [unfold h, d; lia|].
  fold d in Hnd, Hall. set (ents := sorted_entries d) in *.
  set (man := manifest (S h) d).
  assert (stream_body d +:+ (tnet.dump_line trailer +:+ junk)
          = tnet.dump_line "dfo--"
              +:+ (framed ["> ."; ""]
                     +:+ (framed (entries_blobs h ents)
                            +:+ (framed ["< ."; man]
                                   +:+ (tnet.dump_line trailer +:+ junk)))))
    as ->.
  { unfold stream_body, root_manifest. fold h. fold man.
    change (blobs (S h) d) with (entries_blobs h ents).
    cbn [app]. rewrite !framed_cons, !framed_app, !framed_cons.
    cbn [framed fold_right]. str_norm. reflexivity. }
  destruct (unpack_entries um h ents (conj Hnd Hall) []
              (Frame dir (creat_dir um) H [] :: U) 0%nat [] [[]] 1
              (framed ["< ."; man] +:+ (tnet.dump_line trailer +:+ junk)))
    as (n & extra & Hn & E).
  { apply List.Forall_forall. intros; reflexivity. }
  { cbn. lia. }
  { lia. }
  eexists. unfold unpack_of, _UnpackTree.
  unfold bind at 1. unfold on_fs at 1. cbn [in_file fs ver].
  rewrite mkdir_fresh by assumption.
  unfold bind at 1. unfold on_fs at 1. cbn [in_file fs ver].
  rewrite chdir_into by (try assumption; apply find_entry_fresh; assumption).
  unfold bind at 1. unfold on_ver at 1. cbn [in_file fs ver].
  unfold bind at 1. rewrite read_or_dump_line.
  cbn [String.eqb Ascii.eqb Bool.eqb negb].
  unfold bind at 1. cbn [in_file].
  match goal with
  | |- context [S (String.length ?s)] =>
      assert (exists k, S (String.length s) = S (n + S k)) as [k ->]
  end.
  { match goal with
    | |- context [S (String.length ?s)] => exists (String.length s - n - 1)%nat
    end.
    rewrite !str_length_app.
    pose proof (framed_pair_length "> ." "").
    pose proof (framed_pair_length "< ." man). lia. }
  rewrite step_push_root. cbn [verifier.Push verifier.__init__ fst lists stack length app Z.add].
  cbn [app] in E. change (0 + 1) with 1. rewrite (E (S k)).
  change ([] ++ fresh_entries um h ents) with (fresh_entries um h ents).
  change (fun l => l ++ checksums (manifest h) ents)
    with (fun l : list (string * string) => l ++ checksums (manifest h) ents).
  change "< ." with ("< " +:+ ".").
  erewrite step_pop_root;
    [|apply (Pop_spec um h (manifest h) _ _ ents 0%nat []);
        [exact Hnd
        |eapply List.Forall_impl; [|exact Hall]; intros e (? & ?%tree_of_not_special & _);
           split; assumption
        |reflexivity]
     |apply OnEntry_spec].
  unfold bind. rewrite read_or_dump_line. unfold ret.
  reflexivity.
Qed.

(** X13. Unpack reads one tree and one trailer, and nothing after them:
    when bytes follow the trailer of a pack, unpack returns the same
    trailer and leaves the same file system as without them, and those
    bytes are left in the input, unread and unchecked. *)
Theorem unpack_stops_at_trailer (T : node) (dir trailer junk : string) (w : world) :
  is_dir T = true ->
  tree_of good_name T = true ->
  os.plain dir = true ->
  os.lookup dir (here w) = None ->
  exists s s',
    unpack_of (stream_body T +:+ tnet.dump_line trailer) dir w = (s, Ok trailer)
    /\ unpack_of (stream_body T +:+ (tnet.dump_line trailer +:+ junk)) dir w
       = (s', Ok trailer)
    /\ in_file s = "" /\ in_file s' = junk /\ fs s' = fs s.
Proof.
  intros Hdir HT Hp Hfree. destruct T as [| |q es|]; try discriminate.
  destruct w as [H U um]. cbn [here] in Hfree.
  destruct (unpack_stream um q es dir H U trailer HT Hp Hfree) as [v E].
  destruct (unpack_stream_rest um q es dir H U trailer junk HT Hp Hfree) as [v' E'].
  do 2 eexists. split; [exact E|]. split; [exact E'|].
  repeat split.
Qed.

Lemma unpack_stops_at_trailer_witness :
  exists s s',
    unpack_of (stream_body tree_ab +:+ tnet.dump_line "0") "out" w0 = (s, Ok "0")
    /\ unpack_of (stream_body tree_ab +:+ (tnet.dump_line "0" +:+ "junk")) "out" w0
       = (s', Ok "0")
    /\ in_file s = "" /\ in_file s' = "junk" /\ fs s' = fs s.
Proof.
  apply (unpack_stops_at_trailer tree_ab "out" "0" "junk" w0); reflexivity.
Defined.

(** ** No fault on any input *)

Section Triples.

Context {S : Type}.

Lemma triple_ret {A} (P : S -> Prop) (a : A) (Q : A -> S -> Prop) :
  (forall s, P s -> Q a s) -> triple P (ret a) Q.
Proof. intros H s Hs. apply H, Hs. Qed.

Lemma triple_raise {A} (P : S -> Prop) e (Q : A -> S -> Prop) :
  fault e = false -> triple P (raise e) Q.
Proof. intros H s _. exact H. Qed.

Lemma triple_bind {A B} (P : S -> Prop) (m : M S A) (Q : A -> S -> Prop)
    (k : A -> M S B) (R : B -> S -> Prop) :
  triple P m Q -> (forall a, triple (Q a) (k a) R) -> triple P (bind m k) R.
Proof.
  intros Hm Hk s Hs. unfold bind. specialize (Hm s Hs).
  destruct (m s) as [s' [a|e]]; [apply Hk, Hm|exact Hm].
Qed.

Lemma triple_pre {A} (P P' : S -> Prop) (m : M S A) (Q : A -> S -> Prop) :
  (forall s, P s -> P' s) -> triple P' m Q -> triple P m Q.
Proof. intros H Hm s Hs. apply Hm, H, Hs. Qed.

Lemma triple_post {A} (P : S -> Prop) (m : M S A) (Q Q' : A -> S -> Prop) :
  (forall a s, Q a s -> Q' a s) -> triple P m Q -> triple P m Q'.
Proof.
  intros H Hm s Hs. specialize (Hm s Hs).
  destruct (m s) as [s' [a|e]]; [apply H, Hm|exact Hm].
Qed.

End Triples.

Lemma triple_on_fs {A} (P : string -> Verifier -> Prop) (m : M world A) :
  nofault m -> triple (holds P) (on_fs m) (fun _ => holds P).
Proof.
  intros Hm s Hs. unfold on_fs. specialize (Hm (fs s)).
  destruct (m (fs s)) as [w [a|e]]; [exact Hs|exact Hm].
Qed.

Ltac fs_cases :=
  repeat match goal with
         | |- context [match ?x with _ => _ end] => destruct x
         end;
  reflexivity.

Lemma nofault_mkdir name : nofault (os.mkdir name).
Proof. intros w. unfold os.mkdir. fs_cases. Qed.

Lemma nofault_chdir name : nofault (os.chdir name).
Proof. intros w. unfold os.chdir. fs_cases. Qed.

Lemma nofault_write_file name contents : nofault (os.write_file name contents).
Proof. intros w. unfold os.write_file. fs_cases. Qed.

Lemma nofault_symlink target name : nofault (os.symlink target name).
Proof. intros w. unfold os.symlink. fs_cases. Qed.

Lemma nofault_lstat name : nofault (os.lstat name).
Proof. intros w. unfold os.lstat. fs_cases. Qed.

Lemma nofault_chmod name mode : nofault (os.chmod name mode).
Proof. intros w. unfold os.chmod. fs_cases. Qed.

Lemma nofault_MakeOneDir dir : nofault (_MakeOneDir dir).
Proof.
  intros w. unfold _MakeOneDir, try_except. pose proof (nofault_mkdir dir w) as H.
  destruct (os.mkdir dir w) as [w' [[]|e]]; [reflexivity|].
  destruct e as [| [] | | | | | | | | |]; try reflexivity; exact H.
Qed.

Lemma nofault_try_symlink target name :
  nofault (try_except (os.symlink target name) is_OSError
             (fun e => match e with
                       | OSError EEXIST => ret tt
                       | _ => raise (RuntimeError (ErrorMakingSymlink name))
                       end)).
Proof.
  intros w. unfold try_except. pose proof (nofault_symlink target name w) as H.
  destruct (os.symlink target name w) as [w' [[]|e]]; [reflexivity|].
  destruct e as [| [] | | | | | | | | |]; try reflexivity; exact H.
Qed.

Lemma read_length_shorter : forall s acc n rest,
  tnet.read_length acc s = Some (n, rest) ->
  (String.length rest < String.length s)%nat.
Proof.
  induction s as [|c s IH]; intros acc n rest H; [discriminate|].
  cbn [tnet.read_length] in H. destruct (Ascii.eqb c ":").
  - injection H as <- <-. simpl. lia.
  - destruct (tnet.digit c); [|discriminate]. apply IH in H. simpl. lia.
Qed.

Lemma take_shorter : forall n s b r,
  tnet.take n s = Some (b, r) -> (String.length r <= String.length s)%nat.
Proof.
  induction n as [|n IH]; intros s b r H.
  - injection H as <- <-. lia.
  - destruct s as [|c s]; [discriminate|]. cbn [tnet.take] in H.
    destruct (tnet.take n s) as [[b' r']|] eqn:E; [|discriminate].
    injection H as <- <-. apply IH in E. simpl. lia.
Qed.

(** A blob that is read takes at least one byte from the input; a read
    that fails takes none, and raises [EOFError] or [ValueError]. *)
Lemma readbytes_cases s :
  match tnet.readbytes s with
  | (s', Ok _) => (String.length s' < String.length s)%nat
  | (s', Raise e) => s' = s /\ fault e = false
  end.
Proof.
  unfold tnet.readbytes. destruct s as [|c0 s0]; [split; reflexivity|].
  destruct (tnet.read_length 0 (String c0 s0)) as [[n rest]|] eqn:E;
    [|split; reflexivity].
  destruct (tnet.take n rest) as [[b [|c r]]|] eqn:T; try (split; reflexivity).
  destruct (Ascii.eqb c Py.LF); [|split; reflexivity].
  apply read_length_shorter in E. apply take_shorter in T. simpl in *. lia.
Qed.

Lemma triple_read_or e n (P : Verifier -> Prop) :
  triple (holds (fun i v => (String.length i < n)%nat /\ P v)) (read_or e)
    (fun _ => holds (fun i v => (String.length i < n)%nat /\ P v)).
Proof.
  intros s [Hn Hv]. unfold read_or, try_except, on_in.
  pose proof (readbytes_cases (in_file s)) as H.
  destruct (tnet.readbytes (in_file s)) as [i [b|e']].
  - split; [cbn [in_file]; lia|exact Hv].
  - destruct H as [_ H]. destruct e'; try exact H; reflexivity.
Qed.

Lemma triple_next n (P : Verifier -> Prop) :
  triple (holds (fun i v => (String.length i < Datatypes.S n)%nat /\ P v))
    (try_except (bind (on_in tnet.readbytes) (fun op => ret (Some op)))
       is_EOFError (fun _ => ret None))
    (fun next s =>
       match next with
       | Some _ => holds (fun i v => (String.length i < n)%nat /\ P v) s
       | None => True
       end).
Proof.
  intros s [Hn Hv]. unfold try_except, bind, on_in, ret.
  pose proof (readbytes_cases (in_file s)) as H.
  destruct (tnet.readbytes (in_file s)) as [i [b|e']].
  - split; [cbn [in_file]; lia|exact Hv].
  - destruct H as [_ H]. destruct e'; try exact H; exact I.
Qed.

Lemma triple_pop_lines dir_obj (P : string -> Verifier -> Prop) : forall lines acc,
  triple (holds P) (for_each lines (verifier.pop_line dir_obj) acc)
    (fun _ => holds P).
Proof.
  induction lines as [|l lines IH]; intros acc.
  - apply triple_ret. intros s Hs. exact Hs.
  - cbn [for_each]. eapply triple_bind; [|intros a; apply IH].
    unfold verifier.pop_line.
    destruct (Py.split Py.SP 3 l) as [|x1 [|x2 [|x3 [|x4 [|]]]]];
      try (apply triple_raise; reflexivity).
    eapply triple_bind with (Q := fun _ => holds P);
      [|intros []; apply triple_ret; intros s Hs; exact Hs].
    destruct (String.eqb x1 "x").
    + eapply triple_bind; [apply triple_on_fs, nofault_lstat|].
      intros mode. apply triple_on_fs, nofault_chmod.
    + destruct (String.eqb x1 "-"); [apply triple_ret; intros s Hs; exact Hs|].
      apply triple_raise; reflexivity.
Qed.

Lemma length_removelast {A} (l : list A) :
  length (removelast l) = (length l - 1)%nat.
Proof.
  induction l as [|x [|y l] IH]; [reflexivity..|].
  change (removelast (x :: y :: l)) with (x :: removelast (y :: l)).
  cbn [length] in *. rewrite IH. lia.
Qed.

(** [Pop] pops only a stack that holds a list: with an empty stack,
    [current] is [None], the comparison fails, and the branch of the
    mismatch raises before the pop is reached. *)
Lemma triple_Pop dir_obj n level :
  triple (holds (inv n level)) (verifier.Pop dir_obj)
    (fun _ => holds (fun i v =>
                       (String.length i < n)%nat /\ 0 < level
                       /\ Z.of_nat (length (stack v)) = level - 1)).
Proof.
  unfold verifier.Pop. eapply triple_bind; [apply triple_pop_lines|].
  intros expected s (Hn & Hlen & Hnone).
  destruct (decide (Some expected = verifier.actual (ver s))) as [E|E];
    [|destruct (current (ver s)); reflexivity].
  unfold on_ver, verifier.pop_stack.
  destruct (stack (ver s)) as [|a stk] eqn:Hs.
  - unfold verifier.actual in E. rewrite Hnone in E by reflexivity. discriminate.
  - unfold holds. cbn [in_file ver stack]. split; [exact Hn|].
    rewrite length_removelast. cbn [length] in *. lia.
Qed.

Lemma triple_OnEntry name sum (P : string -> option nat -> list nat -> Prop) :
  triple (holds (fun i v => P i (current v) (stack v)))
    (on_ver (verifier.OnEntry name sum))
    (fun _ => holds (fun i v => P i (current v) (stack v))).
Proof.
  intros s Hs. unfold on_ver, verifier.OnEntry.
  destruct (current (ver s)) eqn:E; [|reflexivity].
  unfold holds in *. cbn [in_file ver current stack]. rewrite <- E. exact Hs.
Qed.

Lemma triple_Push n level :
  triple (holds (inv n level)) (on_ver verifier.Push)
    (fun _ => holds (inv n (level + 1))).
Proof.
  intros s (Hn & Hlen & _). unfold on_ver, verifier.Push, holds, inv.
  cbn [in_file ver stack current]. split; [exact Hn|]. split.
  - rewrite List.length_app. cbn [length]. lia.
  - intros H. apply app_eq_nil in H as [_ H]. discriminate.
Qed.

Lemma triple_loop : forall fuel level,
  triple (holds (inv fuel level)) (unpack_loop fuel level) (fun _ _ => True).
Proof.
  induction fuel as [|f IH]; intros level.
  - intros s (Hn & _). lia.
  - cbn [unpack_loop].
    eapply triple_bind;
      [apply (triple_next f (fun v => Z.of_nat (length (stack v)) = level
                               /\ (stack v = [] -> current v = None)))|].
    intros [op|]; [|apply triple_ret; auto].
    destruct (Py.split Py.SP 1 op) as [|command [|name [|]]];
      try (apply triple_raise; reflexivity).
    eapply triple_bind; [apply triple_read_or|].
    intros contents. change (triple (holds (inv f level))
      (dispatch (unpack_loop f) level command name contents) (fun _ _ => True)).
    unfold dispatch.
    destruct (String.eqb command ">").
    { eapply triple_bind with (Q := fun _ => holds (inv f level)).
      - destruct (negb (String.eqb name ".")).
        + eapply triple_bind; [apply triple_on_fs, nofault_MakeOneDir|].
          intros ?. apply triple_on_fs, nofault_chdir.
        + apply triple_ret. intros s Hs. exact Hs.
      - intros ?. eapply triple_bind; [apply triple_Push|].
        intros ?. apply IH. }
    destruct (String.eqb command "<").
    { eapply triple_bind; [apply triple_Pop|]. intros ?.
      eapply triple_bind;
        [apply (triple_OnEntry name (Sha1.hexdigest contents)
                  (fun i _ stk => (String.length i < f)%nat /\ 0 < level
                                  /\ Z.of_nat (length stk) = level - 1))|].
      intros ?. destruct (level - 1 =? 0) eqn:El; [apply triple_ret; auto|].
      apply Z.eqb_neq in El.
      assert (Hin : forall s,
                holds (fun i v => (String.length i < f)%nat /\ 0 < level
                                  /\ Z.of_nat (length (stack v)) = level - 1) s ->
                holds (inv f (level - 1)) s).
      { intros s (Hn & Hl & Hlen). split; [exact Hn|]. split; [exact Hlen|].
        intros Hnil. rewrite Hnil in Hlen. cbn [length] in Hlen. lia. }
      eapply triple_bind with
        (Q := fun _ => holds (fun i v => (String.length i < f)%nat /\ 0 < level
                                         /\ Z.of_nat (length (stack v)) = level - 1)).
      - destruct (negb (String.eqb name ".")).
        + apply triple_on_fs, nofault_chdir.
        + apply triple_ret. intros s Hs. exact Hs.
      - intros ?. eapply triple_pre; [exact Hin|apply IH]. }
    destruct (String.eqb command "F").
    { eapply triple_bind; [apply triple_on_fs, nofault_write_file|]. intros ?.
      eapply triple_bind;
        [apply (triple_OnEntry name (Sha1.hexdigest contents)
                  (fun i c stk => (String.length i < f)%nat
                                  /\ Z.of_nat (length stk) = level
                                  /\ (stk = [] -> c = None)))|].
      intros ?. apply IH. }
    destruct (String.eqb command "L").
    { eapply triple_bind; [apply triple_on_fs, nofault_try_symlink|]. intros ?.
      eapply triple_bind;
        [apply (triple_OnEntry name (Sha1.hexdigest contents)
                  (fun i c stk => (String.length i < f)%nat
                                  /\ Z.of_nat (length stk) = level
                                  /\ (stk = [] -> c = None)))|].
      intros ?. apply IH. }
    apply triple_raise. reflexivity.
Qed.

Lemma triple_UnpackTree dir :
  triple (fun _ => True) (_UnpackTree dir) (fun _ _ => True).
Proof.
  unfold _UnpackTree.
  eapply triple_bind;
    [apply (triple_on_fs (fun _ _ => True)), nofault_MakeOneDir|]. intros ?.
  eapply triple_bind;
    [apply (triple_on_fs (fun _ _ => True)), nofault_chdir|]. intros ?.
  eapply triple_bind with (Q := fun _ s => ver s = verifier.__init__).
  { intros s _. reflexivity. }
  intros ?.
  eapply triple_bind with
    (Q := fun _ => holds (fun i v => (String.length i < Datatypes.S (String.length i))%nat
                                     /\ v = verifier.__init__)).
  { intros s Hs. unfold read_or, try_except, on_in.
    pose proof (readbytes_cases (in_file s)) as H.
    destruct (tnet.readbytes (in_file s)) as [i [b|e']].
    - split; [cbn [in_file]; lia|exact Hs].
    - destruct H as [_ H]. destruct e'; try exact H; reflexivity. }
  intros header. destruct (negb (String.eqb header "dfo--"));
    [apply triple_raise; reflexivity|].
  eapply triple_bind with (Q := fun _ _ => True).
  { intros s [_ Hv]. apply (triple_loop (Datatypes.S (String.length (in_file s))) 0 s).
    split; [lia|]. rewrite Hv. split; reflexivity. }
  intros ?. eapply triple_bind with (Q := fun _ _ => True).
  { intros s _. unfold read_or, try_except, on_in.
    pose proof (readbytes_cases (in_file s)) as H.
    destruct (tnet.readbytes (in_file s)) as [i [b|e']]; [exact I|].
    destruct H as [_ H]. destruct e'; try exact H; reflexivity. }
  intros root_checksum. apply triple_ret. auto.
Qed.


(** ** Unpacking over what an unpack left *)

Lemma write_file_same name data p h u um :
  os.plain name = true -> os.lookup name h = Some (File p data) ->
  os.write_file name data (World h u um) = (World h u um, Ok tt).
Proof.
  intros Hp Hl. destruct (lookup_find _ _ _ Hl) as (b & a & Hf).
  destruct (find_entry_split _ _ _ _ _ Hf) as [Hh _].
  unfold os.write_file. cbn [here up umask]. rewrite Hp, Hf. cbn [negb].
  rewrite <- Hh. reflexivity.
Qed.

Lemma MakeOneDir_existing name n h u um :
  os.plain name = true -> os.lookup name h = Some n ->
  _MakeOneDir name (World h u um) = (World h u um, Ok tt).
Proof.
  intros Hp Hl. unfold _MakeOneDir, try_except, os.mkdir. cbn [here up umask].
  rewrite Hp, Hl. reflexivity.
Qed.

Lemma chdir_existing name q es h u um :
  os.plain name = true -> os.lookup name h = Some (Dir q es) ->
  exists b a,
    h = b ++ (name, Dir q es) :: a
    /\ os.chdir name (World h u um) = (World es (Frame name q b a :: u) um, Ok tt).
Proof.
  intros Hp Hl. destruct (lookup_find _ _ _ Hl) as (b & a & Hf).
  destruct (find_entry_split _ _ _ _ _ Hf) as [Hh _].
  exists b, a. split; [exact Hh|].
  unfold os.chdir. cbn [here up umask].
  destruct (plain_not_dot _ Hp) as [_ Hdd]. apply String.eqb_neq in Hdd.
  rewrite Hdd, Hp, Hf. reflexivity.
Qed.

Lemma step_L_existing f level name contents rest h u um a stk L n :
  os.plain name = true -> os.lookup name h = Some n ->
  unpack_loop (S f) level
    (UState (framed ["L " +:+ name; contents] +:+ rest) (World h u um)
       (MkVerifier (Some a) stk L))
  = unpack_loop f level
      (UState rest (World h u um)
         (MkVerifier (Some a) stk
            (alter (fun l => l ++ [(name, Sha1.hexdigest contents)]) a L))).
Proof.
  intros Hp Hl. rewrite unpack_loop_step.
  change (Py.split Py.SP 1 ("L " +:+ name)) with ["L"; name].
  unfold dispatch, bind, on_fs, on_ver, try_except, os.symlink, verifier.OnEntry.
  cbn [String.eqb Ascii.eqb Bool.eqb in_file fs ver here up umask].
  rewrite Hp, Hl. reflexivity.
Qed.

Lemma lstat_chmod_same k n h rest U um v :
  os.plain k = true -> os.lookup k h = Some n ->
  chmodable n = true -> chmod_x_node n = n ->
  bind (on_fs (os.lstat k))
    (fun mode => on_fs (os.chmod k (Z.lor mode verifier.exec_mask)))
    (UState rest (World h U um) v)
  = (UState rest (World h U um) v, Ok tt).
Proof.
  intros Hp Hl Hc Hn. destruct (lookup_find _ _ _ Hl) as (b & a & Hf).
  destruct (find_entry_split _ _ _ _ _ Hf) as [Hh _]. subst h.
  unfold bind, on_fs at 1, os.lstat. cbn [fs here up umask in_file ver].
  rewrite Hp, Hl. cbn [negb]. unfold on_fs. cbn [fs in_file ver].
  rewrite chmod_found by assumption. rewrite Hn. reflexivity.
Qed.

Lemma pop_lines_again um f man dir_obj rest U v ents :
  List.NoDup (map fst ents) ->
  forall todo acc,
    (forall e, In e todo -> In e ents) ->
    Forall (fun e => good_name e.1 = true /\ not_special e.2 = true) todo ->
    for_each (map (line_with man) todo) (verifier.pop_line dir_obj) acc
      (UState rest (World (image_entries um f ents) U um) v)
    = (UState rest (World (image_entries um f ents) U um) v,
       Ok (acc ++ checksums man todo)).
Proof.
  intros Hnd. induction todo as [|[k n] todo IH]; intros acc Hin Hall.
  - cbn. unfold ret. rewrite List.app_nil_r. reflexivity.
  - inversion Hall as [|? ? [Hk Hn] Hall']; subst. cbn [fst snd] in Hk, Hn.
    pose proof (good_name_plain _ Hk) as Hp.
    assert (Hl : os.lookup k (image_entries um f ents) = Some (image um f n)).
    { unfold image_entries. rewrite lookup_map_entries.
      rewrite (lookup_NoDup k n ents Hnd) by (apply Hin; left; reflexivity).
      reflexivity. }
    specialize (IH (acc ++ [(k, checksum_with man n)])
                  (fun e He => Hin e (or_intror He)) Hall').
    cbn [map for_each]. unfold bind at 1. unfold verifier.pop_line.
    rewrite split_line_with.
    assert (Hgo : for_each (map (line_with man) todo) (verifier.pop_line dir_obj)
                    (acc ++ [(k, checksum_with man n)])
                    (UState rest (World (image_entries um f ents) U um) v)
                  = (UState rest (World (image_entries um f ents) U um) v,
                     Ok (acc ++ checksums man ((k, n) :: todo)))).
    { rewrite IH, <- List.app_assoc. reflexivity. }
    destruct n as [q data|target|q sub|? ?]; [| | |discriminate];
      cbn [exec_letter]; [destruct (owner_exec q) eqn:Hx|..];
      cbn [String.eqb Ascii.eqb Bool.eqb].
    + rewrite image_File, Hx in Hl. unfold bind at 1.
      rewrite (lstat_chmod_same k _ _ rest U um v Hp Hl eq_refl).
      * unfold bind, ret. exact Hgo.
      * change (File (chmod_x (creat_file um)) data)
          with (chmod_x_node (File (creat_file um) data)).
        apply chmod_x_node_idem.
    + unfold bind, ret. exact Hgo.
    + unfold bind, ret. exact Hgo.
    + unfold bind, ret. exact Hgo.
Qed.

Lemma Pop_again um f man rest U ents a stk L :
  List.NoDup (map fst ents) ->
  Forall (fun e => good_name e.1 = true /\ not_special e.2 = true) ents ->
  L !! a = Some (checksums man ents) ->
  verifier.Pop (Py.join_lines (map (line_with man) ents))
    (UState rest (World (image_entries um f ents) U um)
       (MkVerifier (Some a) (stk ++ [a]) L))
  = (UState rest (World (image_entries um f ents) U um)
       (MkVerifier (match stk with [] => Some a | _ => Some (List.last stk 0%nat) end)
          stk L), Ok tt).
Proof.
  intros Hnd Hall HL. unfold verifier.Pop, bind.
  rewrite splitlines_join_lines.
  2:{ apply lines_no_break. eapply List.Forall_impl; [|exact Hall].
      intros e [? _]. assumption. }
  rewrite (pop_lines_again um f man _ rest U _ ents Hnd ents [] (fun e He => He) Hall).
  cbn [app]. unfold verifier.actual. cbn [ver current lists]. rewrite HL.
  rewrite decide_True by reflexivity.
  unfold on_ver, verifier.pop_stack. cbn [ver stack current lists in_file fs].
  rewrite List.removelast_last.
  destruct (stk ++ [a]) eqn:Hs; [destruct stk; discriminate|]. reflexivity.
Qed.

Lemma reunpacks_nil um f ents : reunpacks um f ents [].
Proof.
  intros U a stk L level rest Ha Hlevel. exists 0%nat, [].
  split; [cbn; lia|]. intros k.
  cbn [entries_blobs flat_map framed fold_right checksums map Nat.add].
  rewrite str_app_nil_l, !List.app_nil_r.
  rewrite list_alter_id by (intros; apply List.app_nil_r). reflexivity.
Qed.

Lemma reunpacks_cons um f ents e todo :
  reunpacks um f ents [e] -> reunpacks um f ents todo ->
  reunpacks um f ents (e :: todo).
Proof.
  intros He Htodo U a stk L level rest Ha Hlevel.
  destruct (He U a stk L level (framed (entries_blobs f todo) +:+ rest))
    as (n1 & extra1 & Hn1 & E1); [assumption..|].
  destruct (Htodo U a stk
              (alter (fun l => l ++ checksums (manifest f) [e]) a L ++ extra1)
              level rest) as (n2 & extra2 & Hn2 & E2).
  - rewrite List.length_app, length_alter. lia.
  - assumption.
  - assert (entries_blobs f (e :: todo) = entries_blobs f [e] ++ entries_blobs f todo)
      as Hb.
    { unfold entries_blobs. cbn [flat_map]. rewrite List.app_nil_r. reflexivity. }
    exists (n1 + n2)%nat, (extra1 ++ extra2). split.
    + rewrite Hb, framed_length_app. lia.
    + intros k. rewrite Hb, framed_app, str_app_assoc, <- Nat.add_assoc, E1, E2.
      f_equal. f_equal. f_equal. cbn [checksums map]. apply alter_snoc_more, Ha.
Qed.

Lemma lookup_image um f ents k n :
  List.NoDup (map fst ents) -> In (k, n) ents ->
  os.lookup k (image_entries um f ents) = Some (image um f n).
Proof.
  intros Hnd Hin. unfold image_entries. rewrite lookup_map_entries.
  rewrite (lookup_NoDup k n ents Hnd Hin). reflexivity.
Qed.

Lemma reunpacks_file um f ents name q data :
  List.NoDup (map fst ents) -> In (name, File q data) ents ->
  good_name name = true -> reunpacks um f ents [(name, File q data)].
Proof.
  intros Hnd Hin Hname U a stk L level rest Ha Hlevel.
  pose proof (lookup_image um f ents _ _ Hnd Hin) as Hl. rewrite image_File in Hl.
  exists 1%nat, []. split.
  - cbn [entries_blobs flat_map entry_blobs snd fst app].
    pose proof (framed_pair_length ("F " +:+ name) data). lia.
  - intros k. cbn [entries_blobs flat_map entry_blobs snd fst app Nat.add].
    erewrite step_F;
      [|eapply write_file_same; [apply good_name_plain, Hname|exact Hl]
       |apply OnEntry_spec].
    rewrite List.app_nil_r. reflexivity.
Qed.

Lemma reunpacks_symlink um f ents name target :
  List.NoDup (map fst ents) -> In (name, Symlink target) ents ->
  good_name name = true -> reunpacks um f ents [(name, Symlink target)].
Proof.
  intros Hnd Hin Hname U a stk L level rest Ha Hlevel.
  pose proof (lookup_image um f ents _ _ Hnd Hin) as Hl.
  exists 1%nat, []. split.
  - cbn [entries_blobs flat_map entry_blobs snd fst app].
    pose proof (framed_pair_length ("L " +:+ name) target). lia.
  - intros k. cbn [entries_blobs flat_map entry_blobs snd fst app Nat.add].
    erewrite step_L_existing; [|apply good_name_plain, Hname|exact Hl].
    rewrite List.app_nil_r. reflexivity.
Qed.

Lemma reunpacks_dir um f ents name q sub :
  List.NoDup (map fst ents) -> In (name, Dir q sub) ents ->
  good_name name = true ->
  tree_of good_name (Dir q sub) = true ->
  (height (Dir q sub) <= S f)%nat ->
  reunpacks um f (sorted_entries (Dir q sub)) (sorted_entries (Dir q sub)) ->
  reunpacks um (S f) ents [(name, Dir q sub)].
Proof.
  intros Hnd0 Hin Hname Hd Hh Hsub U a stk L level rest Ha Hlevel.
  pose proof (good_name_plain _ Hname) as Hp.
  destruct (plain_not_dot _ Hp) as [Hdot _].
  destruct (ents_ok_sorted_entries q sub f Hd Hh) as [Hnd Hall].
  pose proof (lookup_image um (S f) ents _ _ Hnd0 Hin) as Hl.
  cbn [image] in Hl. fold (image_entries um f (sorted_entries (Dir q sub))) in Hl.
  set (sents := sorted_entries (Dir q sub)) in *.
  set (man := Py.join_lines (map (line_with (manifest f)) sents)).
  assert (entries_blobs (S f) [(name, Dir q sub)]
          = ["> " +:+ name; ""] ++ entries_blobs f sents ++ ["< " +:+ name; man]) as Hb.
  { unfold entries_blobs. cbn [flat_map entry_blobs fst snd].
    rewrite List.app_nil_r. reflexivity. }
  destruct (chdir_existing name _ _ _ U um Hp Hl) as (b & a' & Hh' & Hcd).
  destruct (Hsub (Frame name (creat_dir um) b a' :: U) (length L) (stk ++ [a])
              (L ++ [[]]) (level + 1) (framed ["< " +:+ name; man] +:+ rest))
    as (n1 & extra1 & Hn1 & E1).
  { rewrite List.length_app. cbn. lia. }
  { lia. }
  exists (S (n1 + 1)), (checksums (manifest f) sents :: extra1). split.
  - rewrite Hb, !framed_length_app.
    pose proof (framed_pair_length ("> " +:+ name) "").
    pose proof (framed_pair_length ("< " +:+ name) man). lia.
  - intros k. rewrite Hb, !framed_app, !str_app_assoc.
    cbn [Nat.add].
    erewrite step_push;
      [|exact Hdot|eapply MakeOneDir_existing; [exact Hp|exact Hl]|exact Hcd].
    cbn [verifier.Push fst lists stack].
    rewrite <- Nat.add_assoc, E1. cbn [Nat.add app].
    erewrite step_pop;
      [|exact Hdot|lia
       |apply Pop_again;
          [exact Hnd
          |eapply List.Forall_impl; [|exact Hall]; intros e (? & ?%tree_of_not_special & _);
             split; assumption
          |apply (lookup_after_push (fun l => l ++ checksums (manifest f) sents))]
       |rewrite top_after_pop; apply OnEntry_spec
       |apply chdir_up].
    cbn [fr_before fr_name fr_perms fr_after].
    rewrite <- Hh'.
    rewrite alter_after_push by exact Ha.
    replace (level + 1 - 1) with level by lia.
    reflexivity.
Qed.

Lemma reunpack_some um : forall f ents,
  ents_ok f ents ->
  forall todo, (forall e, In e todo -> In e ents) -> reunpacks um f ents todo.
Proof.
  induction f as [|f IHf]; intros ents [Hnd Hall] todo;
    induction todo as [|[name n] todo IH]; intros Hin; try apply reunpacks_nil.
  - assert (He : In (name, n) ents) by (apply Hin; left; reflexivity).
    pose proof (proj1 (List.Forall_forall _ _) Hall _ He) as (Hname & Hn & Hh).
    cbn [fst snd] in *.
    apply reunpacks_cons; [|apply IH; intros e' He'; apply Hin; right; exact He'].
    destruct n as [q data|target|q sub|? ?]; [| | |discriminate].
    + apply reunpacks_file; assumption.
    + apply reunpacks_symlink; assumption.
    + cbn [height] in Hh. lia.
  - assert (He : In (name, n) ents) by (apply Hin; left; reflexivity).
    pose proof (proj1 (List.Forall_forall _ _) Hall _ He) as (Hname & Hn & Hh).
    cbn [fst snd] in *.
    apply reunpacks_cons; [|apply IH; intros e' He'; apply Hin; right; exact He'].
    destruct n as [q data|target|q sub|? ?]; [| | |discriminate].
    + apply reunpacks_file; assumption.
    + apply reunpacks_symlink; assumption.
    + apply reunpacks_dir; try assumption.
      apply IHf; [apply ents_ok_sorted_entries; assumption|auto].
Qed.

Lemma unpack_stream_again um q es dir H U trailer :
  tree_of good_name (Dir q es) = true ->
  os.plain dir = true -> os.lookup dir H = None ->
  exists v',
    unpack_of (stream_body (Dir q es) +:+ tnet.dump_line trailer) dir
      (World (H ++ [(dir, Dir (creat_dir um)
                            (image_entries um (height (Dir q es))
                               (sorted_entries (Dir q es))))]) U um)
    = (UState ""
         (World (image_entries um (height (Dir q es)) (sorted_entries (Dir q es)))
            (Frame dir (creat_dir um) H [] :: U) um) v',
       Ok trailer).
Proof.
  intros Hd Hp Hfree.
  set (d := Dir q es) in *. set (h := height d).
  destruct (ents_ok_sorted_entries q es h Hd) as [Hnd Hall]; [unfold h, d; lia|].
  fold d in Hnd, Hall. set (ents := sorted_entries d) in *.
  set (man := manifest (S h) d).
  assert (stream_body d +:+ tnet.dump_line trailer
          = tnet.dump_line "dfo--"
              +:+ (framed ["> ."; ""]
                     +:+ (framed (entries_blobs h ents)
                            +:+ (framed ["< ."; man]
                                   +:+ (tnet.dump_line trailer +:+ "")))))
    as ->.
  { unfold stream_body, root_manifest. fold h. fold man.
    change (blobs (S h) d) with (entries_blobs h ents).
    cbn [app]. rewrite !framed_cons, !framed_app, !framed_cons.
    cbn [framed fold_right]. str_norm. reflexivity. }
  destruct (reunpack_some um h ents (conj Hnd Hall) ents (fun e He => He)
              (Frame dir (creat_dir um) H [] :: U) 0%nat [] [[]] 1
              (framed ["< ."; man] +:+ (tnet.dump_line trailer +:+ "")))
    as (n & extra & Hn & E).
  { cbn. lia. }
  { lia. }
  eexists. unfold unpack_of, _UnpackTree.
  unfold bind at 1. unfold on_fs at 1. cbn [in_file fs ver].
  rewrite (MakeOneDir_existing dir (Dir (creat_dir um) (image_entries um h ents)))
    by (try assumption; apply lookup_fresh; assumption).
  unfold bind at 1. unfold on_fs at 1. cbn [in_file fs ver].
  rewrite chdir_into by (try assumption; apply find_entry_fresh; assumption).
  unfold bind at 1. unfold on_ver at 1. cbn [in_file fs ver].
  unfold bind at 1. rewrite read_or_dump_line.
  cbn [String.eqb Ascii.eqb Bool.eqb negb].
  unfold bind at 1. cbn [in_file].
  match goal with
  | |- context [S (String.length ?s)] =>
      assert (exists k, S (String.length s) = S (n + S k)) as [k ->]
  end.
  { match goal with
    | |- context [S (String.length ?s)] => exists (String.length s - n - 1)%nat
    end.
    rewrite !str_length_app.
    pose proof (framed_pair_length "> ." "").
    pose proof (framed_pair_length "< ." man). lia. }
  rewrite step_push_root. cbn [verifier.Push verifier.__init__ fst lists stack length app Z.add].
  cbn [app] in E. change (0 + 1) with 1. rewrite (E (S k)).
  change (fun l => l ++ checksums (manifest h) ents)
    with (fun l : list (string * string) => l ++ checksums (manifest h) ents).
  change "< ." with ("< " +:+ ".").
  erewrite step_pop_root;
    [|apply (Pop_again um h (manifest h) _ _ ents 0%nat []);
        [exact Hnd
        |eapply List.Forall_impl; [|exact Hall]; intros e (? & ?%tree_of_not_special & _);
           split; assumption
        |reflexivity]
     |apply OnEntry_spec].
  unfold bind. rewrite read_or_dump_line. unfold ret.
  reflexivity.
Qed.

(** X15. Unpacking a pack a second time into the same destination
    succeeds and changes nothing: every file is rewritten with the bytes
    it holds and keeps its mode, every symlink and directory is found
    there and kept, the verification passes again with the same root
    checksum, and the file system is left as the first unpack left it. *)
Theorem unpack_twice (T : node) (dir : string) (w : world) :
  is_dir T = true ->
  tree_of good_name T = true ->
  os.plain dir = true ->
  os.lookup dir (here w) = None ->
  exists stream r s1 s2,
    PackTree T "" = (stream, Ok r)
    /\ unpack_of stream dir w = (s1, Ok (fst r))
    /\ unpack_of stream dir (fst (os.chdir ".." (fs s1))) = (s2, Ok (fst r))
    /\ fs s2 = fs s1.
Proof.
  intros Hdir HT Hp Hfree. destruct T as [| |q es|]; try discriminate.
  destruct w as [H U um]. cbn [here up umask] in *.
  set (T := Dir q es) in *.
  destruct (unpack_stream um q es dir H U
              (Sha1.hexdigest (root_manifest T)) HT Hp Hfree) as [v1 E1].
  destruct (unpack_stream_again um q es dir H U
              (Sha1.hexdigest (root_manifest T)) HT Hp Hfree) as [v2 E2].
  fold T in E1, E2.
  exists (stream_of T), (Sha1.hexdigest (root_manifest T), count (S (height T)) T).
  do 2 eexists.
  split; [apply (PackTree_spec good_name); assumption|].
  split; [exact E1|]. split; [exact E2|]. reflexivity.
Qed.

Lemma unpack_twice_witness :
  exists stream r s1 s2,
    PackTree tree_ab "" = (stream, Ok r)
    /\ unpack_of stream "out" w0 = (s1, Ok (fst r))
    /\ unpack_of stream "out" (fst (os.chdir ".." (fs s1))) = (s2, Ok (fst r))
    /\ fs s2 = fs s1.
Proof.
  apply (unpack_twice tree_ab "out" w0); reflexivity.
Defined.

(** ** A stream that stops early *)

Lemma unpack_loop_eof f level w v :
  unpack_loop (S f) level (UState "" w v) = (UState "" w v, Ok tt).
Proof. reflexivity. Qed.

(** X16. The end of the stream ends the loop at any depth.  When the
    stream of a tree stops before the record that closes the root,
    unpack has made every entry of the tree, raises the error of a
    missing root checksum, and leaves the entries of the root as they
    were made: never compared with a manifest, the files without their
    exec bits. *)
Theorem cut_stream_leaves_entries (T : node) (dir : string) (w : world) :
  is_dir T = true ->
  tree_of good_name T = true ->
  os.plain dir = true ->
  os.lookup dir (here w) = None ->
  exists v',
    unpack_of (cut_stream T) dir w
    = (UState ""
         (World (fresh_entries (umask w) (height T) (sorted_entries T))
            (Frame dir (creat_dir (umask w)) (here w) [] :: up w) (umask w)) v',
       Raise (RuntimeError ExpectedRootChecksumGotEOF)).
Proof.
  intros Hdir Hd Hp Hfree. destruct T as [| |q es|]; try discriminate.
  destruct w as [H U um]. cbn [here up umask] in *.
  set (d := Dir q es) in *. set (h := height d).
  destruct (ents_ok_sorted_entries q es h Hd) as [Hnd Hall]; [unfold h, d; lia|].
  fold d in Hnd, Hall. set (ents := sorted_entries d) in *.
  assert (cut_stream d
          = tnet.dump_line "dfo--"
              +:+ (framed ["> ."; ""] +:+ (framed (entries_blobs h ents) +:+ "")))
    as ->.
  { unfold cut_stream. fold h.
    change (blobs (S h) d) with (entries_blobs h ents).
    cbn [app]. rewrite !framed_cons.
    cbn [framed fold_right]. str_norm. reflexivity. }
  destruct (unpack_entries um h ents (conj Hnd Hall) []
              (Frame dir (creat_dir um) H [] :: U) 0%nat [] [[]] 1 "")
    as (n & extra & Hn & E).
  { apply List.Forall_forall. intros; reflexivity. }
  { cbn. lia. }
  { lia. }
  eexists. unfold unpack_of, _UnpackTree. rewrite unpack_enter by assumption.
  unfold bind at 1. rewrite read_or_dump_line.
  cbn [String.eqb Ascii.eqb Bool.eqb negb].
  unfold bind at 1. cbn [in_file].
  match goal with
  | |- context [S (String.length ?s)] =>
      assert (exists k, S (String.length s) = S (n + S k)) as [k ->]
  end.
  { match goal with
    | |- context [S (String.length ?s)] => exists (String.length s - n - 1)%nat
    end.
    rewrite !str_length_app.
    pose proof (framed_pair_length "> ." ""). lia. }
  rewrite step_push_root.
  cbn [verifier.Push verifier.__init__ fst lists stack length app Z.add].
  cbn [app] in E. change (0 + 1) with 1. rewrite (E (S k)).
  rewrite unpack_loop_eof.
  unfold bind. rewrite read_or_empty. reflexivity.
Qed.

Lemma cut_stream_leaves_entries_witness :
  exists v',
    unpack_of (cut_stream tree_ab) "out" w0
    = (UState ""
         (World (fresh_entries (umask w0) (height tree_ab) (sorted_entries tree_ab))
            (Frame "out" (creat_dir (umask w0)) (here w0) [] :: up w0) (umask w0)) v',
       Raise (RuntimeError ExpectedRootChecksumGotEOF)).
Proof.
  apply (cut_stream_leaves_entries tree_ab "out" w0); reflexivity.
Defined.

(** ** A close with no directory open *)

(** X17. When [Pop] is called while [self.current] is still [None], as for
    a record that closes a directory before any record opened one, the
    chmod of every [x] line is applied, the comparison fails, and the
    loop that logs the list collected raises [TypeError]: the integrity
    error is not reached, and the exception is not a [RuntimeError]. *)
Theorem Pop_without_list (lines : list mline) (i : string)
    (es : list (string * node)) (U : list frame) (um : Z) (v : Verifier) :
  List.NoDup (map fst es) ->
  Forall (fun l => line_ok l = true) lines ->
  x_present lines es = true ->
  current v = None ->
  verifier.Pop (Py.join_lines (map render lines)) (UState i (World es U um) v)
  = (UState i (World (mark_x (x_names lines) es) U um) v, Raise TypeError).
Proof.
  intros Hnd Hok Hx Hcur. rewrite Pop_general by assumption.
  unfold verifier.actual. rewrite Hcur.
  destruct (decide _) as [E|_]; [discriminate|]. reflexivity.
Qed.

Lemma Pop_without_list_witness :
  verifier.Pop (Py.join_lines (map render [line_a; line_b']))
    (UState "" (World (here w2) [] 18) verifier.__init__)
  = (UState "" (World (mark_x (x_names [line_a; line_b']) (here w2)) [] 18)
       verifier.__init__, Raise TypeError).
Proof.
  apply (Pop_without_list [line_a; line_b'] "" (here w2) [] 18 verifier.__init__).
  - apply distinct_NoDup. reflexivity.
  - repeat constructor.
  - reflexivity.
  - reflexivity.
Defined.
